(** * Network Researcher: a shallow embedding of [network_researcher.py]

    The program wires a prebuilt reasoning agent to remote MCP tool servers
    and exposes it through an interactive loop or an A2A network server,
    plus a small health endpoint.  Everything the program does is an effect
    on the outside world, so the embedding is a trace-producing program in a
    small state-and-exception monad: the state is the agent's conversation
    memory, the trace is the ordered list of observable effects, and the
    result is either a value or a raised Python exception.

    The outside world (environment variables, what the MCP servers answer,
    whether the health socket can be bound, what the agent answers and what
    the terminal delivers) is an explicit parameter, and so are the
    interpreter's own string operations ([str.strip], [str.lower], [int],
    [str] of a list), whose behaviour on arbitrary Unicode text is Python's
    and not the program's. *)

From stdpp Require Import base option list strings gmap pretty.
From Stdlib Require Import ZArith Lia Ascii.

Local Open Scope Z_scope.

(** ** Python's string operations on ASCII text

    What [str.strip], [str.lower], [int] and [str] do on text made of
    ASCII characters only.  The program itself is modelled over the
    interpreter's operations (the [py_...] fields of [World]); these
    definitions are the operations of the concrete worlds, whose texts are
    ASCII.  Only the decimal rendering of an integer ([of_nat], [of_Z]),
    which involves no text from outside, is used by the program directly. *)

Module PyStr.

(** The characters [str.isspace] accepts in the ASCII range: TAB, LF,
    VT, FF, CR, the four separators FS..US and the space. *)
Definition isspace (c : ascii) : bool :=
  let n := nat_of_ascii c in
  ((9 <=? n)%nat && (n <=? 13)%nat) || ((28 <=? n)%nat && (n <=? 32)%nat).

Fixpoint lstrip (s : string) : string :=
  match s with
  | EmptyString => EmptyString
  | String c s' => if isspace c then lstrip s' else s
  end.

(** [rstrip] drops the trailing run of whitespace: a character is kept
    when something survives after it or it is not whitespace itself. *)
Fixpoint rstrip (s : string) : string :=
  match s with
  | EmptyString => EmptyString
  | String c s' =>
      match rstrip s' with
      | EmptyString => if isspace c then EmptyString else String c EmptyString
      | r => String c r
      end
  end.

Definition strip (s : string) : string := rstrip (lstrip s).

Definition lower_char (c : ascii) : ascii :=
  let n := nat_of_ascii c in
  if ((65 <=? n)%nat && (n <=? 90)%nat)%bool then ascii_of_nat (n + 32) else c.

Fixpoint lower (s : string) : string :=
  match s with
  | EmptyString => EmptyString
  | String c s' => String (lower_char c) (lower s')
  end.

Definition is_digit (c : ascii) : bool :=
  let n := nat_of_ascii c in ((48 <=? n)%nat && (n <=? 57)%nat)%bool.

Definition digit_val (c : ascii) : Z := Z.of_nat (nat_of_ascii c - 48).

(** Digits of a decimal literal; a single underscore may separate two
    digits.  [seen] counts the digits read, [after_digit] tells whether
    the previous character was a digit. *)
Fixpoint digits (acc : Z) (seen : nat) (after_digit : bool) (s : string)
  : option (Z * nat) :=
  match s with
  | EmptyString => if after_digit then Some (acc, seen) else None
  | String c s' =>
      if is_digit c then digits (10 * acc + digit_val c) (S seen) true s'
      else if Ascii.eqb c "_"%char
           then (if after_digit then digits acc seen false s' else None)
           else None
  end.

(** CPython refuses decimal literals longer than this many digits. *)
Definition int_max_str_digits : nat := 4300.

(** The blanks [int] skips around a literal: TAB, LF, VT, FF, CR and the
    space (the separators FS..US are not among them). *)
Definition isblank (c : ascii) : bool :=
  let n := nat_of_ascii c in
  ((9 <=? n)%nat && (n <=? 13)%nat) || (n =? 32)%nat.

Fixpoint skip_blanks (s : string) : string :=
  match s with
  | EmptyString => EmptyString
  | String c s' => if isblank c then skip_blanks s' else s
  end.

Fixpoint drop_trailing_blanks (s : string) : string :=
  match s with
  | EmptyString => EmptyString
  | String c s' =>
      match drop_trailing_blanks s' with
      | EmptyString => if isblank c then EmptyString else String c EmptyString
      | r => String c r
      end
  end.

Definition magnitude (s : string) : option Z :=
  match digits 0 0 false s with
  | Some (v, seen) => if (seen <=? int_max_str_digits)%nat then Some v else None
  | None => None
  end.

(** [int(s)] in base ten on ASCII text: surrounding blanks, an optional
    sign, the digits.  [None] stands for the [ValueError] Python raises. *)
Definition int (s : string) : option Z :=
  match drop_trailing_blanks (skip_blanks s) with
  | String "+" r => magnitude r
  | String "-" r => Z.opp <$> magnitude r
  | r => magnitude r
  end.

(** [repr] of a string of printable ASCII characters other than the
    quotes and the backslash. *)
Definition repr (s : string) : string := "'" +:+ s +:+ "'".

Fixpoint join (sep : string) (l : list string) : string :=
  match l with
  | [] => ""
  | [x] => x
  | x :: l' => x +:+ sep +:+ join sep l'
  end.

Definition repr_list (l : list string) : string :=
  "[" +:+ join ", " (repr <$> l) +:+ "]".

Definition of_nat (n : nat) : string := pretty n.
Definition of_Z (z : Z) : string := pretty z.

End PyStr.

(** ** Exceptions and results *)

(** The raised values the program distinguishes: its [except] clauses name
    [KeyboardInterrupt] and [Exception]; whatever derives from
    [BaseException] only ([SystemExit], [CancelledError], ...) is matched
    by neither. *)
Inductive PyExc : Type :=
| KeyboardInterrupt
| PyException (cls msg : string)
| PyBaseException (cls msg : string).

(** [isinstance(e, Exception)] *)
Definition is_Exception (e : PyExc) : bool :=
  match e with PyException _ _ => true | _ => false end.

(** [str(e)] *)
Definition str (e : PyExc) : string :=
  match e with
  | KeyboardInterrupt => ""
  | PyException _ msg => msg
  | PyBaseException _ msg => msg
  end.

Inductive Result (A : Type) : Type :=
| Ok (a : A)
| Raise (e : PyExc).
Arguments Ok {A} a.
Arguments Raise {A} e.

Definition ValueError (msg : string) : PyExc := PyException "ValueError" msg.
Definition OSError (msg : string) : PyExc := PyException "OSError" msg.
Definition OverflowError (msg : string) : PyExc := PyException "OverflowError" msg.
Definition RuntimeError (msg : string) : PyExc := PyException "RuntimeError" msg.

Definition nl : string := String (ascii_of_nat 10) EmptyString.

(** ** Data *)

Record Tool := { tool_name : string; tool_description : string }.

Record Message := { role : string; content : string }.

(** An entry of [MCP_SERVERS] / [IC_MCP_SERVERS]. *)
Record ServerConfig := {
  sc_name : string;
  sc_url : string;
  sc_description : string
}.

(** An entry of [mcp_config]. *)
Record Connection := { transport : string; conn_url : string }.

(** Python dicts iterate in insertion order and the program relies on it
    ([.items()]), so they are association lists; [dict_set] is [d[k] = v]. *)
Fixpoint dict_set {V : Type} (k : string) (v : V) (d : list (string * V))
  : list (string * V) :=
  match d with
  | [] => [(k, v)]
  | (k', v') :: d' =>
      if decide (k' = k) then (k, v) :: d' else (k', v') :: dict_set k v d'
  end.

Record AgentSkill := {
  skill_name : string;
  skill_description : string;
  examples : list string
}.

Record AgentCard := {
  card_name : string;
  card_description : string;
  skills : list AgentSkill;
  capabilities : list (string * bool);
  card_url : string
}.

Record ChatOpenAI := {
  base_url : string;
  api_key : string;
  model_name : string;
  max_tokens : Z
}.

(** What [create_react_agent] was given. *)
Record Agent := {
  agent_model : ChatOpenAI;
  agent_tools : list Tool;
  agent_prompt : string
}.

(** Parsed command line: [--host] and [--port] are [None] when absent. *)
Record Args := {
  arg_interactive : bool;
  arg_host : option string;
  arg_port : option Z;
  arg_ic : bool
}.

(** An [HTTPServer], with the address its constructor was given to bind
    (port 0 asks the system for a free port), and a [threading.Thread]
    whose target runs [serve_forever] of such a server.  [serve_forever]
    handles requests until [shutdown()] is called on the server; a daemon
    thread is not waited for when the process ends and ends with it. *)
Record Server := { bind_address : string * Z }.

Record Thread := { serve_forever : Server; daemon : bool }.

(** ** Observable effects *)

Inductive Event : Type :=
| EPrint (s : string)
| EInput (prompt : string)
| ELogInfo (s : string)
| ELogError (s : string)
| EChatOpenAI (m : ChatOpenAI)
| EGetTools (cfg : list (string * Connection))
| ECreateAgent (a : Agent)
| EAinvoke (messages : list Message) (thread_id : string)
| EPrettyPrint (m : Message)
| EToA2AServer (a : Agent)
| EAgentCard (c : AgentCard)
| EHealthThread (thread : Thread)
| ERunServer (host : string) (port : Z).

(** ** Health endpoint: [HealthCheckHandler] *)

Module HealthCheckHandler.

(** The request attributes of a [BaseHTTPRequestHandler]. *)
Record t := {
  command : string;
  path : string;
  request_headers : list (string * string)
}.

(** What the handler's own statements have put on the wire so far: the
    status it chose, the headers of its [send_header] calls, the end of the
    headers and the body.  (The [Server] and [Date] headers, which the
    base class adds of its own in [send_response], are not among them.) *)
Record Response := {
  status : option Z;
  headers : list (string * string);
  headers_ended : bool;
  wfile : string
}.

Definition empty : Response :=
  {| status := None; headers := []; headers_ended := false; wfile := "" |}.

Definition send_response (code : Z) (r : Response) : Response :=
  {| status := Some code; headers := headers r;
     headers_ended := headers_ended r; wfile := wfile r |}.

Definition send_header (k v : string) (r : Response) : Response :=
  {| status := status r; headers := headers r ++ [(k, v)];
     headers_ended := headers_ended r; wfile := wfile r |}.

Definition end_headers (r : Response) : Response :=
  {| status := status r; headers := headers r;
     headers_ended := true; wfile := wfile r |}.

Definition write (b : string) (r : Response) : Response :=
  {| status := status r; headers := headers r;
     headers_ended := headers_ended r; wfile := wfile r +:+ b |}.

Definition do_GET (self : t) : Response :=
  if decide (path self = "/health") then
    write "OK" (end_headers (send_header "Content-type" "text/plain"
                               (send_response 200 empty)))
  else
    end_headers (send_response 404 empty).

End HealthCheckHandler.

(** ** Tool registry configuration *)

(** [os.getenv(key, default)] *)
Definition getenv (environ : gmap string string) (key dflt : string) : string :=
  default dflt (environ !! key).

Definition MCP_SERVERS (environ : gmap string string)
  : list (string * ServerConfig) :=
  [ ("ovs-vswitchd",
     {| sc_name := "Open vSwitch Database";
        sc_url := getenv environ "MCP_OVS_VSWITCHD_URL" "http://localhost:8080";
        sc_description := "Manages Open vSwitch bridges, ports, interfaces, flow tables, and controllers" |});
    ("ovn-nb",
     {| sc_name := "OVN Northbound Database";
        sc_url := getenv environ "MCP_OVN_NB_URL" "http://localhost:8081";
        sc_description := "Manages logical switches, routers, load balancers, ACLs, and DHCP options" |});
    ("ovn-sb",
     {| sc_name := "OVN Southbound Database";
        sc_url := getenv environ "MCP_OVN_SB_URL" "http://localhost:8082";
        sc_description := "Manages chassis, datapaths, logical flows, port bindings, and MAC bindings" |}) ].

Definition IC_MCP_SERVERS (environ : gmap string string)
  : list (string * ServerConfig) :=
  [ ("ovn-ic-nb",
     {| sc_name := "OVN IC Northbound Database";
        sc_url := getenv environ "MCP_OVN_IC_NB_URL" "http://localhost:8083";
        sc_description := "Manages interconnection global config, transit switches, and SSL configs" |});
    ("ovn-ic-sb",
     {| sc_name := "OVN IC Southbound Database";
        sc_url := getenv environ "MCP_OVN_IC_SB_URL" "http://localhost:8084";
        sc_description := "Manages availability zones, gateways, and interconnection routing" |}) ].

(** ** The outside world *)

Record World := {
  (** [os.environ] *)
  environ : gmap string string;
  (** The interpreter's [s.strip()] and [s.lower()]. *)
  py_strip : string -> string;
  py_lower : string -> string;
  (** The interpreter's [int(s)]: the value, or the message of the
      [ValueError] it raises. *)
  py_int : string -> Z + string;
  (** The interpreter's [str] of a list of strings, as an f-string renders
      it. *)
  py_str_list : list string -> string;
  (** What loading the tools of one connection yields during the [n]-th
      call of [MultiServerMCPClient.get_tools] (the program makes two). *)
  load_mcp_tools : nat -> Connection -> Result (list Tool);
  (** [HTTPServer((host, port), ...)]: the [OSError] message when the socket
      cannot be bound, [None] when it can. *)
  server_bind : Z -> option string;
  (** [Thread.start()]: the [RuntimeError] message when no thread can be
      started. *)
  thread_start : option string
}.

(** ** The program monad and [main] *)

Section Researcher.

(** The conversation memory kept by the agent's checkpointer, and the
    prebuilt agent itself: given the memory, the input messages and the
    thread id, a turn changes the memory and returns the response messages
    or raises. *)
Context {Memory : Type}.
Variable ainvoke :
  Agent -> list Message -> string -> Memory -> Memory * Result (list Message).

Variable w : World.

Definition M (A : Type) : Type := Memory -> list Event * Memory * Result A.

#[local] Instance M_ret : MRet M := fun A a mem => ([], mem, Ok a).

#[local] Instance M_bind : MBind M := fun A B f m mem =>
  match m mem with
  | (t1, mem1, Ok a) =>
      match f a mem1 with
      | (t2, mem2, r) => (t1 ++ t2, mem2, r)
      end
  | (t1, mem1, Raise e) => (t1, mem1, Raise e)
  end.

Definition emit (ev : Event) : M unit := fun mem => ([ev], mem, Ok tt).

Definition raise {A : Type} (e : PyExc) : M A := fun mem => ([], mem, Raise e).

Definition lift {A : Type} (r : Result A) : M A := fun mem => ([], mem, r).

(** [try: body / except ...: handler]; the handler re-raises what its
    clauses do not match. *)
Definition try_except {A : Type} (body : M A) (handler : PyExc -> M A) : M A :=
  fun mem =>
    match body mem with
    | (t1, mem1, Raise e) =>
        match handler e mem1 with
        | (t2, mem2, r) => (t1 ++ t2, mem2, r)
        end
    | done => done
    end.

Fixpoint for_each {A : Type} (l : list A) (body : A -> M unit) : M unit :=
  match l with
  | [] => mret tt
  | x :: l' => body x;; for_each l' body
  end.

Definition print (s : string) : M unit := emit (EPrint s).
Definition log_info (s : string) : M unit := emit (ELogInfo s).
Definition log_error (s : string) : M unit := emit (ELogError s).

(** [int(s)] as a computation. *)
Definition int (s : string) : M Z :=
  match py_int w s with
  | inl z => mret z
  | inr msg => raise (ValueError msg)
  end.

(** *** [MultiServerMCPClient] *)

(** Tools are loaded connection by connection, in the order of the
    configuration, and concatenated; a connection that fails makes the
    whole call fail. *)
Fixpoint gather_tools (n : nat) (conns : list Connection) : Result (list Tool) :=
  match conns with
  | [] => Ok []
  | c :: conns' =>
      match load_mcp_tools w n c with
      | Raise e => Raise e
      | Ok ts =>
          match gather_tools n conns' with
          | Raise e => Raise e
          | Ok rest => Ok (ts ++ rest)
          end
      end
  end.

Definition get_tools (n : nat) (mcp_config : list (string * Connection))
  : M (list Tool) :=
  emit (EGetTools mcp_config);;
  lift (gather_tools n (snd <$> mcp_config)).

(** *** [_start_health_server] *)

Definition HTTPServer (host : string) (port : Z) : M Server :=
  if decide (0 <= port <= 65535) then
    match server_bind w port with
    | Some msg => raise (OSError msg)
    | None => mret {| bind_address := (host, port) |}
    end
  else raise (OverflowError "bind(): port must be 0-65535.").

(** [thread.start()] *)
Definition Thread_start (thread : Thread) : M unit :=
  match thread_start w with
  | Some msg => raise (RuntimeError msg)
  | None => emit (EHealthThread thread)
  end.

Definition _start_health_server : M unit :=
  try_except
    (health_port ← int (getenv (environ w) "HEALTH_PORT" "8086");
     health_server ← HTTPServer "0.0.0.0" health_port;
     let health_thread := {| serve_forever := health_server; daemon := true |} in
     Thread_start health_thread;;
     log_info ("Health check server started on port " +:+ PyStr.of_Z health_port))
    (fun e =>
       if is_Exception e
       then log_error ("Failed to start health check server: " +:+ str e)
       else raise e).

(** *** [main] *)

(** [main], lines 138-164: the defaults of [--host] and [--port] are read
    from the environment while the parser is built, so a malformed
    [A2A_PORT] raises before anything is parsed. *)
Definition parse_args (args : Args) : M (string * Z) :=
  let host_default := getenv (environ w) "A2A_HOST" "0.0.0.0" in
  port_default ← int (getenv (environ w) "A2A_PORT" "8085");
  mret (default host_default (arg_host args), default port_default (arg_port args)).

(** [main], lines 167-195. *)
Definition create_model : M ChatOpenAI :=
  print "🔍 Network Researcher with OpenAI-compatible model";;
  print "============================================================";;
  print "This researcher uses an OpenAI-compatible server for inference!";;
  print "============================================================";;
  let model_endpoint_url :=
    getenv (environ w) "RESEARCHER_MODEL_ENDPOINT_URL" "http://localhost:11434" in
  (if decide (model_endpoint_url = "")
   then raise (ValueError "RESEARCHER_MODEL_ENDPOINT_URL environment variable must be set")
   else mret tt);;
  let model_name := getenv (environ w) "RESEARCHER_MODEL_NAME" "default" in
  let model := {| base_url := model_endpoint_url; api_key := "dummy";
                  model_name := model_name; max_tokens := 4096 |} in
  emit (EChatOpenAI model);;
  log_info "Initializing Network Researcher with OpenAI-compatible model...";;
  log_info ("Using model endpoint: " +:+ model_endpoint_url);;
  log_info ("Using model: " +:+ model_name);;
  mret model.

(** One pass of [for server_name, server_config in servers.items()]
    filling [mcp_config]. *)
Fixpoint add_servers (servers : list (string * ServerConfig))
         (mcp_config : list (string * Connection))
  : M (list (string * Connection)) :=
  match servers with
  | [] => mret mcp_config
  | (server_name, server_config) :: servers' =>
      let mcp_config' :=
        dict_set server_name
          {| transport := "streamable_http"; conn_url := sc_url server_config |}
          mcp_config in
      log_info ("MCP Server " +:+ server_name +:+ ": " +:+ sc_url server_config);;
      add_servers servers' mcp_config'
  end.

Definition log_tools (tools : list Tool) : M unit :=
  log_info ("Successfully loaded " +:+ PyStr.of_nat (length tools)
            +:+ " tools from MCP servers");;
  let tool_names := tool_name <$> tools in
  log_info ("Available tools: " +:+ py_str_list w tool_names).

(** [main], lines 197-247.  The configuration is built and the tools are
    fetched twice; the second round starts again from an empty
    configuration, fills it from [MCP_SERVERS] only, and its result is the
    one bound to [tools] afterwards. *)
Definition load_tools (args : Args) : M (list Tool) :=
  mcp_config ← add_servers (MCP_SERVERS (environ w)) [];
  mcp_config ← (if arg_ic args
                then add_servers (IC_MCP_SERVERS (environ w)) mcp_config
                else mret mcp_config);
  tools ← get_tools 0 mcp_config;
  log_tools tools;;
  mcp_config ← add_servers (MCP_SERVERS (environ w)) [];
  try_except
    (tools ← get_tools 1 mcp_config;
     log_tools tools;;
     mret tools)
    (fun e =>
       if is_Exception e
       then log_error ("Failed to load tools from MCP servers: " +:+ str e);;
            raise e
       else raise e).

Definition prompt : string :=
"You are a network researcher that MUST use tools to gather information from OVS/OVN databases.
You are running in a Kubernetes cluster where OVN-Kubernetes is installed and providing the networking for the cluster.

IMPORTANT: You MUST use the available tools to gather information. Do not make assumptions or provide generic answers.

When users ask questions:
1. ALWAYS identify which tools are needed to gather the requested information
2. USE those tools to collect data from the databases
3. Return the raw information gathered from the tools

For example:
- If asked about bridges, use the list_bridges tool
- If asked about logical switches, use the list_logical_switches tool
- If asked about ACLs, use the list_acls tool
- If asked about network topology, use multiple tools to gather comprehensive information

You are NOT responsible for:
- Making configuration changes
- Performing debugging or troubleshooting
- Executing commands to fix issues
- Providing expert analysis or recommendations

Your job is to gather and return the requested information using the available tools.".

(** [type(agent).__name__]: the class langgraph's [create_react_agent]
    returns. *)
Definition agent_type_name : string := "CompiledStateGraph".

(** [main], lines 274-291. *)
Definition create_agent (model : ChatOpenAI) (tools : list Tool) : M Agent :=
  let agent := {| agent_model := model; agent_tools := tools;
                  agent_prompt := prompt |} in
  emit (ECreateAgent agent);;
  log_info ("Agent created successfully with " +:+ PyStr.of_nat (length tools)
            +:+ " tools");;
  log_info ("Agent type: " +:+ agent_type_name);;
  print "✅ Researcher initialized successfully!";;
  print "I can gather information about Open Virtual Networking and Open vSwitch.";;
  print "I can help you with:";;
  print "- Network configuration data";;
  print "- OVS/OVN database queries";;
  print "- Network topology information";;
  print "- Current network state";;
  print (nl +:+ "Connected to "
         +:+ PyStr.of_nat (length (MCP_SERVERS (environ w)))
         +:+ " MCP servers with " +:+ PyStr.of_nat (length tools) +:+ " tools");;
  mret agent.

(** *** Interactive front-end *)

(** [await agent.ainvoke({"messages": messages}, config)] with
    [config = {"configurable": {"thread_id": thread_id}}]; the value is
    [response["messages"]]. *)
Definition agent_ainvoke (agent : Agent) (messages : list Message)
           (thread_id : string) : M (list Message) :=
  fun mem =>
    match ainvoke agent messages thread_id mem with
    | (mem', r) => ([EAinvoke messages thread_id], mem', r)
    end.

Definition pretty_print_all (messages : list Message) : M unit :=
  for_each messages (fun message => emit (EPrettyPrint message)).

(** [input(prompt)]: what the terminal delivers next is either a line or
    an exception ([KeyboardInterrupt] on Ctrl-C, [EOFError] at end of
    input). *)
Definition input (prompt : string) (delivered : Result string) : M string :=
  emit (EInput prompt);;
  lift delivered.

Inductive Flow : Type := Continue | Break.

(** The [try] block of one iteration, lines 301-327. *)
Definition turn_body (agent : Agent) (thread_id : string)
           (delivered : Result string) : M Flow :=
  line ← input (nl +:+ "You: ") delivered;
  let user_input := py_strip w line in
  if bool_decide (py_lower w user_input ∈ ["quit"; "exit"; "q"]) then
    print "Goodbye! 👋";;
    mret Break
  else if decide (py_lower w user_input = "test") then
    print (nl +:+ "🔍 Running the usage test...");;
    response ← agent_ainvoke agent
      [ {| role := "user";
           content := "Please summarize the logical network topology in OVN" |} ]
      thread_id;
    pretty_print_all response;;
    mret Continue
  else
    print (nl +:+ "🔍 Researching...");;
    response ← agent_ainvoke agent
      [ {| role := "user"; content := user_input |} ] thread_id;
    pretty_print_all response;;
    mret Continue.

(** One iteration with its [except] clauses, lines 300-333. *)
Definition turn (agent : Agent) (thread_id : string)
           (delivered : Result string) : M Flow :=
  try_except (turn_body agent thread_id delivered)
    (fun e =>
       match e with
       | KeyboardInterrupt =>
           print (nl +:+ nl +:+ "Goodbye! 👋");;
           mret Break
       | PyException _ _ =>
           print (nl +:+ "Error: " +:+ str e);;
           mret Continue
       | PyBaseException _ _ => raise e
       end).

(** How the loop stands once the terminal script is used up. *)
Inductive LoopEnd : Type :=
| Exited        (** left through [break] *)
| AwaitingInput (** blocked in [input()], every delivered item consumed *).

(** [while True:] over what the terminal delivers, one item per
    iteration. *)
Fixpoint interactive_loop (agent : Agent) (thread_id : string)
         (script : list (Result string)) : M LoopEnd :=
  match script with
  | [] => mret AwaitingInput
  | delivered :: script' =>
      flow ← turn agent thread_id delivered;
      match flow with
      | Break => mret Exited
      | Continue => interactive_loop agent thread_id script'
      end
  end.

(** [main], lines 293-333. *)
Definition interactive (agent : Agent) (script : list (Result string))
  : M LoopEnd :=
  print (nl +:+ "Type 'quit' to exit");;
  print "------------------------------------------------------------";;
  let thread_id := "1" in
  interactive_loop agent thread_id script.

(** *** Network front-end *)

Definition agent_card (host : string) (port : Z) : AgentCard :=
  {| card_name := "Network Researcher";
     card_description := "I can gather information about Open Virtual Networking and Open vSwitch to answer questions about the network.";
     skills :=
       [ {| skill_name := "Research Network Information";
            skill_description := "Uses tools to gather information about the network.";
            examples :=
              [ "What is the OVN network topology?";
                "How many logical switches are there?";
                "Are there any ACLs configured?";
                "What Open vSwitch bridges are there?";
                "What are the current flows in Open vSwitch?" ] |} ];
     capabilities := [("streaming", true); ("memory", true)];
     card_url := "http://" +:+ host +:+ ":" +:+ PyStr.of_Z port |}.

(** [main], lines 335-374.  [run_server] does not return while the server
    runs; the trace ends with the call.  What the running server then does
    on inbound requests (the A2A adapter asks the wrapped agent) is the
    library's and has no event here: a trace holds the effects of the
    statements of [main]. *)
Definition serve_a2a (agent : Agent) (host : string) (port : Z) : M unit :=
  emit (EToA2AServer agent);;
  emit (EAgentCard (agent_card host port));;
  _start_health_server;;
  print "✅ A2A Server initialized successfully!";;
  print "I can gather information about Open Virtual Networking and Open vSwitch.";;
  print ("Connected to " +:+ PyStr.of_nat (length (MCP_SERVERS (environ w)))
         +:+ " MCP servers");;
  print ("Using OpenAI-compatible model at: "
         +:+ default "None" (environ w !! "RESEARCHER_MODEL_ENDPOINT_URL"));;
  print ("A2A Server listening on " +:+ host +:+ ":" +:+ PyStr.of_Z port);;
  print (nl +:+ "Ready to accept A2A connections!");;
  print "--------------------------------------------------";;
  emit (ERunServer host port).

(** Where a run of [main] stands at the end of its trace. *)
Inductive Outcome : Type :=
| Returned      (** the interactive loop was left, [main] returned *)
| Waiting       (** interactive mode, blocked in [input()] *)
| Serving       (** network mode, inside [run_server] *).

Definition main (args : Args) (script : list (Result string)) : M Outcome :=
  '(host, port) ← parse_args args;
  model ← create_model;
  tools ← load_tools args;
  agent ← create_agent model tools;
  if arg_interactive args then
    loop_end ← interactive agent script;
    match loop_end with
    | Exited => mret Returned
    | AwaitingInput => mret Waiting
    end
  else
    serve_a2a agent host port;;
    mret Serving.

End Researcher.

#[global] Existing Instance M_ret.
#[global] Existing Instance M_bind.

Arguments M Memory A : clear implicits.

(** The servers a run configures for its first round of tool discovery:
    [MCP_SERVERS], followed by [IC_MCP_SERVERS] under [--ic]. *)
Definition registry (environ : gmap string string) (ic : bool)
  : list (string * ServerConfig) :=
  MCP_SERVERS environ ++ (if ic then IC_MCP_SERVERS environ else []).

(** The connection [main] derives from a registry entry. *)
Definition connection_of (server_config : ServerConfig) : Connection :=
  {| transport := "streamable_http"; conn_url := sc_url server_config |}.

(** The connections asked for their tools in round [n] of tool discovery:
    the whole registry in round 0, [MCP_SERVERS] alone in round 1. *)
Definition queried (environ : gmap string string) (ic : bool) (n : nat)
  : list Connection :=
  match n with
  | O => (connection_of ∘ snd) <$> registry environ ic
  | _ => (connection_of ∘ snd) <$> MCP_SERVERS environ
  end.

(** The documented table of section 6: server, environment variable,
    localhost default. *)
Definition documented_urls : list (string * (string * string)) :=
  [ ("ovs-vswitchd", ("MCP_OVS_VSWITCHD_URL", "http://localhost:8080"));
    ("ovn-nb", ("MCP_OVN_NB_URL", "http://localhost:8081"));
    ("ovn-sb", ("MCP_OVN_SB_URL", "http://localhost:8082"));
    ("ovn-ic-nb", ("MCP_OVN_IC_NB_URL", "http://localhost:8083"));
    ("ovn-ic-sb", ("MCP_OVN_IC_SB_URL", "http://localhost:8084")) ].

(** What one pass of [add_servers] over [servers] logs and, when no key
    repeats, the configuration it builds. *)
Definition server_logs (servers : list (string * ServerConfig)) : list Event :=
  (fun '(server_name, server_config) =>
     ELogInfo ("MCP Server " +:+ server_name +:+ ": " +:+ sc_url server_config))
    <$> servers.

Definition config_of (servers : list (string * ServerConfig))
  : list (string * Connection) :=
  (fun '(server_name, server_config) => (server_name, connection_of server_config))
    <$> servers.

(** The reasons for which the health listener cannot be started, each with
    the exception it raises inside [_start_health_server]: [HEALTH_PORT] is
    not an integer literal, the port is out of range, the socket cannot be
    bound (the port is already in use), no thread can be started. *)
Inductive health_failure (w : World) : PyExc -> Prop :=
| health_port_not_int (msg : string) :
    py_int w (getenv (environ w) "HEALTH_PORT" "8086") = inr msg ->
    health_failure w (ValueError msg)
| health_port_out_of_range (p : Z) :
    py_int w (getenv (environ w) "HEALTH_PORT" "8086") = inl p ->
    ~ (0 <= p <= 65535) ->
    health_failure w (OverflowError "bind(): port must be 0-65535.")
| health_bind_refused (p : Z) (msg : string) :
    py_int w (getenv (environ w) "HEALTH_PORT" "8086") = inl p ->
    0 <= p <= 65535 ->
    server_bind w p = Some msg ->
    health_failure w (OSError msg)
| health_no_thread (p : Z) (msg : string) :
    py_int w (getenv (environ w) "HEALTH_PORT" "8086") = inl p ->
    0 <= p <= 65535 ->
    server_bind w p = None ->
    thread_start w = Some msg ->
    health_failure w (RuntimeError msg).

(** What [serve_a2a] prints between the health listener and [run_server]. *)
Definition a2a_banner (w : World) (host : string) (port : Z) : list Event :=
  [ EPrint "✅ A2A Server initialized successfully!";
    EPrint "I can gather information about Open Virtual Networking and Open vSwitch.";
    EPrint ("Connected to " +:+ PyStr.of_nat (length (MCP_SERVERS (environ w)))
            +:+ " MCP servers");
    EPrint ("Using OpenAI-compatible model at: "
            +:+ default "None" (environ w !! "RESEARCHER_MODEL_ENDPOINT_URL"));
    EPrint ("A2A Server listening on " +:+ host +:+ ":" +:+ PyStr.of_Z port);
    EPrint (nl +:+ "Ready to accept A2A connections!");
    EPrint "--------------------------------------------------" ].

(** What [log_tools] logs. *)
Definition tool_logs (w : World) (tools : list Tool) : list Event :=
  [ ELogInfo ("Successfully loaded " +:+ PyStr.of_nat (length tools)
              +:+ " tools from MCP servers");
    ELogInfo ("Available tools: " +:+ py_str_list w (tool_name <$> tools)) ].

(** ** Observations on traces *)

(** A computation is [quiet] for a class of events when no run of it emits
    an event outside the class. *)
Definition quiet {Memory A : Type} (allowed : Event -> bool) (m : M Memory A) : Prop :=
  forall mem, forallb allowed (m mem).1.1 = true.

(** The effects of a run, its final memory and its result. *)
Definition trace {S A : Type} (r : list Event * S * Result A) : list Event := r.1.1.
Definition result {S A : Type} (r : list Event * S * Result A) : Result A := r.2.

Definition is_create_agent (ev : Event) : bool :=
  match ev with ECreateAgent _ => true | _ => false end.
Definition is_ainvoke (ev : Event) : bool :=
  match ev with EAinvoke _ _ => true | _ => false end.
Definition is_health_thread (ev : Event) : bool :=
  match ev with EHealthThread _ => true | _ => false end.
Definition is_chat_openai (ev : Event) : bool :=
  match ev with EChatOpenAI _ => true | _ => false end.
Definition is_run_server (ev : Event) : bool :=
  match ev with ERunServer _ _ => true | _ => false end.

(** The invocations of the agent during a run: input messages and thread
    id, in order. *)
Definition invoked (t : list Event) : list (list Message * string) :=
  omap (fun ev => match ev with
                  | EAinvoke messages thread_id => Some (messages, thread_id)
                  | _ => None
                  end) t.

(** The model clients built during a run. *)
Definition models_built (t : list Event) : list ChatOpenAI :=
  omap (fun ev => match ev with EChatOpenAI m => Some m | _ => None end) t.

(** The threads started during a run, and the ports on which a health
    listener thread was started. *)
Definition threads_started (t : list Event) : list Thread :=
  omap (fun ev => match ev with EHealthThread thread => Some thread | _ => None end) t.

Definition health_threads (t : list Event) : list Z :=
  (fun thread => (bind_address (serve_forever thread)).2) <$> threads_started t.

(** The thread [_start_health_server] starts for the port [p]: a daemon
    thread running [serve_forever] of the server created for [0.0.0.0:p]. *)
Definition health_thread (p : Z) : Thread :=
  {| serve_forever := {| bind_address := ("0.0.0.0", p) |}; daemon := true |}.

(** A result is [ordinary] when it is a value, a [KeyboardInterrupt] or an
    instance of [Exception]: what the [except] clauses of the interactive
    loop name between them. *)
Definition ordinary {A : Type} (r : Result A) : Prop :=
  match r with
  | Raise (PyBaseException _ _) => False
  | _ => True
  end.

(** The tools every agent created during a run was given. *)
Definition agents_created (t : list Event) : list Agent :=
  omap (fun ev => match ev with ECreateAgent a => Some a | _ => None end) t.

(** ** A concrete world to run the program in *)

Module Demo.

(** A memory that records the user contents it has seen, and an agent that
    answers each turn with one assistant message; it raises on the inputs
    [boom] (an [Exception]) and [ctrl-c] (a [KeyboardInterrupt]). *)
Definition Memory : Type := list string.

Definition ainvoke (agent : Agent) (messages : list Message)
           (thread_id : string) (mem : Memory)
  : Memory * Result (list Message) :=
  let seen := mem ++ (content <$> messages) in
  if bool_decide ("boom" ∈ (content <$> messages))
  then (seen, Raise (RuntimeError "model endpoint unreachable"))
  else if bool_decide ("ctrl-c" ∈ (content <$> messages))
  then (seen, Raise KeyboardInterrupt)
  else (seen, Ok (messages ++ [ {| role := "assistant"; content := "done" |} ])).

(** Every server offers one tool named after its URL. *)
Definition tools_of (c : Connection) : list Tool :=
  [ {| tool_name := "list@" +:+ conn_url c; tool_description := "" |} ].

(** One registry URL overridden from the environment. *)
Definition env_override : gmap string string :=
  {[ "MCP_OVN_NB_URL" := "http://ovn-nb.ovn.svc:6641" ]}.

(** [int] of a text of fewer than 200 printable ASCII characters other
    than the quotes and the backslash, with the message of the
    [ValueError] of a malformed literal. *)
Definition ascii_int (s : string) : Z + string :=
  match PyStr.int s with
  | Some z => inl z
  | None => inr ("invalid literal for int() with base 10: " +:+ PyStr.repr s)
  end.

(** A world of ASCII text (environment, terminal and tool names), where
    the interpreter's string operations are those of [PyStr], every server
    answers and the health port is free. *)
Definition healthy : World :=
  {| environ := ∅;
     py_strip := PyStr.strip; py_lower := PyStr.lower; py_int := ascii_int;
     py_str_list := PyStr.repr_list;
     load_mcp_tools := fun _ c => Ok (tools_of c);
     server_bind := fun _ => None;
     thread_start := None |}.

Definition with_env (env : gmap string string) (w : World) : World :=
  {| environ := env;
     py_strip := py_strip w; py_lower := py_lower w; py_int := py_int w;
     py_str_list := py_str_list w;
     load_mcp_tools := load_mcp_tools w;
     server_bind := server_bind w; thread_start := thread_start w |}.

(** The server at [url] refuses connections. *)
Definition with_server_down (url : string) (w : World) : World :=
  {| environ := environ w;
     py_strip := py_strip w; py_lower := py_lower w; py_int := py_int w;
     py_str_list := py_str_list w;
     load_mcp_tools := fun n c =>
       if decide (conn_url c = url)
       then Raise (PyException "ConnectError" "All connection attempts failed")
       else load_mcp_tools w n c;
     server_bind := server_bind w; thread_start := thread_start w |}.

(** The health port is already in use. *)
Definition with_port_taken (w : World) : World :=
  {| environ := environ w;
     py_strip := py_strip w; py_lower := py_lower w; py_int := py_int w;
     py_str_list := py_str_list w;
     load_mcp_tools := load_mcp_tools w;
     server_bind := fun _ => Some "[Errno 98] Address already in use";
     thread_start := thread_start w |}.

Definition agent : Agent :=
  {| agent_model := {| base_url := "http://localhost:11434"; api_key := "dummy";
                       model_name := "default"; max_tokens := 4096 |};
     agent_tools := [];
     agent_prompt := prompt |}.

Definition cli (interactive ic : bool) : Args :=
  {| arg_interactive := interactive; arg_host := None; arg_port := None;
     arg_ic := ic |}.

Definition run (w : World) (args : Args) (script : list (Result string)) :=
  main ainvoke w args script [].

(** A liveness probe asking for path [p]. *)
Definition probe (p : string) : HealthCheckHandler.t :=
  {| HealthCheckHandler.command := "GET"; HealthCheckHandler.path := p;
     HealthCheckHandler.request_headers := [("User-Agent", "kube-probe/1.29")] |}.

End Demo.

(** ** More observations on traces *)

Definition is_input (ev : Event) : bool :=
  match ev with EInput _ => true | _ => false end.
Definition is_pretty_print (ev : Event) : bool :=
  match ev with EPrettyPrint _ => true | _ => false end.
Definition is_to_a2a_server (ev : Event) : bool :=
  match ev with EToA2AServer _ => true | _ => false end.
Definition is_agent_card (ev : Event) : bool :=
  match ev with EAgentCard _ => true | _ => false end.

(** The prompts shown by [input()], the lines printed, the errors logged,
    the configurations [get_tools] was called with, the addresses
    [run_server] was entered with and the agent cards published, each in
    order. *)
Definition prompted (t : list Event) : list string :=
  omap (fun ev => match ev with EInput p => Some p | _ => None end) t.

Definition printed (t : list Event) : list string :=
  omap (fun ev => match ev with EPrint s => Some s | _ => None end) t.

Definition logged_errors (t : list Event) : list string :=
  omap (fun ev => match ev with ELogError s => Some s | _ => None end) t.

Definition discovery_calls (t : list Event) : list (list (string * Connection)) :=
  omap (fun ev => match ev with EGetTools cfg => Some cfg | _ => None end) t.

Definition served (t : list Event) : list (string * Z) :=
  omap (fun ev => match ev with ERunServer host port => Some (host, port) | _ => None end) t.

Definition cards (t : list Event) : list AgentCard :=
  omap (fun ev => match ev with EAgentCard c => Some c | _ => None end) t.

(** The three parts of [main] and the effects each one is written to
    have: startup prints, logs, builds the model client, asks the MCP
    servers and creates the agent; the interactive front-end prints, reads
    the terminal, asks the agent one user message at a time under thread id
    [1] and prints the answers; the network front-end prints, logs, wraps
    the agent, publishes its card, starts the health thread and serves. *)
Definition startup_event (ev : Event) : bool :=
  match ev with
  | EPrint _ | ELogInfo _ | ELogError _ | EChatOpenAI _ | EGetTools _
  | ECreateAgent _ => true
  | _ => false
  end.

Definition interactive_event (ev : Event) : bool :=
  match ev with
  | EPrint _ | EInput _ | EPrettyPrint _ => true
  | EAinvoke [message] thread_id =>
      String.eqb (role message) "user" && String.eqb thread_id "1"
  | _ => false
  end.

Definition network_event (ev : Event) : bool :=
  match ev with
  | EPrint _ | ELogInfo _ | ELogError _ | EToA2AServer _ | EAgentCard _
  | EHealthThread _ | ERunServer _ _ => true
  | _ => false
  end.

(** The model client and the agent a run builds, and everything a
    successful startup leaves in the trace, given the tools the two rounds
    of discovery returned. *)
Definition model_of (w : World) : ChatOpenAI :=
  {| base_url := getenv (environ w) "RESEARCHER_MODEL_ENDPOINT_URL"
                   "http://localhost:11434";
     api_key := "dummy";
     model_name := getenv (environ w) "RESEARCHER_MODEL_NAME" "default";
     max_tokens := 4096 |}.

Definition agent_of (w : World) (tools : list Tool) : Agent :=
  {| agent_model := model_of w; agent_tools := tools; agent_prompt := prompt |}.

Definition startup_events (w : World) (ic : bool) (tools0 tools : list Tool)
  : list Event :=
  [ EPrint "🔍 Network Researcher with OpenAI-compatible model";
    EPrint "============================================================";
    EPrint "This researcher uses an OpenAI-compatible server for inference!";
    EPrint "============================================================";
    EChatOpenAI (model_of w);
    ELogInfo "Initializing Network Researcher with OpenAI-compatible model...";
    ELogInfo ("Using model endpoint: " +:+ base_url (model_of w));
    ELogInfo ("Using model: " +:+ model_name (model_of w)) ]
  ++ server_logs (registry (environ w) ic)
  ++ [EGetTools (config_of (registry (environ w) ic))]
  ++ tool_logs w tools0
  ++ server_logs (MCP_SERVERS (environ w))
  ++ [EGetTools (config_of (MCP_SERVERS (environ w)))]
  ++ tool_logs w tools
  ++ [ ECreateAgent (agent_of w tools);
       ELogInfo ("Agent created successfully with " +:+ PyStr.of_nat (length tools)
                 +:+ " tools");
       ELogInfo ("Agent type: " +:+ agent_type_name);
       EPrint "✅ Researcher initialized successfully!";
       EPrint "I can gather information about Open Virtual Networking and Open vSwitch.";
       EPrint "I can help you with:";
       EPrint "- Network configuration data";
       EPrint "- OVS/OVN database queries";
       EPrint "- Network topology information";
       EPrint "- Current network state";
       EPrint (nl +:+ "Connected to "
               +:+ PyStr.of_nat (length (MCP_SERVERS (environ w)))
               +:+ " MCP servers with " +:+ PyStr.of_nat (length tools) +:+ " tools") ].

(** What [interactive] prints before the first prompt. *)
Definition interactive_banner : list Event :=
  [ EPrint (nl +:+ "Type 'quit' to exit");
    EPrint "------------------------------------------------------------" ].

(** ** Python values: what [extract_response_content] inspects *)

Module PyObj.

(** The values a response is made of: [None], booleans, integers,
    strings, lists and dicts with string keys. *)
#[local] Set Warnings "-register-all".
Inductive t : Type :=
| PNone
| PBool (b : bool)
| PInt (z : Z)
| PStr (s : string)
| PList (l : list t)
| PDict (d : gmap string t).

Definition TypeError (msg : string) : PyExc := PyException "TypeError" msg.
Definition KeyError (msg : string) : PyExc := PyException "KeyError" msg.
Definition IndexError (msg : string) : PyExc := PyException "IndexError" msg.

(** [type(v).__name__] *)
Definition type_name (v : t) : string :=
  match v with
  | PNone => "NoneType"
  | PBool _ => "bool"
  | PInt _ => "int"
  | PStr _ => "str"
  | PList _ => "list"
  | PDict _ => "dict"
  end.

(** [bool(v)] *)
Definition truthy (v : t) : bool :=
  match v with
  | PNone => false
  | PBool b => b
  | PInt z => negb (z =? 0)
  | PStr s => negb (String.eqb s "")
  | PList l => match l with [] => false | _ => true end
  | PDict d => match map_to_list d with [] => false | _ => true end
  end.

(** [k in s] on strings: [k] occurs in [s]. *)
Fixpoint occurs (k s : string) : bool :=
  String.prefix k s
  || match s with
     | EmptyString => false
     | String _ s' => occurs k s'
     end.

(** [k in v] for a string [k]: key membership on a dict, an element equal
    to [k] on a list, occurrence on a string, a [TypeError] on what is not
    a container. *)
Definition contains (k : string) (v : t) : Result bool :=
  match v with
  | PDict d => Ok (bool_decide (is_Some (d !! k)))
  | PList l =>
      Ok (existsb (fun x => match x with PStr s => String.eqb s k | _ => false end) l)
  | PStr s => Ok (occurs k s)
  | _ => Raise (TypeError ("argument of type " +:+ PyStr.repr (type_name v)
                           +:+ " is not iterable"))
  end.

(** [v[k]] for a string [k]. *)
Definition getitem (v : t) (k : string) : Result t :=
  match v with
  | PDict d =>
      match d !! k with
      | Some x => Ok x
      | None => Raise (KeyError (PyStr.repr k))
      end
  | PList _ => Raise (TypeError "list indices must be integers or slices, not str")
  | PStr _ => Raise (TypeError "string indices must be integers, not 'str'")
  | _ => Raise (TypeError (PyStr.repr (type_name v) +:+ " object is not subscriptable"))
  end.

(** The last character of a string of one-byte characters. *)
Fixpoint last_char (s : string) : option ascii :=
  match s with
  | EmptyString => None
  | String c EmptyString => Some c
  | String _ s' => last_char s'
  end.

(** [v[-1]] *)
Definition getitem_last (v : t) : Result t :=
  match v with
  | PList l =>
      match last l with
      | Some x => Ok x
      | None => Raise (IndexError "list index out of range")
      end
  | PStr s =>
      match last_char s with
      | Some c => Ok (PStr (String c EmptyString))
      | None => Raise (IndexError "string index out of range")
      end
  | PDict _ => Raise (KeyError "-1")
  | _ => Raise (TypeError (PyStr.repr (type_name v) +:+ " object is not subscriptable"))
  end.

End PyObj.

(** ** [extract_response_content] *)

Section ResponseContent.

(** [str(response)], the rendering Python gives of the whole response. *)
Variable str_of : PyObj.t -> Result string.

#[local] Instance Result_ret : MRet Result := fun A a => Ok a.

#[local] Instance Result_bind : MBind Result := fun A B f r =>
  match r with
  | Ok a => f a
  | Raise e => Raise e
  end.

(** Lines 58-64.  The condition [k in response and response[k]] evaluates
    its second half only when the first holds. *)
Definition extract_response_content (response : PyObj.t) : Result PyObj.t :=
  has_messages ← PyObj.contains "messages" response;
  nonempty ← (if has_messages : bool
              then messages ← PyObj.getitem response "messages";
                   mret (PyObj.truthy messages)
              else mret false);
  if nonempty : bool then
    messages ← PyObj.getitem response "messages";
    last_message ← PyObj.getitem_last messages;
    has_content ← PyObj.contains "content" last_message;
    if has_content : bool then PyObj.getitem last_message "content"
    else s ← str_of response; mret (PyObj.PStr s)
  else s ← str_of response; mret (PyObj.PStr s).

End ResponseContent.

(** ** The client example: [a2a_client_example.py] *)

Module A2AClientExample.

Inductive Event : Type :=
| Print (s : string)
| NewClient (endpoint_url : string)
| Ask (question : string).

Section Client.

(** The remote agent as the client sees it: building the client and each
    question change its state and return or raise. *)
Context {Remote : Type}.
Variable A2AClient : string -> Remote -> Remote * Result unit.
Variable client_ask : string -> Remote -> Remote * Result string.

Definition Run (A : Type) : Type := Remote -> list Event * Remote * Result A.

#[local] Instance Run_ret : MRet Run := fun A a remote => ([], remote, Ok a).

#[local] Instance Run_bind : MBind Run := fun A B f m remote =>
  match m remote with
  | (t1, remote1, Ok a) =>
      match f a remote1 with
      | (t2, remote2, r) => (t1 ++ t2, remote2, r)
      end
  | (t1, remote1, Raise e) => (t1, remote1, Raise e)
  end.

Definition print (s : string) : Run unit := fun remote => ([Print s], remote, Ok tt).

Definition raise {A : Type} (e : PyExc) : Run A := fun remote => ([], remote, Raise e).

Definition try_except {A : Type} (body : Run A) (handler : PyExc -> Run A) : Run A :=
  fun remote =>
    match body remote with
    | (t1, remote1, Raise e) =>
        match handler e remote1 with
        | (t2, remote2, r) => (t1 ++ t2, remote2, r)
        end
    | done => done
    end.

(** [A2AClient(endpoint_url=...)] *)
Definition new_client (endpoint_url : string) : Run unit :=
  fun remote =>
    match A2AClient endpoint_url remote with
    | (remote', r) => ([NewClient endpoint_url], remote', r)
    end.

(** [client.ask(question)] *)
Definition ask (question : string) : Run string :=
  fun remote =>
    match client_ask question remote with
    | (remote', r) => ([Ask question], remote', r)
    end.

(** Lines 18-41. *)
Definition main : Run unit :=
  print "🔗 Network Researcher A2A Client Example";;
  print "==================================================";;
  new_client "http://localhost:8085/";;
  try_except
    (print (nl +:+ "📋 Getting agent capabilities...");;
     capabilities ← ask "What are your capabilities?";
     print ("Capabilities:" +:+ nl +:+ capabilities);;
     print (nl +:+ "🛠️ Getting available tools...");;
     tools ← ask "What tools do you have available?";
     print ("Tools:" +:+ nl +:+ tools);;
     print (nl +:+ "❓ Asking a specific question...");;
     answer ← ask "What bridges are currently configured in Open vSwitch?";
     print ("A: " +:+ answer))
    (fun e =>
       if is_Exception e
       then print ("❌ Error: " +:+ str e)
       else raise e).

End Client.

(** What every run of the example starts with. *)
Definition opening : list Event :=
  [ Print "🔗 Network Researcher A2A Client Example";
    Print "==================================================";
    NewClient "http://localhost:8085/" ].

(** The [except Exception] clause of the example, applied to what a
    failed question raised: what it prints and how [main] ends. *)
Definition report (e : PyExc) : list Event :=
  if is_Exception e then [Print ("❌ Error: " +:+ str e)] else [].

Definition outcome (e : PyExc) : Result unit :=
  if is_Exception e then Ok tt else Raise e.

(** The questions of the example, in the order it asks them. *)
Definition questions : list string :=
  [ "What are your capabilities?";
    "What tools do you have available?";
    "What bridges are currently configured in Open vSwitch?" ].

(** The questions a run asked. *)
Definition asked (t : list Event) : list string :=
  omap (fun ev => match ev with Ask q => Some q | _ => None end) t.

End A2AClientExample.

(** ** More concrete worlds *)

Module Scenarios.

(** The server at [url] answers the first round of discovery and refuses
    the second. *)
Definition with_server_lost (url : string) (w : World) : World :=
  {| environ := environ w;
     py_strip := py_strip w; py_lower := py_lower w; py_int := py_int w;
     py_str_list := py_str_list w;
     load_mcp_tools := fun n c =>
       match n with
       | O => load_mcp_tools w n c
       | _ => if decide (conn_url c = url)
              then Raise (PyException "ConnectError" "All connection attempts failed")
              else load_mcp_tools w n c
       end;
     server_bind := server_bind w; thread_start := thread_start w |}.

(** An agent whose turn is cancelled on the input [cancel]: inside
    [ainvoke] the task receives [asyncio.CancelledError], which derives
    from [BaseException] and not from [Exception].  On other inputs it
    answers as the agent of [Demo]. *)
Definition cancellable (agent : Agent) (messages : list Message)
           (thread_id : string) (mem : Demo.Memory)
  : Demo.Memory * Result (list Message) :=
  if bool_decide ("cancel" ∈ (content <$> messages))
  then (mem, Raise (PyBaseException "CancelledError" ""))
  else Demo.ainvoke agent messages thread_id mem.

(** A command line with [--host] and [--port]. *)
Definition cli_at (host : string) (port : Z) : Args :=
  {| arg_interactive := false; arg_host := Some host; arg_port := Some port;
     arg_ic := false |}.

(** A response of two messages, as dicts. *)
Definition user_message : gmap string PyObj.t :=
  {[ "role" := PyObj.PStr "user"; "content" := PyObj.PStr "list bridges" ]}.

Definition assistant_message : gmap string PyObj.t :=
  {[ "role" := PyObj.PStr "assistant"; "content" := PyObj.PStr "br-int, br-ex" ]}.

Definition response : gmap string PyObj.t :=
  {[ "messages" :=
       PyObj.PList [PyObj.PDict user_message; PyObj.PDict assistant_message] ]}.

(** [str] on the values whose rendering needs no recursion, which is all
    the examples need. *)
Definition str_of (v : PyObj.t) : Result string :=
  match v with
  | PyObj.PNone => Ok "None"
  | PyObj.PBool true => Ok "True"
  | PyObj.PBool false => Ok "False"
  | PyObj.PStr s => Ok s
  | PyObj.PList [] => Ok "[]"
  | PyObj.PDict d =>
      match map_to_list d with
      | [] => Ok "{}"
      | _ => Raise (PyException "NotImplementedError" "str of a non-empty dict")
      end
  | _ => Raise (PyException "NotImplementedError" "str of a number or a non-empty list")
  end.

(** A remote agent that answers every question with its echo and counts
    them, and one that is down from the [n]-th question on. *)
Definition connect (endpoint_url : string) (remote : nat) : nat * Result unit :=
  (remote, Ok tt).

Definition echo (question : string) (remote : nat) : nat * Result string :=
  (S remote, Ok ("re: " +:+ question)).

Definition down_from (n : nat) (question : string) (remote : nat)
  : nat * Result string :=
  if (n <=? remote)%nat
  then (S remote, Raise (PyException "ConnectionError" "connection refused"))
  else (S remote, Ok ("re: " +:+ question)).

End Scenarios.

(** * Properties *)

(** ** The string helpers on examples *)

Example strip_ex : PyStr.strip "  Quit " = "Quit".
Proof. reflexivity. Qed.

Example lower_ex : PyStr.lower "QuIt" = "quit".
Proof. reflexivity. Qed.

Example int_ex1 : PyStr.int " 8086 " = Some 8086.
Proof. reflexivity. Qed.

Example int_ex2 : PyStr.int "80_86" = Some 8086 /\ PyStr.int "80__86" = None
                  /\ PyStr.int "" = None /\ PyStr.int "-1" = Some (-1)
                  /\ PyStr.int "http" = None /\ PyStr.int "8086_" = None.
Proof. repeat split; reflexivity. Qed.

Example of_nat_ex : PyStr.of_nat 12 = "12" /\ PyStr.of_Z 8085 = "8085".
Proof. split; vm_compute; reflexivity. Qed.

(** ** Health endpoint *)

Section HealthEndpoint.
Import HealthCheckHandler.

Lemma do_GET_health (self : t) :
  path self = "/health" ->
  do_GET self =
    {| status := Some 200; headers := [("Content-type", "text/plain")];
       headers_ended := true; wfile := "OK" |}.
Proof.
  intros Hpath. unfold do_GET. rewrite Hpath.
  destruct (decide ("/health" = "/health")) as [_|Hne]; [reflexivity|].
  exfalso. apply Hne. reflexivity.
Qed.

Lemma do_GET_other (self : t) :
  path self <> "/health" ->
  do_GET self =
    {| status := Some 404; headers := []; headers_ended := true; wfile := "" |}.
Proof.
  intros Hpath. unfold do_GET.
  destruct (decide (path self = "/health")) as [Heq|_]; [contradiction|reflexivity].
Qed.

Lemma do_GET_path_only (self other : t) :
  path self = path other -> do_GET self = do_GET other.
Proof. intros Heq. unfold do_GET. rewrite Heq. reflexivity. Qed.

End HealthEndpoint.

(** C7. For every GET request handled by [HealthCheckHandler.do_GET]: when
    the path is [/health] the response has status 200 and body [OK]; for
    every other path the status is 404; and the response is a function of
    the request path alone: two requests with the same path get the same
    response whatever else differs, the handler reads no agent, tool or
    model state. *)
Theorem health_endpoint_responses (self : HealthCheckHandler.t) :
  (HealthCheckHandler.path self = "/health" ->
     HealthCheckHandler.status (HealthCheckHandler.do_GET self) = Some 200
     /\ HealthCheckHandler.wfile (HealthCheckHandler.do_GET self) = "OK")
  /\ (HealthCheckHandler.path self <> "/health" ->
     HealthCheckHandler.status (HealthCheckHandler.do_GET self) = Some 404)
  /\ (forall other : HealthCheckHandler.t,
        HealthCheckHandler.path other = HealthCheckHandler.path self ->
        HealthCheckHandler.do_GET other = HealthCheckHandler.do_GET self).
Proof.
  split; [|split].
  - intros Hpath. rewrite (do_GET_health self Hpath). split; reflexivity.
  - intros Hpath. rewrite (do_GET_other self Hpath). reflexivity.
  - intros other Hpath. apply do_GET_path_only. exact Hpath.
Qed.

Lemma health_endpoint_responses_witness :
  (HealthCheckHandler.status (HealthCheckHandler.do_GET (Demo.probe "/health")) = Some 200
   /\ HealthCheckHandler.wfile (HealthCheckHandler.do_GET (Demo.probe "/health")) = "OK")
  /\ HealthCheckHandler.status (HealthCheckHandler.do_GET (Demo.probe "/healthz")) = Some 404
  /\ HealthCheckHandler.do_GET
       {| HealthCheckHandler.command := "GET"; HealthCheckHandler.path := "/health";
          HealthCheckHandler.request_headers := [] |}
     = HealthCheckHandler.do_GET (Demo.probe "/health").
Proof.
  split; [|split].
  - apply (proj1 (health_endpoint_responses (Demo.probe "/health"))). reflexivity.
  - apply (proj1 (proj2 (health_endpoint_responses (Demo.probe "/healthz")))).
    vm_compute. discriminate.
  - apply (proj2 (proj2 (health_endpoint_responses (Demo.probe "/health")))). reflexivity.
Defined.

(** ** Tool registry configuration *)

Lemma getenv_set (environ : gmap string string) (key dflt v : string) :
  environ !! key = Some v -> getenv environ key dflt = v.
Proof. intros H. unfold getenv. rewrite H. reflexivity. Qed.

Lemma getenv_unset (environ : gmap string string) (key dflt : string) :
  environ !! key = None -> getenv environ key dflt = dflt.
Proof. intros H. unfold getenv. rewrite H. reflexivity. Qed.

Lemma registry_length (environ : gmap string string) (ic : bool) :
  length (registry environ ic) = if ic then 5%nat else 3%nat.
Proof. destruct ic; reflexivity. Qed.

(** Exhibits the row of [documented_urls] a concrete registry entry
    corresponds to: the URL equation fixes the row, membership follows. *)
Ltac documented_row :=
  refine (ex_intro _ _ (ex_intro _ _ (conj _ eq_refl)));
  unfold documented_urls;
  repeat first [apply list_elem_of_here | apply list_elem_of_further].

(** Every registry entry is a row of the documented table, and its URL is
    [getenv] of that row. *)
Lemma registry_documented (environ : gmap string string) (ic : bool)
      (server_name : string) (server_config : ServerConfig) :
  (server_name, server_config) ∈ registry environ ic ->
  exists var dflt : string,
    (server_name, (var, dflt)) ∈ documented_urls
    /\ sc_url server_config = getenv environ var dflt.
Proof.
  intros Hin. unfold registry in Hin.
  apply elem_of_app in Hin as [Hin|Hin].
  - unfold MCP_SERVERS in Hin.
    repeat (apply elem_of_cons in Hin as [Heq|Hin]; [inversion Heq; documented_row|]).
    apply elem_of_nil in Hin. contradiction.
  - destruct ic; [|apply elem_of_nil in Hin; contradiction].
    unfold IC_MCP_SERVERS in Hin.
    repeat (apply elem_of_cons in Hin as [Heq|Hin]; [inversion Heq; documented_row|]).
    apply elem_of_nil in Hin. contradiction.
Qed.

(** C4, as stated, fails on the count: the registry holds three servers
    without [--ic] and five with it, not five and seven. *)
Lemma registry_is_not_five_or_seven :
  ~ (length (registry ∅ false) = 5%nat /\ length (registry ∅ true) = 7%nat).
Proof. intros [H _]. vm_compute in H. discriminate. Qed.

(** C4 (amended). The tool registry holds three servers without [--ic] and
    five with it; for each of them the configured URL equals the value of
    the corresponding environment variable when that variable is set, and
    otherwise the documented localhost default
    ([http://localhost:8080] through [http://localhost:8084]). *)
Theorem registry_urls_env_or_default
        (environ : gmap string string) (ic : bool)
        (server_name : string) (server_config : ServerConfig) :
  (server_name, server_config) ∈ registry environ ic ->
  length (registry environ ic) = (if ic then 5%nat else 3%nat)
  /\ exists var dflt : string,
       (server_name, (var, dflt)) ∈ documented_urls
       /\ (forall v, environ !! var = Some v -> sc_url server_config = v)
       /\ (environ !! var = None -> sc_url server_config = dflt).
Proof.
  intros Hin. split; [apply registry_length|].
  destruct (registry_documented environ ic server_name server_config Hin)
    as (var & dflt & Hdoc & Hurl).
  exists var, dflt. split; [exact Hdoc|]. rewrite Hurl. split.
  - intros v Hv. apply getenv_set. exact Hv.
  - intros Hnone. apply getenv_unset. exact Hnone.
Qed.

Lemma registry_urls_env_or_default_witness :
  length (registry Demo.env_override true) = 5%nat
  /\ exists var dflt : string,
       ("ovn-nb", (var, dflt)) ∈ documented_urls
       /\ (forall v, Demo.env_override !! var = Some v ->
             "http://ovn-nb.ovn.svc:6641" = v)
       /\ (Demo.env_override !! var = None ->
             "http://ovn-nb.ovn.svc:6641" = dflt).
Proof.
  apply (registry_urls_env_or_default Demo.env_override true "ovn-nb"
           {| sc_name := "OVN Northbound Database";
              sc_url := "http://ovn-nb.ovn.svc:6641";
              sc_description := "Manages logical switches, routers, load balancers, ACLs, and DHCP options" |}).
  vm_compute. apply list_elem_of_further, list_elem_of_here.
Defined.

(** ** Running the monad *)

Section Running.
Context {Memory : Type}.
Implicit Types mem : Memory.

Lemma bind_run {A B : Type} (m : M Memory A) (f : A -> M Memory B) mem :
  (m ≫= f) mem =
    match m mem with
    | (t1, mem1, Ok a) =>
        match f a mem1 with
        | (t2, mem2, r) => (t1 ++ t2, mem2, r)
        end
    | (t1, mem1, Raise e) => (t1, mem1, Raise e)
    end.
Proof. reflexivity. Qed.

Lemma emit_run (ev : Event) mem : emit ev mem = ([ev], mem, Ok tt).
Proof. reflexivity. Qed.

(** The effects of the first computation come first, whatever follows. *)
Lemma bind_trace_prefix {A B : Type} (m : M Memory A) (f : A -> M Memory B) mem :
  exists t2, trace ((m ≫= f) mem) = trace (m mem) ++ t2.
Proof.
  rewrite bind_run. destruct (m mem) as [[t1 mem1] [a|e]].
  - destruct (f a mem1) as [[t2 mem2] r]. exists t2. reflexivity.
  - exists []. unfold trace. simpl. rewrite app_nil_r. reflexivity.
Qed.

Lemma bind_raise {A B : Type} (m : M Memory A) (f : A -> M Memory B) mem t mem1 e :
  m mem = (t, mem1, Raise e) -> (m ≫= f) mem = (t, mem1, Raise e).
Proof. intros H. rewrite bind_run, H. reflexivity. Qed.

(** *** Quiet computations *)

Variable allowed : Event -> bool.

Lemma quiet_ret {A : Type} (a : A) : quiet allowed (mret a : M Memory A).
Proof. intros mem. reflexivity. Qed.

Lemma quiet_raise {A : Type} (e : PyExc) : quiet allowed (raise e : M Memory A).
Proof. intros mem. reflexivity. Qed.

Lemma quiet_lift {A : Type} (r : Result A) : quiet allowed (lift r : M Memory A).
Proof. intros mem. reflexivity. Qed.

Lemma quiet_emit (ev : Event) :
  allowed ev = true -> quiet allowed (emit ev : M Memory unit).
Proof. intros H mem. simpl. rewrite H. reflexivity. Qed.

Lemma quiet_bind {A B : Type} (m : M Memory A) (f : A -> M Memory B) :
  quiet allowed m -> (forall a, quiet allowed (f a)) -> quiet allowed (m ≫= f).
Proof.
  intros Hm Hf mem. rewrite bind_run. specialize (Hm mem).
  destruct (m mem) as [[t1 mem1] [a|e]]; simpl in *; [|exact Hm].
  specialize (Hf a mem1). destruct (f a mem1) as [[t2 mem2] r]. simpl in *.
  rewrite forallb_app, Hm, Hf. reflexivity.
Qed.

Lemma quiet_try_except {A : Type} (body : M Memory A) (handler : PyExc -> M Memory A) :
  quiet allowed body -> (forall e, quiet allowed (handler e)) ->
  quiet allowed (try_except body handler).
Proof.
  intros Hb Hh mem. unfold try_except. specialize (Hb mem).
  destruct (body mem) as [[t1 mem1] [a|e]]; simpl in *; [exact Hb|].
  specialize (Hh e mem1). destruct (handler e mem1) as [[t2 mem2] r]. simpl in *.
  rewrite forallb_app, Hb, Hh. reflexivity.
Qed.

Lemma quiet_for_each {A : Type} (l : list A) (body : A -> M Memory unit) :
  (forall x, quiet allowed (body x)) -> quiet allowed (for_each l body).
Proof.
  intros Hbody. induction l as [|x l IH]; simpl.
  - apply quiet_ret.
  - apply quiet_bind; [apply Hbody|intros _; exact IH].
Qed.

End Running.

(** Quietness is established by following the structure of the program:
    each combinator has its rule, an emitted event is checked against the
    class, a conditional is split. *)
Ltac quiet_steps :=
  unfold print, log_info, log_error;
  repeat first
    [ apply quiet_ret
    | apply quiet_raise
    | apply quiet_lift
    | apply quiet_emit; reflexivity
    | assumption
    | apply quiet_bind; [|intros ?; cbv beta]
    | apply quiet_try_except; [|intros ?; cbv beta]
    | apply quiet_for_each; intros ?; cbv beta
    | match goal with
      | |- quiet _ (if ?c then _ else _) => destruct c
      | |- quiet _ (match ?c with _ => _ end) => destruct c
      end
    | progress cbv zeta ].

(** ** The phases of [main], run *)

Section Phases.
Context {Memory : Type}.
Variable ainvoke :
  Agent -> list Message -> string -> Memory -> Memory * Result (list Message).
Variable w : World.
Implicit Types mem : Memory.

Lemma parse_args_run (args : Args) mem :
  parse_args w args mem =
    match py_int w (getenv (environ w) "A2A_PORT" "8085") with
    | inl p =>
        ([], mem, Ok (default (getenv (environ w) "A2A_HOST" "0.0.0.0") (arg_host args),
                      default p (arg_port args)))
    | inr msg => ([], mem, Raise (ValueError msg))
    end.
Proof.
  unfold parse_args. rewrite bind_run. unfold int.
  destruct (py_int w _); reflexivity.
Qed.

Lemma create_model_run mem :
  let url := getenv (environ w) "RESEARCHER_MODEL_ENDPOINT_URL" "http://localhost:11434" in
  let name := getenv (environ w) "RESEARCHER_MODEL_NAME" "default" in
  let model := {| base_url := url; api_key := "dummy"; model_name := name;
                  max_tokens := 4096 |} in
  let banner :=
    [ EPrint "🔍 Network Researcher with OpenAI-compatible model";
      EPrint "============================================================";
      EPrint "This researcher uses an OpenAI-compatible server for inference!";
      EPrint "============================================================" ] in
  create_model w mem =
    if decide (url = "")
    then (banner, mem,
          Raise (ValueError "RESEARCHER_MODEL_ENDPOINT_URL environment variable must be set"))
    else (banner ++
          [ EChatOpenAI model;
            ELogInfo "Initializing Network Researcher with OpenAI-compatible model...";
            ELogInfo ("Using model endpoint: " +:+ url);
            ELogInfo ("Using model: " +:+ name) ],
          mem, Ok model).
Proof.
  intros url name model banner. unfold create_model. fold url. fold name.
  repeat rewrite bind_run.
  destruct (decide (url = "")); reflexivity.
Qed.

(** *** Tool discovery *)

(** A failing connection makes the whole round fail, with the error of a
    connection of that round. *)
Lemma gather_tools_raises (n : nat) (conns : list Connection) (c : Connection) e :
  c ∈ conns -> load_mcp_tools w n c = Raise e ->
  exists e', gather_tools w n conns = Raise e'
             /\ exists c', c' ∈ conns /\ load_mcp_tools w n c' = Raise e'.
Proof.
  intros Hin Hfail. induction conns as [|c0 conns IH].
  - apply elem_of_nil in Hin. contradiction.
  - simpl. destruct (load_mcp_tools w n c0) as [ts|e0] eqn:Hc0.
    + apply elem_of_cons in Hin as [->|Hin]; [congruence|].
      destruct (IH Hin) as (e' & Hg & c' & Hc' & Hl).
      exists e'. rewrite Hg. split; [reflexivity|].
      exists c'. split; [apply list_elem_of_further; exact Hc'|exact Hl].
    + exists e0. split; [reflexivity|].
      exists c0. split; [apply list_elem_of_here|exact Hc0].
Qed.

(** A round that succeeds returns the tools of its connections, in
    order. *)
Lemma gather_tools_ok (n : nat) (conns : list Connection) (ts : list Tool) :
  gather_tools w n conns = Ok ts ->
  forall c, c ∈ conns -> exists tc, load_mcp_tools w n c = Ok tc /\ tc ⊆ ts.
Proof.
  revert ts. induction conns as [|c0 conns IH]; intros ts Hg c Hin.
  - apply elem_of_nil in Hin. contradiction.
  - simpl in Hg. destruct (load_mcp_tools w n c0) as [t0|e0] eqn:Hc0; [|discriminate].
    destruct (gather_tools w n conns) as [rest|e1] eqn:Hrest; [|discriminate].
    inversion Hg; subst ts; clear Hg.
    apply elem_of_cons in Hin as [->|Hin].
    + exists t0. split; [exact Hc0|]. intros x Hx. apply elem_of_app. left. exact Hx.
    + destruct (IH rest eq_refl c Hin) as (tc & Hl & Hsub).
      exists tc. split; [exact Hl|]. intros x Hx. apply elem_of_app. right. auto.
Qed.

Lemma add_servers_base mem :
  add_servers (MCP_SERVERS (environ w)) [] mem =
    (server_logs (MCP_SERVERS (environ w)), mem, Ok (config_of (MCP_SERVERS (environ w)))).
Proof. reflexivity. Qed.

Lemma add_servers_ic mem :
  add_servers (IC_MCP_SERVERS (environ w)) (config_of (MCP_SERVERS (environ w))) mem =
    (server_logs (IC_MCP_SERVERS (environ w)), mem, Ok (config_of (registry (environ w) true))).
Proof. reflexivity. Qed.

Lemma config_of_connections (ic : bool) :
  snd <$> config_of (registry (environ w) ic) = queried (environ w) ic 0.
Proof. destruct ic; reflexivity. Qed.

Lemma config_of_base_connections (ic : bool) :
  snd <$> config_of (MCP_SERVERS (environ w)) = queried (environ w) ic 1.
Proof. reflexivity. Qed.

Lemma get_tools_run (n : nat) (mcp_config : list (string * Connection)) mem :
  get_tools w n mcp_config mem =
    ([EGetTools mcp_config], mem, gather_tools w n (snd <$> mcp_config)).
Proof. unfold get_tools. rewrite bind_run. reflexivity. Qed.

Lemma log_tools_run (tools : list Tool) mem :
  log_tools w tools mem = (tool_logs w tools, mem, Ok tt).
Proof. reflexivity. Qed.

(** The two rounds of [load_tools]: the first over the whole registry,
    whose tools are only logged; the second over [MCP_SERVERS], whose
    tools are the value. *)
Lemma load_tools_run (args : Args) mem :
  let env := environ w in
  let ic := arg_ic args in
  let round0 := server_logs (registry env ic) ++ [EGetTools (config_of (registry env ic))] in
  let round1 := server_logs (MCP_SERVERS env) ++ [EGetTools (config_of (MCP_SERVERS env))] in
  load_tools w args mem =
    match gather_tools w 0 (queried env ic 0) with
    | Raise e => (round0, mem, Raise e)
    | Ok tools0 =>
        match gather_tools w 1 (queried env ic 1) with
        | Ok tools =>
            (round0 ++ tool_logs w tools0 ++ round1 ++ tool_logs w tools, mem, Ok tools)
        | Raise e =>
            (round0 ++ tool_logs w tools0 ++ round1
               ++ (if is_Exception e
                   then [ELogError ("Failed to load tools from MCP servers: " +:+ str e)]
                   else []),
             mem, Raise e)
        end
    end.
Proof.
  intros env ic round0 round1. subst env ic round0 round1.
  rewrite <- config_of_connections, <- (config_of_base_connections (arg_ic args)).
  unfold load_tools.
  rewrite bind_run, add_servers_base. cbv beta iota.
  rewrite bind_run.
  assert (Hcfg : (if arg_ic args
                  then add_servers (IC_MCP_SERVERS (environ w))
                         (config_of (MCP_SERVERS (environ w)))
                  else mret (config_of (MCP_SERVERS (environ w)))) mem
                 = (server_logs (if arg_ic args then IC_MCP_SERVERS (environ w) else []),
                    mem, Ok (config_of (registry (environ w) (arg_ic args))))).
  { destruct (arg_ic args); [apply add_servers_ic|reflexivity]. }
  rewrite Hcfg. cbv beta iota. clear Hcfg.
  rewrite bind_run, get_tools_run.
  destruct (gather_tools w 0 _) as [tools0|e0].
  - rewrite bind_run, log_tools_run. cbv beta iota.
    rewrite bind_run, add_servers_base. cbv beta iota.
    unfold try_except. rewrite bind_run, get_tools_run.
    destruct (gather_tools w 1 _) as [tools|e1].
    + rewrite bind_run, log_tools_run. cbv beta iota.
      destruct (arg_ic args); reflexivity.
    + destruct e1; destruct (arg_ic args); reflexivity.
  - destruct (arg_ic args); reflexivity.
Qed.

(** *** Agent creation *)

Lemma create_agent_run (model : ChatOpenAI) (tools : list Tool) mem :
  exists t,
    create_agent w model tools mem =
      (ECreateAgent {| agent_model := model; agent_tools := tools;
                       agent_prompt := prompt |} :: t,
       mem,
       Ok {| agent_model := model; agent_tools := tools; agent_prompt := prompt |})
    /\ forallb (fun ev => negb (is_create_agent ev || is_health_thread ev
                                || is_ainvoke ev || is_run_server ev)) t = true.
Proof. eexists. split; reflexivity. Qed.

(** *** Health listener *)

Lemma start_health_server_started (p : Z) mem :
  py_int w (getenv (environ w) "HEALTH_PORT" "8086") = inl p ->
  0 <= p <= 65535 ->
  server_bind w p = None ->
  thread_start w = None ->
  _start_health_server w mem =
    ([ EHealthThread (health_thread p);
       ELogInfo ("Health check server started on port " +:+ PyStr.of_Z p) ],
     mem, Ok tt).
Proof.
  intros Hint Hrange Hbind Hthread.
  unfold _start_health_server, try_except, int.
  rewrite bind_run, Hint. simpl. unfold HTTPServer, Thread_start.
  destruct (decide (0 <= p <= 65535)) as [_|Hn]; [|contradiction].
  rewrite Hbind, Hthread. reflexivity.
Qed.

Lemma start_health_server_failure (e : PyExc) mem :
  health_failure w e ->
  _start_health_server w mem =
    ([ELogError ("Failed to start health check server: " +:+ str e)], mem, Ok tt).
Proof.
  intros Hfail.
  unfold _start_health_server, try_except, int.
  rewrite bind_run.
  destruct Hfail as [msg Hint|p Hint Hrange|p msg Hint Hrange Hbind
                     |p msg Hint Hrange Hbind Hthread];
    rewrite Hint; [reflexivity| | |];
    simpl; unfold HTTPServer, Thread_start;
    destruct (decide (0 <= p <= 65535)) as [Hr|Hr];
    try contradiction; rewrite ?Hbind, ?Hthread; reflexivity.
Qed.

(** Whatever the environment, the helper returns normally, and what it
    leaves in the trace is either the started thread or one logged
    error. *)
Lemma start_health_server_total mem :
  exists t, _start_health_server w mem = (t, mem, Ok tt)
            /\ ((exists p, t = [ EHealthThread (health_thread p);
                                 ELogInfo ("Health check server started on port "
                                           +:+ PyStr.of_Z p) ])
                \/ (exists e, health_failure w e
                              /\ t = [ELogError ("Failed to start health check server: "
                                                 +:+ str e)])).
Proof.
  destruct (py_int w (getenv (environ w) "HEALTH_PORT" "8086")) as [p|msg] eqn:Hint.
  - destruct (decide (0 <= p <= 65535)) as [Hr|Hr].
    + destruct (server_bind w p) as [msg|] eqn:Hbind.
      * eexists. split; [apply start_health_server_failure;
                         eapply health_bind_refused; eauto|].
        right. eexists. split; [eapply health_bind_refused; eauto|reflexivity].
      * destruct (thread_start w) as [msg|] eqn:Hthread.
        -- eexists. split; [apply start_health_server_failure;
                            eapply health_no_thread; eauto|].
           right. eexists. split; [eapply health_no_thread; eauto|reflexivity].
        -- eexists. split; [apply start_health_server_started; eauto|].
           left. eexists. reflexivity.
    + eexists. split; [apply start_health_server_failure;
                       eapply health_port_out_of_range; eauto|].
      right. eexists. split; [eapply health_port_out_of_range; eauto|reflexivity].
  - eexists. split; [apply start_health_server_failure;
                     apply health_port_not_int; exact Hint|].
    right. eexists. split; [apply health_port_not_int; exact Hint|reflexivity].
Qed.

Lemma serve_a2a_run (agent : Agent) (host : string) (port : Z) mem t_health :
  _start_health_server w mem = (t_health, mem, Ok tt) ->
  serve_a2a w agent host port mem =
    ([EToA2AServer agent; EAgentCard (agent_card host port)] ++ t_health
       ++ a2a_banner w host port ++ [ERunServer host port],
     mem, Ok tt).
Proof.
  intros Hhealth. unfold serve_a2a.
  do 2 (rewrite bind_run, emit_run; cbv beta iota).
  rewrite bind_run, Hhealth. cbv beta iota.
  reflexivity.
Qed.

End Phases.

(** ** The interactive loop *)

Section Interactive.
Context {Memory : Type}.
Variable ainvoke :
  Agent -> list Message -> string -> Memory -> Memory * Result (list Message).
Variable w : World.
Variable agent : Agent.
Variable thread_id : string.
Implicit Types mem : Memory.

Lemma pretty_print_all_run (messages : list Message) mem :
  pretty_print_all messages mem = (EPrettyPrint <$> messages, mem, Ok tt).
Proof.
  unfold pretty_print_all. induction messages as [|m messages IH]; simpl.
  - reflexivity.
  - rewrite bind_run, emit_run. cbv beta iota. rewrite IH. reflexivity.
Qed.

Lemma agent_ainvoke_run (messages : list Message) mem :
  agent_ainvoke ainvoke agent messages thread_id mem =
    ([EAinvoke messages thread_id],
     (ainvoke agent messages thread_id mem).1,
     (ainvoke agent messages thread_id mem).2).
Proof.
  unfold agent_ainvoke. destruct (ainvoke agent messages thread_id mem). reflexivity.
Qed.

(** One question put to the agent and its answer printed: the shared tail
    of the [test] branch and of the forwarding branch. *)
Lemma ask_run (announce : string) (messages : list Message) mem :
  (print announce;;
   response ← agent_ainvoke ainvoke agent messages thread_id;
   pretty_print_all response;;
   mret Continue) mem =
    match ainvoke agent messages thread_id mem with
    | (mem', Ok response) =>
        ([EPrint announce; EAinvoke messages thread_id]
           ++ (EPrettyPrint <$> response), mem', Ok Continue)
    | (mem', Raise e) =>
        ([EPrint announce; EAinvoke messages thread_id], mem', Raise e)
    end.
Proof.
  rewrite bind_run. unfold print. rewrite emit_run. cbv beta iota.
  rewrite bind_run, agent_ainvoke_run.
  destruct (ainvoke agent messages thread_id mem) as [mem' [response|e]]; simpl.
  - rewrite bind_run, pretty_print_all_run. simpl.
    rewrite app_nil_r. reflexivity.
  - reflexivity.
Qed.

Lemma turn_body_input_raises (e : PyExc) mem :
  turn_body ainvoke w agent thread_id (Raise e) mem =
    ([EInput (nl +:+ "You: ")], mem, Raise e).
Proof. reflexivity. Qed.

Lemma turn_body_exit (line : string) mem :
  py_lower w (py_strip w line) ∈ ["quit"; "exit"; "q"] ->
  turn_body ainvoke w agent thread_id (Ok line) mem =
    ([EInput (nl +:+ "You: "); EPrint "Goodbye! 👋"], mem, Ok Break).
Proof.
  intros Hexit. unfold turn_body. rewrite bind_run.
  unfold input at 1. rewrite bind_run, emit_run. cbv beta iota zeta.
  unfold lift. cbv beta iota zeta.
  rewrite bool_decide_eq_true_2 by exact Hexit. reflexivity.
Qed.

Lemma turn_body_test (line : string) mem :
  py_lower w (py_strip w line) = "test" ->
  turn_body ainvoke w agent thread_id (Ok line) mem =
    let messages :=
      [ {| role := "user";
           content := "Please summarize the logical network topology in OVN" |} ] in
    let asked := [ EInput (nl +:+ "You: ");
                   EPrint (nl +:+ "🔍 Running the usage test...");
                   EAinvoke messages thread_id ] in
    match ainvoke agent messages thread_id mem with
    | (mem', Ok response) => (asked ++ (EPrettyPrint <$> response), mem', Ok Continue)
    | (mem', Raise e) => (asked, mem', Raise e)
    end.
Proof.
  intros Htest. unfold turn_body. rewrite bind_run.
  unfold input at 1. rewrite bind_run, emit_run. cbv beta iota zeta.
  unfold lift. cbv beta iota zeta. rewrite Htest.
  replace (bool_decide ("test" ∈ ["quit"; "exit"; "q"])) with false
    by (vm_compute; reflexivity).
  destruct (decide ("test" = "test")) as [_|Hne]; [|contradiction].
  rewrite ask_run.
  destruct (ainvoke agent _ thread_id mem) as [mem' [response|e]]; reflexivity.
Qed.

Lemma turn_body_forward (line : string) mem :
  py_lower w (py_strip w line) ∉ ["quit"; "exit"; "q"] ->
  py_lower w (py_strip w line) <> "test" ->
  turn_body ainvoke w agent thread_id (Ok line) mem =
    let messages := [ {| role := "user"; content := py_strip w line |} ] in
    let asked := [ EInput (nl +:+ "You: ");
                   EPrint (nl +:+ "🔍 Researching...");
                   EAinvoke messages thread_id ] in
    match ainvoke agent messages thread_id mem with
    | (mem', Ok response) => (asked ++ (EPrettyPrint <$> response), mem', Ok Continue)
    | (mem', Raise e) => (asked, mem', Raise e)
    end.
Proof.
  intros Hexit Htest. unfold turn_body. rewrite bind_run.
  unfold input at 1. rewrite bind_run, emit_run. cbv beta iota zeta.
  unfold lift. cbv beta iota zeta.
  rewrite bool_decide_eq_false_2 by exact Hexit.
  destruct (decide (py_lower w (py_strip w line) = "test")) as [Heq|_];
    [contradiction|].
  rewrite ask_run.
  destruct (ainvoke agent _ thread_id mem) as [mem' [response|e]]; reflexivity.
Qed.

(** The [except] clauses, applied to what the [try] block did. *)
Lemma turn_run (delivered : Result string) mem :
  turn ainvoke w agent thread_id delivered mem =
    match turn_body ainvoke w agent thread_id delivered mem with
    | (t, mem1, Ok flow) => (t, mem1, Ok flow)
    | (t, mem1, Raise KeyboardInterrupt) =>
        (t ++ [EPrint (nl +:+ nl +:+ "Goodbye! 👋")], mem1, Ok Break)
    | (t, mem1, Raise (PyException cls msg)) =>
        (t ++ [EPrint (nl +:+ "Error: " +:+ msg)], mem1, Ok Continue)
    | (t, mem1, Raise (PyBaseException cls msg)) =>
        (t ++ [], mem1, Raise (PyBaseException cls msg))
    end.
Proof.
  unfold turn, try_except.
  destruct (turn_body ainvoke w agent thread_id delivered mem) as [[t mem1] [flow|[| |]]];
    reflexivity.
Qed.

Lemma interactive_loop_cons (delivered : Result string)
      (script : list (Result string)) mem :
  interactive_loop ainvoke w agent thread_id (delivered :: script) mem =
    match turn ainvoke w agent thread_id delivered mem with
    | (t1, mem1, Ok Break) => (t1, mem1, Ok Exited)
    | (t1, mem1, Ok Continue) =>
        match interactive_loop ainvoke w agent thread_id script mem1 with
        | (t2, mem2, r) => (t1 ++ t2, mem2, r)
        end
    | (t1, mem1, Raise e) => (t1, mem1, Raise e)
    end.
Proof.
  simpl. rewrite bind_run.
  destruct (turn ainvoke w agent thread_id delivered mem) as [[t1 mem1] [[|]|e]];
    try reflexivity.
  simpl. rewrite app_nil_r. reflexivity.
Qed.

(** A script delivered in two parts: when the loop is still waiting after
    the first part, it goes on with the second from the memory reached. *)
Lemma interactive_loop_app (pre rest : list (Result string)) mem :
  interactive_loop ainvoke w agent thread_id (pre ++ rest) mem =
    match interactive_loop ainvoke w agent thread_id pre mem with
    | (t1, mem1, Ok AwaitingInput) =>
        match interactive_loop ainvoke w agent thread_id rest mem1 with
        | (t2, mem2, r) => (t1 ++ t2, mem2, r)
        end
    | other => other
    end.
Proof.
  revert mem. induction pre as [|delivered pre IH]; intros mem.
  - simpl. destruct (interactive_loop ainvoke w agent thread_id rest mem) as [[t2 mem2] r].
    reflexivity.
  - rewrite <- app_comm_cons, !interactive_loop_cons.
    destruct (turn ainvoke w agent thread_id delivered mem) as [[t1 mem1] [[|]|e]];
      try reflexivity.
    rewrite IH.
    destruct (interactive_loop ainvoke w agent thread_id pre mem1)
      as [[tp memp] [[|]|e]]; try reflexivity.
    destruct (interactive_loop ainvoke w agent thread_id rest memp) as [[t2 mem2] r].
    rewrite app_assoc. reflexivity.
Qed.

End Interactive.

Lemma invoked_pretty_print (messages : list Message) :
  invoked (EPrettyPrint <$> messages) = [].
Proof. induction messages as [|m messages IH]; [reflexivity|exact IH]. Qed.

Lemma invoked_app (t1 t2 : list Event) : invoked (t1 ++ t2) = invoked t1 ++ invoked t2.
Proof. apply omap_app. Qed.

(** C8. For every input line whose stripped, lowercased form (by the
    interpreter's own [str.strip] and [str.lower]) is [quit], [exit] or
    [q], whatever was delivered before
    it while the loop kept running: the loop ends ([Exited]); after what
    preceded, the trace holds only the prompt and the farewell, so the agent
    is not invoked on that input; the conversation memory is left as it
    was; and nothing delivered after the keyword is read. *)
Theorem exit_keyword_ends_loop {Memory : Type}
        (ainvoke : Agent -> list Message -> string -> Memory
                   -> Memory * Result (list Message))
        (w : World) (agent : Agent) (thread_id : string)
        (pre rest : list (Result string)) (line : string)
        (mem mem1 : Memory) (t1 : list Event) :
  interactive_loop ainvoke w agent thread_id pre mem = (t1, mem1, Ok AwaitingInput) ->
  py_lower w (py_strip w line) ∈ ["quit"; "exit"; "q"] ->
  interactive_loop ainvoke w agent thread_id (pre ++ Ok line :: rest) mem =
    (t1 ++ [EInput (nl +:+ "You: "); EPrint "Goodbye! 👋"], mem1, Ok Exited)
  /\ invoked (trace (interactive_loop ainvoke w agent thread_id
                       (pre ++ Ok line :: rest) mem)) = invoked t1.
Proof.
  intros Hpre Hexit.
  assert (Hrun : interactive_loop ainvoke w agent thread_id (pre ++ Ok line :: rest) mem =
                 (t1 ++ [EInput (nl +:+ "You: "); EPrint "Goodbye! 👋"], mem1, Ok Exited)).
  { rewrite interactive_loop_app, Hpre, interactive_loop_cons, turn_run.
    rewrite (turn_body_exit ainvoke w agent thread_id line mem1 Hexit).
    reflexivity. }
  split; [exact Hrun|].
  rewrite Hrun. unfold trace. simpl. rewrite invoked_app. simpl.
  apply app_nil_r.
Qed.

Lemma exit_keyword_ends_loop_witness :
  interactive_loop Demo.ainvoke Demo.healthy Demo.agent "1"
    ([Ok "show bridges"] ++ Ok " QUIT " :: [Ok "never read"]) [] =
    (trace (interactive_loop Demo.ainvoke Demo.healthy Demo.agent "1" [Ok "show bridges"] [])
       ++ [EInput (nl +:+ "You: "); EPrint "Goodbye! 👋"],
     ["show bridges"], Ok Exited)
  /\ invoked (trace (interactive_loop Demo.ainvoke Demo.healthy Demo.agent "1"
                       ([Ok "show bridges"] ++ Ok " QUIT " :: [Ok "never read"]) []))
     = invoked (trace (interactive_loop Demo.ainvoke Demo.healthy Demo.agent "1"
                         [Ok "show bridges"] [])).
Proof.
  apply (exit_keyword_ends_loop Demo.ainvoke Demo.healthy Demo.agent "1"
           [Ok "show bridges"] [Ok "never read"] " QUIT " [] ["show bridges"]).
  - vm_compute. reflexivity.
  - vm_compute. apply list_elem_of_here.
Defined.

(** C3, as stated, fails on the string: on the input [test] the agent is
    invoked with [Please summarize the logical network topology in OVN],
    not with [summarize the logical network topology]. *)
Lemma test_query_is_not_the_quoted_one :
  py_lower Demo.healthy (py_strip Demo.healthy " Test ") = "test"
  /\ invoked (trace (turn Demo.ainvoke Demo.healthy Demo.agent "1" (Ok " Test ") []))
     <> [ ([ {| role := "user";
                content := "summarize the logical network topology" |} ], "1") ].
Proof. split; [reflexivity|]. vm_compute. discriminate. Qed.

(** C3 (amended). In the interactive loop, whenever the user input (after
    stripping and lowercasing, by the interpreter's own [str.strip] and
    [str.lower]) equals [test], the agent is invoked exactly
    once, with exactly the fixed canned user message
    [Please summarize the logical network topology in OVN], the same string
    on every occurrence and whatever the conversation memory holds and
    whatever the agent answers. *)
Theorem test_keyword_issues_canned_query {Memory : Type}
        (ainvoke : Agent -> list Message -> string -> Memory
                   -> Memory * Result (list Message))
        (w : World) (agent : Agent) (thread_id : string) (line : string) (mem : Memory) :
  py_lower w (py_strip w line) = "test" ->
  invoked (trace (turn ainvoke w agent thread_id (Ok line) mem)) =
    [ ([ {| role := "user";
            content := "Please summarize the logical network topology in OVN" |} ],
       thread_id) ].
Proof.
  intros Htest. rewrite turn_run, (turn_body_test ainvoke w agent thread_id line mem Htest).
  cbv zeta.
  destruct (ainvoke agent _ thread_id mem) as [mem' [response|[|cls msg|cls msg]]];
    unfold trace; simpl; rewrite ?invoked_app, ?invoked_pretty_print; reflexivity.
Qed.

Lemma test_keyword_issues_canned_query_witness :
  invoked (trace (turn Demo.ainvoke Demo.healthy Demo.agent "1" (Ok "TEST") ["earlier question"])) =
    [ ([ {| role := "user";
            content := "Please summarize the logical network topology in OVN" |} ],
       "1") ].
Proof.
  apply (test_keyword_issues_canned_query Demo.ainvoke Demo.healthy Demo.agent "1" "TEST"
           ["earlier question"]).
  reflexivity.
Defined.

(** ** Errors during a turn *)

Section TurnErrors.
Context {Memory : Type}.
Variable ainvoke :
  Agent -> list Message -> string -> Memory -> Memory * Result (list Message).
Variable w : World.
Variable agent : Agent.
Variable thread_id : string.
Implicit Types mem : Memory.

Lemma loop_keyboard_interrupt (delivered : Result string)
      (script : list (Result string)) mem mem1 t :
  turn_body ainvoke w agent thread_id delivered mem = (t, mem1, Raise KeyboardInterrupt) ->
  interactive_loop ainvoke w agent thread_id (delivered :: script) mem =
    (t ++ [EPrint (nl +:+ nl +:+ "Goodbye! 👋")], mem1, Ok Exited).
Proof.
  intros Hbody. rewrite interactive_loop_cons, turn_run, Hbody. reflexivity.
Qed.

Lemma loop_exception (delivered : Result string)
      (script : list (Result string)) mem mem1 t cls msg :
  turn_body ainvoke w agent thread_id delivered mem = (t, mem1, Raise (PyException cls msg)) ->
  interactive_loop ainvoke w agent thread_id (delivered :: script) mem =
    match interactive_loop ainvoke w agent thread_id script mem1 with
    | (t2, mem2, r) => ((t ++ [EPrint (nl +:+ "Error: " +:+ msg)]) ++ t2, mem2, r)
    end.
Proof.
  intros Hbody. rewrite interactive_loop_cons, turn_run, Hbody. reflexivity.
Qed.

(** What a turn raises was raised by [input()] or by the agent. *)
Lemma turn_body_raise_origin (delivered : Result string) mem mem1 t e :
  turn_body ainvoke w agent thread_id delivered mem = (t, mem1, Raise e) ->
  delivered = Raise e
  \/ exists messages m, (ainvoke agent messages thread_id m).2 = Raise e.
Proof.
  destruct delivered as [line|e0].
  - intros Hbody. right.
    destruct (decide (py_lower w (py_strip w line) ∈ ["quit"; "exit"; "q"]))
      as [Hexit|Hexit].
    { rewrite (turn_body_exit ainvoke w agent thread_id line mem Hexit) in Hbody.
      discriminate. }
    destruct (decide (py_lower w (py_strip w line) = "test")) as [Htest|Htest].
    + rewrite (turn_body_test ainvoke w agent thread_id line mem Htest) in Hbody.
      cbv zeta in Hbody.
      destruct (ainvoke agent _ thread_id mem) as [mem' [response|e']] eqn:Hask;
        [discriminate|].
      inversion Hbody; subst. do 2 eexists. rewrite Hask. reflexivity.
    + rewrite (turn_body_forward ainvoke w agent thread_id line mem Hexit Htest) in Hbody.
      cbv zeta in Hbody.
      destruct (ainvoke agent _ thread_id mem) as [mem' [response|e']] eqn:Hask;
        [discriminate|].
      inversion Hbody; subst. do 2 eexists. rewrite Hask. reflexivity.
  - rewrite turn_body_input_raises. intros Hbody. inversion Hbody; subst.
    left. reflexivity.
Qed.

(** When the terminal and the agent raise nothing but [KeyboardInterrupt]
    and instances of [Exception], no run of the loop ends in a raised
    exception. *)
Lemma interactive_loop_never_raises (script : list (Result string)) mem :
  Forall ordinary script ->
  (forall messages m, ordinary (ainvoke agent messages thread_id m).2) ->
  exists loop_end,
    result (interactive_loop ainvoke w agent thread_id script mem) = Ok loop_end.
Proof.
  intros Hscript Hagent. revert mem.
  induction Hscript as [|delivered script Hd Hscript IH]; intros mem.
  - exists AwaitingInput. reflexivity.
  - rewrite interactive_loop_cons, turn_run.
    destruct (turn_body ainvoke w agent thread_id delivered mem)
      as [[t mem1] [[|]|[|cls msg|cls msg]]] eqn:Hbody.
    + destruct (IH mem1) as [loop_end Hend].
      destruct (interactive_loop ainvoke w agent thread_id script mem1) as [[t2 mem2] r].
      exists loop_end. exact Hend.
    + exists Exited. reflexivity.
    + exists Exited. reflexivity.
    + destruct (IH mem1) as [loop_end Hend].
      destruct (interactive_loop ainvoke w agent thread_id script mem1) as [[t2 mem2] r].
      exists loop_end. exact Hend.
    + exfalso.
      destruct (turn_body_raise_origin delivered mem mem1 t _ Hbody)
        as [->|(messages & m & Hm)].
      * exact Hd.
      * specialize (Hagent messages m). rewrite Hm in Hagent. exact Hagent.
Qed.

End TurnErrors.

(** C9, as stated, fails for the exceptions that are neither a
    [KeyboardInterrupt] nor an instance of [Exception]: when the turn is
    cancelled inside the agent ([asyncio.CancelledError]), the exception is
    not caught and not printed, the loop does not go on to the next input
    (one prompt only, the second line is never read) and the exception
    leaves [main]: a turn-time exception ends the process. *)
Lemma cancelled_turn_ends_the_process :
  result (interactive_loop Scenarios.cancellable Demo.healthy Demo.agent "1"
            [Ok "cancel"; Ok "show bridges"] [])
    = Raise (PyBaseException "CancelledError" "")
  /\ prompted (trace (interactive_loop Scenarios.cancellable Demo.healthy Demo.agent "1"
                        [Ok "cancel"; Ok "show bridges"] []))
     = [nl +:+ "You: "]
  /\ printed (trace (interactive_loop Scenarios.cancellable Demo.healthy Demo.agent "1"
                       [Ok "cancel"; Ok "show bridges"] []))
     = [nl +:+ "🔍 Researching..."]
  /\ result (main Scenarios.cancellable Demo.healthy (Demo.cli true false)
               [Ok "cancel"; Ok "show bridges"] [])
     = Raise (PyBaseException "CancelledError" "").
Proof. repeat split; vm_compute; reflexivity. Qed.

(** C9 (amended). In interactive mode: a [KeyboardInterrupt] raised during
    a turn (at the prompt or inside the agent) is answered with the
    farewell and the loop is left through [break]; any other exception
    raised during a turn that is an instance of [Exception] is caught and
    printed as [Error: ...] and the loop goes on with the next input from
    the memory the failed turn left; so when the terminal and the agent
    raise nothing else, no run of the loop ends in a raised exception,
    whatever is delivered.  An exception that is neither (a [BaseException]
    such as [asyncio.CancelledError] or [SystemExit]) is not caught: it
    ends the loop at once, unprinted, and leaves it. *)
Theorem turn_errors_are_contained {Memory : Type}
        (ainvoke : Agent -> list Message -> string -> Memory
                   -> Memory * Result (list Message))
        (w : World) (agent : Agent) (thread_id : string) :
  (forall delivered script (mem mem1 : Memory) t,
      turn_body ainvoke w agent thread_id delivered mem = (t, mem1, Raise KeyboardInterrupt) ->
      interactive_loop ainvoke w agent thread_id (delivered :: script) mem =
        (t ++ [EPrint (nl +:+ nl +:+ "Goodbye! 👋")], mem1, Ok Exited))
  /\ (forall delivered script (mem mem1 : Memory) t e,
      is_Exception e = true ->
      turn_body ainvoke w agent thread_id delivered mem = (t, mem1, Raise e) ->
      interactive_loop ainvoke w agent thread_id (delivered :: script) mem =
        match interactive_loop ainvoke w agent thread_id script mem1 with
        | (t2, mem2, r) => ((t ++ [EPrint (nl +:+ "Error: " +:+ str e)]) ++ t2, mem2, r)
        end)
  /\ (forall script (mem : Memory),
      Forall ordinary script ->
      (forall messages m, ordinary (ainvoke agent messages thread_id m).2) ->
      exists loop_end,
        result (interactive_loop ainvoke w agent thread_id script mem) = Ok loop_end)
  /\ (forall delivered script (mem mem1 : Memory) t cls msg,
      turn_body ainvoke w agent thread_id delivered mem
        = (t, mem1, Raise (PyBaseException cls msg)) ->
      interactive_loop ainvoke w agent thread_id (delivered :: script) mem
        = (t, mem1, Raise (PyBaseException cls msg))).
Proof.
  split; [|split; [|split]]; cycle 3.
  { intros delivered script mem mem1 t cls msg Hbody.
    rewrite interactive_loop_cons, turn_run, Hbody, app_nil_r. reflexivity. }
  - intros delivered script mem mem1 t Hbody.
    apply loop_keyboard_interrupt. exact Hbody.
  - intros delivered script mem mem1 t e He Hbody.
    destruct e as [|cls msg|cls msg]; try discriminate.
    apply (loop_exception ainvoke w agent thread_id delivered script mem mem1 t cls msg).
    exact Hbody.
  - intros script mem Hscript Hagent.
    apply interactive_loop_never_raises; assumption.
Qed.

Lemma demo_agent_ordinary (messages : list Message) (m : Demo.Memory) :
  ordinary (Demo.ainvoke Demo.agent messages "1" m).2.
Proof. unfold Demo.ainvoke. repeat case_bool_decide; exact I. Qed.

Lemma turn_errors_are_contained_witness :
  interactive_loop Demo.ainvoke Demo.healthy Demo.agent "1"
    [Raise KeyboardInterrupt; Ok "never read"] [] =
    ([EInput (nl +:+ "You: ")] ++ [EPrint (nl +:+ nl +:+ "Goodbye! 👋")], [], Ok Exited)
  /\ interactive_loop Demo.ainvoke Demo.healthy Demo.agent "1" [Ok "boom"; Ok "quit"] [] =
       match interactive_loop Demo.ainvoke Demo.healthy Demo.agent "1" [Ok "quit"] ["boom"] with
       | (t2, mem2, r) =>
           (([ EInput (nl +:+ "You: "); EPrint (nl +:+ "🔍 Researching...");
               EAinvoke [ {| role := "user"; content := "boom" |} ] "1" ]
               ++ [EPrint (nl +:+ "Error: "
                           +:+ str (RuntimeError "model endpoint unreachable"))])
              ++ t2, mem2, r)
       end
  /\ (exists loop_end,
       result (interactive_loop Demo.ainvoke Demo.healthy Demo.agent "1"
                 [ Ok "boom"; Ok "ctrl-c";
                   Raise (PyException "EOFError" "EOF when reading a line") ]
                 []) = Ok loop_end)
  /\ interactive_loop Scenarios.cancellable Demo.healthy Demo.agent "1"
       [Ok "cancel"; Ok "never read"] [] =
       ([ EInput (nl +:+ "You: "); EPrint (nl +:+ "🔍 Researching...");
          EAinvoke [ {| role := "user"; content := "cancel" |} ] "1" ],
        [], Raise (PyBaseException "CancelledError" "")).
Proof.
  split; [|split; [|split]].
  - apply (proj1 (turn_errors_are_contained Demo.ainvoke Demo.healthy Demo.agent "1")).
    vm_compute. reflexivity.
  - apply (proj1 (proj2 (turn_errors_are_contained Demo.ainvoke Demo.healthy
                           Demo.agent "1"))).
    + reflexivity.
    + vm_compute. reflexivity.
  - apply (proj1 (proj2 (proj2 (turn_errors_are_contained Demo.ainvoke Demo.healthy
                                  Demo.agent "1")))).
    + repeat constructor.
    + apply demo_agent_ordinary.
  - apply (proj2 (proj2 (proj2 (turn_errors_are_contained Scenarios.cancellable
                                  Demo.healthy Demo.agent "1")))).
    vm_compute. reflexivity.
Defined.

(** ** Runs of [main] *)

Lemma forallb_weaken {A : Type} (P Q : A -> bool) (l : list A) :
  (forall x, P x = true -> Q x = true) -> forallb P l = true -> forallb Q l = true.
Proof.
  intros Himp. induction l as [|x l IH]; simpl; [reflexivity|].
  intros H. apply andb_true_iff in H as [Hx Hl].
  rewrite (Himp x Hx), (IH Hl). reflexivity.
Qed.

(** Observations that a class of events excludes are empty. *)
Lemma omap_excluded {A B : Type} (P : A -> bool) (f : A -> option B) (t : list A) :
  (forall x, P x = true -> f x = None) -> forallb P t = true -> omap f t = [].
Proof.
  intros Hex. induction t as [|x t IH]; simpl; [reflexivity|].
  intros H. apply andb_true_iff in H as [Hx Ht].
  rewrite (Hex x Hx). apply IH. exact Ht.
Qed.

Lemma agents_created_app (t1 t2 : list Event) :
  agents_created (t1 ++ t2) = agents_created t1 ++ agents_created t2.
Proof. apply omap_app. Qed.

Lemma agents_created_none (t : list Event) :
  forallb (fun ev => negb (is_create_agent ev)) t = true -> agents_created t = [].
Proof.
  induction t as [|ev t IH]; simpl; [reflexivity|].
  intros H. apply andb_true_iff in H as [Hev Ht].
  destruct ev; simpl in *; try discriminate; apply IH; exact Ht.
Qed.

Section MainRuns.
Context {Memory : Type}.
Variable ainvoke :
  Agent -> list Message -> string -> Memory -> Memory * Result (list Message).
Variable w : World.
Implicit Types mem : Memory.

(** What a failed round raises is the error of one of its connections. *)
Lemma gather_tools_raise_origin (n : nat) (conns : list Connection) e :
  gather_tools w n conns = Raise e ->
  exists c, c ∈ conns /\ load_mcp_tools w n c = Raise e.
Proof.
  induction conns as [|c0 conns IH]; simpl; [discriminate|].
  destruct (load_mcp_tools w n c0) as [ts|e0] eqn:Hc0.
  - destruct (gather_tools w n conns) as [rest|e1]; [discriminate|].
    intros Heq. inversion Heq; subst.
    destruct (IH eq_refl) as (c & Hin & Hc).
    exists c. split; [apply list_elem_of_further; exact Hin|exact Hc].
  - intros Heq. inversion Heq; subst.
    exists c0. split; [apply list_elem_of_here|exact Hc0].
Qed.

(** [main] up to the choice of the front-end, when the command line, the
    model endpoint and both rounds of tool discovery are fine: the agent
    is created once, with the tools of the second round. *)
Lemma main_startup_run (args : Args) (script : list (Result string)) mem
      (p : Z) (tools0 tools : list Tool) :
  py_int w (getenv (environ w) "A2A_PORT" "8085") = inl p ->
  getenv (environ w) "RESEARCHER_MODEL_ENDPOINT_URL" "http://localhost:11434" <> "" ->
  gather_tools w 0 (queried (environ w) (arg_ic args) 0) = Ok tools0 ->
  gather_tools w 1 (queried (environ w) (arg_ic args) 1) = Ok tools ->
  let host := default (getenv (environ w) "A2A_HOST" "0.0.0.0") (arg_host args) in
  let port := default p (arg_port args) in
  let model :=
    {| base_url := getenv (environ w) "RESEARCHER_MODEL_ENDPOINT_URL"
                     "http://localhost:11434";
       api_key := "dummy";
       model_name := getenv (environ w) "RESEARCHER_MODEL_NAME" "default";
       max_tokens := 4096 |} in
  let agent := {| agent_model := model; agent_tools := tools;
                  agent_prompt := prompt |} in
  exists t_startup,
    agents_created t_startup = [agent]
    /\ forallb (fun ev => negb (is_health_thread ev || is_run_server ev
                            || is_ainvoke ev)) t_startup = true
    /\ main ainvoke w args script mem =
         match
           (if arg_interactive args
            then loop_end ← interactive ainvoke w agent script;
                 match loop_end with
                 | Exited => mret Returned
                 | AwaitingInput => mret Waiting
                 end
            else serve_a2a w agent host port;; mret Serving) mem
         with
         | (t, mem', r) => (t_startup ++ t, mem', r)
         end.
Proof.
  intros Hport Hurl H0 H1 host port model agent.
  destruct (create_agent_run w model tools mem) as (t_create & Hcreate & Hquiet).
  eexists. split; [|split]; cycle 2.
  - unfold main.
    rewrite bind_run, parse_args_run, Hport. cbv beta iota.
    rewrite bind_run, create_model_run. cbv zeta.
    destruct (decide (_ = "")) as [Heq|_]; [contradiction|].
    rewrite bind_run, load_tools_run. cbv zeta. rewrite H0, H1.
    rewrite bind_run. fold model. rewrite Hcreate. fold agent. fold host. fold port.
    match goal with
    | |- context [ (if arg_interactive args then ?a else ?b) mem ] =>
        destruct ((if arg_interactive args then a else b) mem) as [[t mem'] r]
    end.
    rewrite !app_assoc. reflexivity.
  - assert (Hnone : agents_created t_create = []).
    { apply agents_created_none. revert Hquiet. apply forallb_weaken.
      intros [] Hev; simpl in *; auto; discriminate. }
    rewrite !agents_created_app.
    change (agents_created (ECreateAgent agent :: t_create))
      with (agent :: agents_created t_create).
    rewrite Hnone. destruct (arg_ic args); reflexivity.
  - assert (Hq : forallb (fun ev => negb (is_health_thread ev || is_run_server ev
                                       || is_ainvoke ev)) t_create = true).
    { revert Hquiet. apply forallb_weaken.
      intros [] Hev; simpl in *; auto; discriminate. }
    rewrite !forallb_app. cbn [forallb]. rewrite Hq.
    destruct (arg_ic args); reflexivity.
Qed.

End MainRuns.

(** ** Health listener and network front-end *)

Lemma health_threads_app (t1 t2 : list Event) :
  health_threads (t1 ++ t2) = health_threads t1 ++ health_threads t2.
Proof. unfold health_threads, threads_started. rewrite omap_app, fmap_app. reflexivity. Qed.

Lemma health_threads_none (t : list Event) :
  forallb (fun ev => negb (is_health_thread ev)) t = true -> health_threads t = [].
Proof.
  unfold health_threads, threads_started.
  induction t as [|ev t IH]; simpl; [reflexivity|].
  intros H. apply andb_true_iff in H as [Hev Ht].
  destruct ev; simpl in *; try discriminate; apply IH; exact Ht.
Qed.

(** C10. In network mode, once the command line, the model endpoint and
    tool discovery are fine: if starting the health listener fails for any
    of its reasons ([int()] refuses [HEALTH_PORT], the port is out of
    range or already bound, no thread can be started), the exception is
    caught and logged as [Failed to start health check server: ...], no
    health thread runs, and startup goes on: the network front-end, already
    wrapped and given its card, prints its banner and enters [run_server],
    which is the last effect of the trace. *)
Theorem health_failure_does_not_stop_startup {Memory : Type}
        (ainvoke : Agent -> list Message -> string -> Memory
                   -> Memory * Result (list Message))
        (w : World) (args : Args) (script : list (Result string)) (mem : Memory)
        (p : Z) (tools0 tools : list Tool) (e : PyExc) :
  arg_interactive args = false ->
  py_int w (getenv (environ w) "A2A_PORT" "8085") = inl p ->
  getenv (environ w) "RESEARCHER_MODEL_ENDPOINT_URL" "http://localhost:11434" <> "" ->
  gather_tools w 0 (queried (environ w) (arg_ic args) 0) = Ok tools0 ->
  gather_tools w 1 (queried (environ w) (arg_ic args) 1) = Ok tools ->
  health_failure w e ->
  let host := default (getenv (environ w) "A2A_HOST" "0.0.0.0") (arg_host args) in
  let port := default p (arg_port args) in
  result (main ainvoke w args script mem) = Ok Serving
  /\ health_threads (trace (main ainvoke w args script mem)) = []
  /\ exists t_startup agent,
       trace (main ainvoke w args script mem) =
         t_startup
           ++ [ EToA2AServer agent; EAgentCard (agent_card host port);
                ELogError ("Failed to start health check server: " +:+ str e) ]
           ++ a2a_banner w host port ++ [ERunServer host port].
Proof.
  intros Hmode Hport Hurl H0 H1 Hfail host port.
  destruct (main_startup_run ainvoke w args script mem p tools0 tools Hport Hurl H0 H1)
    as (t_startup & _ & Hquiet & Hmain).
  rewrite Hmain, Hmode. clear Hmain.
  rewrite bind_run.
  rewrite (serve_a2a_run w _ _ _ mem _ (start_health_server_failure w e mem Hfail)).
  cbv beta iota. unfold trace, result. simpl. split; [reflexivity|]. split.
  - rewrite health_threads_app.
    rewrite (health_threads_none t_startup)
      by (revert Hquiet; apply forallb_weaken;
          intros [] Hev; simpl in *; auto; discriminate).
    reflexivity.
  - do 2 eexists. reflexivity.
Qed.

Lemma health_failure_does_not_stop_startup_witness :
  result (Demo.run (Demo.with_port_taken Demo.healthy) (Demo.cli false false) [])
    = Ok Serving
  /\ health_threads
       (trace (Demo.run (Demo.with_port_taken Demo.healthy) (Demo.cli false false) []))
     = []
  /\ exists t_startup agent,
       trace (Demo.run (Demo.with_port_taken Demo.healthy) (Demo.cli false false) []) =
         t_startup
           ++ [ EToA2AServer agent; EAgentCard (agent_card "0.0.0.0" 8085);
                ELogError ("Failed to start health check server: "
                           +:+ str (OSError "[Errno 98] Address already in use")) ]
           ++ a2a_banner (Demo.with_port_taken Demo.healthy) "0.0.0.0" 8085
           ++ [ERunServer "0.0.0.0" 8085].
Proof.
  apply (health_failure_does_not_stop_startup Demo.ainvoke
           (Demo.with_port_taken Demo.healthy) (Demo.cli false false) [] [] 8085
           (mjoin (Demo.tools_of <$> queried ∅ false 0))
           (mjoin (Demo.tools_of <$> queried ∅ false 1))).
  - reflexivity.
  - reflexivity.
  - vm_compute. discriminate.
  - vm_compute. reflexivity.
  - vm_compute. reflexivity.
  - apply (health_bind_refused _ 8086); [reflexivity|lia|reflexivity].
Defined.

(** ** Startup *)

(** C1. With [--ic] and every server answering, the first round of tool
    discovery fetches the tools of all five configured servers, but the
    agent is created with the tools of the second round, which asks the
    three servers of [MCP_SERVERS] only: the tools of the two cross-zone
    servers never reach the agent. *)
Theorem ic_tools_never_reach_agent :
  arg_ic (Demo.cli false true) = true
  /\ match gather_tools Demo.healthy 0 (queried (environ Demo.healthy) true 0) with
     | Ok tools0 => tool_name <$> tools0
     | Raise _ => []
     end
     = [ "list@http://localhost:8080"; "list@http://localhost:8081";
         "list@http://localhost:8082"; "list@http://localhost:8083";
         "list@http://localhost:8084" ]
  /\ (fun agent => tool_name <$> agent_tools agent) <$>
       agents_created (trace (Demo.run Demo.healthy (Demo.cli false true) []))
     = [ [ "list@http://localhost:8080"; "list@http://localhost:8081";
           "list@http://localhost:8082" ] ].
Proof. split; [|split]; vm_compute; reflexivity. Qed.

(** Whatever the flags, the tools given to the agent are those of the
    second round, over [MCP_SERVERS]. *)
Lemma agent_tools_are_second_round {Memory : Type}
      (ainvoke : Agent -> list Message -> string -> Memory
                 -> Memory * Result (list Message))
      (w : World) (args : Args) (script : list (Result string)) (mem : Memory)
      (p : Z) (tools0 tools : list Tool) :
  py_int w (getenv (environ w) "A2A_PORT" "8085") = inl p ->
  getenv (environ w) "RESEARCHER_MODEL_ENDPOINT_URL" "http://localhost:11434" <> "" ->
  gather_tools w 0 (queried (environ w) (arg_ic args) 0) = Ok tools0 ->
  gather_tools w 1 ((connection_of ∘ snd) <$> MCP_SERVERS (environ w)) = Ok tools ->
  exists t_startup t_front agent,
    trace (main ainvoke w args script mem) = t_startup ++ t_front
    /\ agents_created t_startup = [agent]
    /\ agent_tools agent = tools.
Proof.
  intros Hport Hurl H0 H1.
  destruct (main_startup_run ainvoke w args script mem p tools0 tools Hport Hurl H0 H1)
    as (t_startup & Hcreated & _ & Hmain).
  rewrite Hmain.
  match goal with
  | |- context [ (if arg_interactive args then ?a else ?b) mem ] =>
      destruct ((if arg_interactive args then a else b) mem) as [[t mem'] r]
  end.
  exists t_startup, t. eexists. split; [reflexivity|]. split; [exact Hcreated|reflexivity].
Qed.

(** C2, as stated, fails: with [RESEARCHER_MODEL_ENDPOINT_URL] missing from
    the environment nothing is raised; the default endpoint is used, the
    model client is built and the server starts. *)
Lemma missing_endpoint_does_not_raise :
  environ Demo.healthy !! "RESEARCHER_MODEL_ENDPOINT_URL" = None
  /\ result (Demo.run Demo.healthy (Demo.cli false false) []) = Ok Serving
  /\ base_url <$> models_built (trace (Demo.run Demo.healthy (Demo.cli false false) []))
     = ["http://localhost:11434"].
Proof. split; [|split]; vm_compute; reflexivity. Qed.

(** C2 (amended). If [RESEARCHER_MODEL_ENDPOINT_URL] is set to the empty
    string, the program raises a [ValueError] immediately and startup is
    fatal: no model client is built.  If the variable is missing from the
    environment, the default [http://localhost:11434] is used and (the
    command-line defaults being readable) the model client is built with
    it. *)
Theorem endpoint_empty_raises_missing_defaults {Memory : Type}
        (ainvoke : Agent -> list Message -> string -> Memory
                   -> Memory * Result (list Message))
        (w : World) (args : Args) (script : list (Result string)) (mem : Memory) :
  (environ w !! "RESEARCHER_MODEL_ENDPOINT_URL" = Some "" ->
     (exists msg, result (main ainvoke w args script mem) = Raise (ValueError msg))
     /\ models_built (trace (main ainvoke w args script mem)) = [])
  /\ (environ w !! "RESEARCHER_MODEL_ENDPOINT_URL" = None ->
      forall p, py_int w (getenv (environ w) "A2A_PORT" "8085") = inl p ->
      EChatOpenAI {| base_url := "http://localhost:11434"; api_key := "dummy";
                     model_name := getenv (environ w) "RESEARCHER_MODEL_NAME" "default";
                     max_tokens := 4096 |}
        ∈ trace (main ainvoke w args script mem)).
Proof.
  split.
  - intros Hempty. unfold main. rewrite bind_run, parse_args_run.
    destruct (py_int w _) as [p|msg].
    + cbv beta iota. rewrite bind_run, create_model_run. cbv zeta.
      rewrite (getenv_set _ _ _ _ Hempty).
      destruct (decide ("" = "")) as [_|Hne]; [|contradiction].
      split; [eexists; reflexivity|reflexivity].
    + split; [eexists; reflexivity|reflexivity].
  - intros Hmissing p Hport. unfold main.
    rewrite bind_run, parse_args_run, Hport. cbv beta iota.
    rewrite bind_run, create_model_run. cbv zeta.
    rewrite (getenv_unset _ _ _ Hmissing).
    destruct (decide ("http://localhost:11434" = "")) as [Heq|_]; [discriminate|].
    match goal with
    | |- context [ match ?f ?m mem with _ => _ end ] =>
        destruct (f m mem) as [[t mem'] r]
    end.
    unfold trace. simpl. do 4 apply list_elem_of_further. apply list_elem_of_here.
Qed.

Lemma endpoint_empty_raises_missing_defaults_witness :
  ((exists msg,
       result (Demo.run (Demo.with_env {[ "RESEARCHER_MODEL_ENDPOINT_URL" := "" ]}
                           Demo.healthy) (Demo.cli false false) [])
       = Raise (ValueError msg))
   /\ models_built
        (trace (Demo.run (Demo.with_env {[ "RESEARCHER_MODEL_ENDPOINT_URL" := "" ]}
                            Demo.healthy) (Demo.cli false false) [])) = [])
  /\ EChatOpenAI {| base_url := "http://localhost:11434"; api_key := "dummy";
                    model_name := getenv (environ Demo.healthy)
                                    "RESEARCHER_MODEL_NAME" "default";
                    max_tokens := 4096 |}
       ∈ trace (Demo.run Demo.healthy (Demo.cli true false) [Ok "quit"]).
Proof.
  split.
  - apply (proj1 (endpoint_empty_raises_missing_defaults Demo.ainvoke
                    (Demo.with_env {[ "RESEARCHER_MODEL_ENDPOINT_URL" := "" ]}
                       Demo.healthy) (Demo.cli false false) [] [])).
    vm_compute. reflexivity.
  - apply (proj2 (endpoint_empty_raises_missing_defaults Demo.ainvoke
                    Demo.healthy (Demo.cli true false) [Ok "quit"] [])
             eq_refl 8085).
    vm_compute. reflexivity.
Defined.

(** C5. Once the command line and the model endpoint are fine: if tool
    discovery fails for any one server asked in either round (any server of
    the registry in the first round, the IC servers included under [--ic];
    any server of [MCP_SERVERS] in the second), [main] ends by raising the
    error of a failing server of that run, and no agent is created: the
    trace holds no [create_react_agent], so no partial tool set is ever
    loaded into an agent. *)
Theorem discovery_failure_aborts_startup {Memory : Type}
        (ainvoke : Agent -> list Message -> string -> Memory
                   -> Memory * Result (list Message))
        (w : World) (args : Args) (script : list (Result string)) (mem : Memory)
        (p : Z) (n : nat) (c : Connection) (e : PyExc) :
  py_int w (getenv (environ w) "A2A_PORT" "8085") = inl p ->
  getenv (environ w) "RESEARCHER_MODEL_ENDPOINT_URL" "http://localhost:11434" <> "" ->
  (n < 2)%nat ->
  c ∈ queried (environ w) (arg_ic args) n ->
  load_mcp_tools w n c = Raise e ->
  (exists e' n' c',
      result (main ainvoke w args script mem) = Raise e'
      /\ (n' < 2)%nat
      /\ c' ∈ queried (environ w) (arg_ic args) n'
      /\ load_mcp_tools w n' c' = Raise e')
  /\ agents_created (trace (main ainvoke w args script mem)) = [].
Proof.
  intros Hport Hurl Hn Hin Hfail.
  unfold main.
  rewrite bind_run, parse_args_run, Hport. cbv beta iota.
  rewrite bind_run, create_model_run. cbv zeta.
  destruct (decide (_ = "")) as [Heq|_]; [contradiction|].
  rewrite bind_run, load_tools_run. cbv zeta.
  destruct (gather_tools w 0 (queried (environ w) (arg_ic args) 0))
    as [tools0|e0] eqn:H0.
  - destruct (gather_tools w 1 (queried (environ w) (arg_ic args) 1))
      as [tools|e1] eqn:H1.
    + exfalso.
      destruct n as [|[|n]]; [| |lia].
      * destruct (gather_tools_raises w 0 _ c e Hin Hfail) as (e' & Hg & _). congruence.
      * destruct (gather_tools_raises w 1 _ c e Hin Hfail) as (e' & Hg & _). congruence.
    + destruct (gather_tools_raise_origin w 1 _ e1 H1) as (c' & Hin' & Hc').
      split.
      * exists e1, 1%nat, c'. split; [reflexivity|]. split; [lia|]. split; assumption.
      * unfold trace. cbn [fst]. rewrite !agents_created_app.
        destruct e1; destruct (arg_ic args); reflexivity.
  - destruct (gather_tools_raise_origin w 0 _ e0 H0) as (c' & Hin' & Hc').
    split.
    + exists e0, 0%nat, c'. split; [reflexivity|]. split; [lia|]. split; assumption.
    + unfold trace. cbn [fst]. rewrite !agents_created_app.
      destruct (arg_ic args); reflexivity.
Qed.

Lemma discovery_failure_aborts_startup_witness :
  (exists e' n' c',
      result (Demo.run (Demo.with_server_down "http://localhost:8083" Demo.healthy)
                (Demo.cli false true) []) = Raise e'
      /\ (n' < 2)%nat
      /\ c' ∈ queried (environ (Demo.with_server_down "http://localhost:8083" Demo.healthy))
                true n'
      /\ load_mcp_tools (Demo.with_server_down "http://localhost:8083" Demo.healthy) n' c'
         = Raise e')
  /\ agents_created
       (trace (Demo.run (Demo.with_server_down "http://localhost:8083" Demo.healthy)
                 (Demo.cli false true) [])) = [].
Proof.
  apply (discovery_failure_aborts_startup Demo.ainvoke
           (Demo.with_server_down "http://localhost:8083" Demo.healthy)
           (Demo.cli false true) [] [] 8085 0
           {| transport := "streamable_http"; conn_url := "http://localhost:8083" |}
           (PyException "ConnectError" "All connection attempts failed")).
  - reflexivity.
  - vm_compute. discriminate.
  - lia.
  - vm_compute. do 3 apply list_elem_of_further. apply list_elem_of_here.
  - vm_compute. reflexivity.
Defined.

(** ** Where the health listener is started *)

Section NoHealthThread.
Context {Memory : Type}.
Variable ainvoke :
  Agent -> list Message -> string -> Memory -> Memory * Result (list Message).
Variable w : World.

(** Every event but the start of the health thread. *)
Let calm (ev : Event) : bool := negb (is_health_thread ev).

Lemma quiet_parse_args (args : Args) : quiet (Memory:=Memory) calm (parse_args w args).
Proof. unfold parse_args, int. quiet_steps. Qed.

Lemma quiet_create_model : quiet (Memory:=Memory) calm (create_model w).
Proof. unfold create_model. quiet_steps. Qed.

Lemma quiet_add_servers (servers : list (string * ServerConfig))
      (mcp_config : list (string * Connection)) :
  quiet (Memory:=Memory) calm (add_servers servers mcp_config).
Proof.
  revert mcp_config. induction servers as [|[server_name server_config] servers IH];
    intros mcp_config; simpl.
  - apply quiet_ret.
  - quiet_steps. apply IH.
Qed.

Lemma quiet_load_tools (args : Args) : quiet (Memory:=Memory) calm (load_tools w args).
Proof.
  unfold load_tools, get_tools, log_tools.
  pose proof quiet_add_servers as Hadd.
  quiet_steps; apply Hadd.
Qed.

Lemma quiet_create_agent (model : ChatOpenAI) (tools : list Tool) :
  quiet (Memory:=Memory) calm (create_agent w model tools).
Proof. unfold create_agent. quiet_steps. Qed.

Lemma quiet_agent_ainvoke (agent : Agent) (messages : list Message) (thread_id : string) :
  quiet calm (agent_ainvoke ainvoke agent messages thread_id).
Proof.
  intros mem. unfold agent_ainvoke.
  destruct (ainvoke agent messages thread_id mem). reflexivity.
Qed.

Lemma quiet_turn (agent : Agent) (thread_id : string) (delivered : Result string) :
  quiet calm (turn ainvoke w agent thread_id delivered).
Proof.
  pose proof quiet_agent_ainvoke as Hask.
  unfold turn, turn_body, input, pretty_print_all.
  quiet_steps; apply Hask.
Qed.

Lemma quiet_interactive_loop (agent : Agent) (thread_id : string)
      (script : list (Result string)) :
  quiet calm (interactive_loop ainvoke w agent thread_id script).
Proof.
  induction script as [|delivered script IH]; simpl.
  - apply quiet_ret.
  - apply quiet_bind; [apply quiet_turn|].
    intros [|]; [exact IH|apply quiet_ret].
Qed.

(** In interactive mode no run of [main] starts the health thread. *)
Lemma quiet_main_interactive (args : Args) (script : list (Result string)) :
  arg_interactive args = true -> quiet calm (main ainvoke w args script).
Proof.
  intros Hmode. unfold main. rewrite Hmode.
  apply quiet_bind; [apply quiet_parse_args|]. intros [host port].
  apply quiet_bind; [apply quiet_create_model|]. intros model.
  apply quiet_bind; [apply quiet_load_tools|]. intros tools.
  apply quiet_bind; [apply quiet_create_agent|]. intros agent.
  apply quiet_bind.
  - unfold interactive. pose proof (quiet_interactive_loop agent "1" script) as Hloop.
    quiet_steps.
  - intros [|]; apply quiet_ret.
Qed.

End NoHealthThread.

(** C6, as stated, fails in interactive mode: a complete interactive run
    (startup, one [quit]) starts no health listener, in a world where the
    listener can be started and where the network mode does start it.  It
    also fails for the invocations of network mode in which startup ends
    before the listener (a server that refuses tool discovery) or in which
    the listener cannot be started (the health port is taken). *)
Lemma interactive_run_starts_no_health_listener :
  arg_interactive (Demo.cli true false) = true
  /\ result (Demo.run Demo.healthy (Demo.cli true false) [Ok "quit"]) = Ok Returned
  /\ health_threads (trace (Demo.run Demo.healthy (Demo.cli true false) [Ok "quit"])) = []
  /\ health_threads (trace (Demo.run Demo.healthy (Demo.cli false false) [])) = [8086]
  /\ threads_started
       (trace (Demo.run (Demo.with_server_down "http://localhost:8081" Demo.healthy)
                 (Demo.cli false false) [])) = []
  /\ threads_started
       (trace (Demo.run (Demo.with_port_taken Demo.healthy) (Demo.cli false false) []))
     = [].
Proof. repeat split; vm_compute; reflexivity. Qed.

(** C6 (amended). The health listener belongs to the network front-end.  In
    interactive mode no run starts it, whatever the world and the inputs.
    In network mode, once the command line, the model endpoint and tool
    discovery are fine and the listener can be started ([HEALTH_PORT] is a
    port number, the socket can be bound, a thread can be started), the
    listener is started, exactly once, before the network front-end enters
    [run_server], and it runs on a background thread for the lifetime of
    the process: the one thread started is a daemon thread whose target is
    [serve_forever] of the server created for [0.0.0.0] and the health
    port, which only [shutdown()] ends and no statement of the program
    calls, and [main] does not return but stays in [run_server]. *)
Theorem health_listener_only_in_network_mode {Memory : Type}
        (ainvoke : Agent -> list Message -> string -> Memory
                   -> Memory * Result (list Message))
        (w : World) (args : Args) (script : list (Result string)) (mem : Memory) :
  (arg_interactive args = true ->
     health_threads (trace (main ainvoke w args script mem)) = [])
  /\ (arg_interactive args = false ->
      forall (p hp : Z) (tools0 tools : list Tool),
        py_int w (getenv (environ w) "A2A_PORT" "8085") = inl p ->
        getenv (environ w) "RESEARCHER_MODEL_ENDPOINT_URL" "http://localhost:11434" <> "" ->
        gather_tools w 0 (queried (environ w) (arg_ic args) 0) = Ok tools0 ->
        gather_tools w 1 (queried (environ w) (arg_ic args) 1) = Ok tools ->
        py_int w (getenv (environ w) "HEALTH_PORT" "8086") = inl hp ->
        0 <= hp <= 65535 ->
        server_bind w hp = None ->
        thread_start w = None ->
        result (main ainvoke w args script mem) = Ok Serving
        /\ health_threads (trace (main ainvoke w args script mem)) = [hp]
        /\ threads_started (trace (main ainvoke w args script mem))
           = [ {| serve_forever := {| bind_address := ("0.0.0.0", hp) |};
                  daemon := true |} ]
        /\ exists t_before t_after,
             trace (main ainvoke w args script mem) =
               t_before ++ [EHealthThread (health_thread hp)] ++ t_after
                 ++ [ERunServer
                       (default (getenv (environ w) "A2A_HOST" "0.0.0.0") (arg_host args))
                       (default p (arg_port args))]).
Proof.
  split.
  - intros Hmode. apply health_threads_none.
    apply (quiet_main_interactive ainvoke w args script Hmode mem).
  - intros Hmode p hp tools0 tools Hport Hurl H0 H1 Hhp Hrange Hbind Hthread.
    destruct (main_startup_run ainvoke w args script mem p tools0 tools Hport Hurl H0 H1)
      as (t_startup & _ & Hquiet & Hmain).
    rewrite Hmain, Hmode. clear Hmain.
    rewrite bind_run.
    rewrite (serve_a2a_run w _ _ _ mem _
               (start_health_server_started w hp mem Hhp Hrange Hbind Hthread)).
    cbv beta iota. unfold trace, result. simpl.
    assert (Hnone : threads_started t_startup = []).
    { apply (omap_excluded (fun ev => negb (is_health_thread ev || is_run_server ev
                                            || is_ainvoke ev))); [|exact Hquiet].
      intros [] Hev; first [reflexivity | discriminate]. }
    split; [reflexivity|]. split; [|split].
    + unfold health_threads, threads_started in *.
      rewrite omap_app, Hnone. reflexivity.
    + unfold threads_started in *. rewrite omap_app, Hnone. reflexivity.
    + match goal with
      | |- context [ EToA2AServer ?agent :: EAgentCard ?card :: _ ] =>
          exists (t_startup ++ [EToA2AServer agent; EAgentCard card])
      end.
      exists (ELogInfo ("Health check server started on port " +:+ PyStr.of_Z hp)
                :: a2a_banner w
                     (default (getenv (environ w) "A2A_HOST" "0.0.0.0") (arg_host args))
                     (default p (arg_port args))).
      rewrite <- app_assoc. reflexivity.
Qed.

Lemma health_listener_only_in_network_mode_witness :
  health_threads
    (trace (Demo.run Demo.healthy (Demo.cli true true) [Ok "test"; Ok "quit"])) = []
  /\ (result (Demo.run Demo.healthy (Demo.cli false false) []) = Ok Serving
      /\ health_threads (trace (Demo.run Demo.healthy (Demo.cli false false) [])) = [8086]
      /\ threads_started (trace (Demo.run Demo.healthy (Demo.cli false false) []))
         = [ {| serve_forever := {| bind_address := ("0.0.0.0", 8086) |};
                daemon := true |} ]
      /\ exists t_before t_after,
           trace (Demo.run Demo.healthy (Demo.cli false false) []) =
             t_before ++ [EHealthThread (health_thread 8086)] ++ t_after
               ++ [ERunServer
                     (default (getenv (environ Demo.healthy) "A2A_HOST" "0.0.0.0")
                        (arg_host (Demo.cli false false)))
                     (default 8085 (arg_port (Demo.cli false false)))]).
Proof.
  split.
  - apply (proj1 (health_listener_only_in_network_mode Demo.ainvoke Demo.healthy
                    (Demo.cli true true) [Ok "test"; Ok "quit"] [])).
    reflexivity.
  - apply (proj2 (health_listener_only_in_network_mode Demo.ainvoke Demo.healthy
                    (Demo.cli false false) [] [])
             eq_refl 8085 8086
             (mjoin (Demo.tools_of <$> queried ∅ false 0))
             (mjoin (Demo.tools_of <$> queried ∅ false 1))).
    + reflexivity.
    + vm_compute. discriminate.
    + vm_compute. reflexivity.
    + vm_compute. reflexivity.
    + reflexivity.
    + lia.
    + reflexivity.
    + reflexivity.
Defined.

(** * Further properties *)

(** ** The effects each part of [main] has *)

Lemma quiet_weaken {Memory A : Type} (P Q : Event -> bool) (m : M Memory A) :
  (forall ev, P ev = true -> Q ev = true) -> quiet P m -> quiet Q m.
Proof. intros Himp Hm mem. eapply forallb_weaken; [exact Himp|apply Hm]. Qed.

Section EventClasses.
Context {Memory : Type}.
Variable ainvoke :
  Agent -> list Message -> string -> Memory -> Memory * Result (list Message).
Variable w : World.

Lemma startup_parse_args (args : Args) :
  quiet (Memory:=Memory) startup_event (parse_args w args).
Proof. unfold parse_args, int. quiet_steps. Qed.

Lemma startup_create_model : quiet (Memory:=Memory) startup_event (create_model w).
Proof. unfold create_model. quiet_steps. Qed.

Lemma startup_add_servers (servers : list (string * ServerConfig))
      (mcp_config : list (string * Connection)) :
  quiet (Memory:=Memory) startup_event (add_servers servers mcp_config).
Proof.
  revert mcp_config. induction servers as [|[server_name server_config] servers IH];
    intros mcp_config; simpl.
  - apply quiet_ret.
  - quiet_steps. apply IH.
Qed.

Lemma startup_load_tools (args : Args) :
  quiet (Memory:=Memory) startup_event (load_tools w args).
Proof.
  unfold load_tools, get_tools, log_tools.
  pose proof startup_add_servers as Hadd.
  quiet_steps; apply Hadd.
Qed.

Lemma startup_create_agent (model : ChatOpenAI) (tools : list Tool) :
  quiet (Memory:=Memory) startup_event (create_agent w model tools).
Proof. unfold create_agent. quiet_steps. Qed.

Lemma interactive_agent_ainvoke (agent : Agent) (c : string) :
  quiet interactive_event
    (agent_ainvoke ainvoke agent [ {| role := "user"; content := c |} ] "1").
Proof.
  intros mem. unfold agent_ainvoke.
  destruct (ainvoke agent _ "1" mem). reflexivity.
Qed.

Lemma interactive_turn (agent : Agent) (delivered : Result string) :
  quiet interactive_event (turn ainvoke w agent "1" delivered).
Proof.
  pose proof (interactive_agent_ainvoke agent) as Hask.
  unfold turn, turn_body, input, pretty_print_all.
  quiet_steps; apply Hask.
Qed.

Lemma interactive_loop_events (agent : Agent) (script : list (Result string)) :
  quiet interactive_event (interactive_loop ainvoke w agent "1" script).
Proof.
  induction script as [|delivered script IH]; simpl.
  - apply quiet_ret.
  - apply quiet_bind; [apply interactive_turn|].
    intros [|]; [exact IH|apply quiet_ret].
Qed.

Lemma interactive_events (agent : Agent) (script : list (Result string)) :
  quiet interactive_event (interactive ainvoke w agent script).
Proof.
  unfold interactive. pose proof (interactive_loop_events agent script) as Hloop.
  quiet_steps.
Qed.

Lemma network_start_health_server :
  quiet (Memory:=Memory) network_event (_start_health_server w).
Proof. unfold _start_health_server, int, HTTPServer, Thread_start. quiet_steps. Qed.

Lemma network_serve_a2a (agent : Agent) (host : string) (port : Z) :
  quiet (Memory:=Memory) network_event (serve_a2a w agent host port).
Proof.
  unfold serve_a2a. pose proof network_start_health_server as Hhealth.
  quiet_steps.
Qed.

(** Every effect of a run of [main] is an effect of startup or of the
    front-end the command line selects. *)
Lemma main_events (args : Args) (script : list (Result string)) :
  quiet (fun ev => startup_event ev
                   || (if arg_interactive args then interactive_event ev
                       else network_event ev))
        (main ainvoke w args script).
Proof.
  assert (Hs : forall A (m : M Memory A), quiet startup_event m ->
               quiet (fun ev => startup_event ev
                                || (if arg_interactive args then interactive_event ev
                                    else network_event ev)) m).
  { intros A m. apply quiet_weaken. intros ev ->. reflexivity. }
  unfold main.
  apply quiet_bind; [apply Hs, startup_parse_args|]. intros [host port].
  apply quiet_bind; [apply Hs, startup_create_model|]. intros model.
  apply quiet_bind; [apply Hs, startup_load_tools|]. intros tools.
  apply quiet_bind; [apply Hs, startup_create_agent|]. intros agent.
  destruct (arg_interactive args).
  - apply quiet_bind.
    + eapply quiet_weaken; [|apply interactive_events].
      intros ev ->. apply orb_true_r.
    + intros [|]; apply quiet_ret.
  - apply quiet_bind; [|intros _; apply quiet_ret].
    eapply quiet_weaken; [|apply network_serve_a2a].
    intros ev ->. apply orb_true_r.
Qed.

End EventClasses.

(** ** Successful startup, in full *)

Section Startup.
Context {Memory : Type}.
Variable ainvoke :
  Agent -> list Message -> string -> Memory -> Memory * Result (list Message).
Variable w : World.
Implicit Types mem : Memory.

(** [main] up to the choice of the front-end, with the whole startup trace
    written out. *)
Lemma main_startup_trace (args : Args) (script : list (Result string)) mem
      (p : Z) (tools0 tools : list Tool) :
  py_int w (getenv (environ w) "A2A_PORT" "8085") = inl p ->
  getenv (environ w) "RESEARCHER_MODEL_ENDPOINT_URL" "http://localhost:11434" <> "" ->
  gather_tools w 0 (queried (environ w) (arg_ic args) 0) = Ok tools0 ->
  gather_tools w 1 (queried (environ w) (arg_ic args) 1) = Ok tools ->
  main ainvoke w args script mem =
    match
      (if arg_interactive args
       then loop_end ← interactive ainvoke w (agent_of w tools) script;
            match loop_end with
            | Exited => mret Returned
            | AwaitingInput => mret Waiting
            end
       else serve_a2a w (agent_of w tools)
              (default (getenv (environ w) "A2A_HOST" "0.0.0.0") (arg_host args))
              (default p (arg_port args));;
            mret Serving) mem
    with
    | (t, mem', r) => (startup_events w (arg_ic args) tools0 tools ++ t, mem', r)
    end.
Proof.
  intros Hport Hurl H0 H1.
  unfold main.
  rewrite bind_run, parse_args_run, Hport. cbv beta iota.
  rewrite bind_run, create_model_run. cbv zeta.
  destruct (decide (_ = "")) as [Heq|_]; [contradiction|].
  rewrite bind_run, load_tools_run. cbv zeta. rewrite H0, H1.
  rewrite bind_run. fold (model_of w).
  change (create_agent w (model_of w) tools mem)
    with (ECreateAgent (agent_of w tools)
            :: [ ELogInfo ("Agent created successfully with "
                           +:+ PyStr.of_nat (length tools) +:+ " tools");
                 ELogInfo ("Agent type: " +:+ agent_type_name);
                 EPrint "✅ Researcher initialized successfully!";
                 EPrint "I can gather information about Open Virtual Networking and Open vSwitch.";
                 EPrint "I can help you with:";
                 EPrint "- Network configuration data";
                 EPrint "- OVS/OVN database queries";
                 EPrint "- Network topology information";
                 EPrint "- Current network state";
                 EPrint (nl +:+ "Connected to "
                         +:+ PyStr.of_nat (length (MCP_SERVERS (environ w)))
                         +:+ " MCP servers with " +:+ PyStr.of_nat (length tools)
                         +:+ " tools") ],
          mem, Ok (agent_of w tools)).
  cbv beta iota.
  match goal with
  | |- context [ (if arg_interactive args then ?a else ?b) mem ] =>
      destruct ((if arg_interactive args then a else b) mem) as [[t mem'] r]
  end.
  unfold startup_events. rewrite <- !app_assoc. reflexivity.
Qed.

End Startup.

Section FrontEnds.
Context {Memory : Type}.
Variable ainvoke :
  Agent -> list Message -> string -> Memory -> Memory * Result (list Message).
Variable w : World.
Implicit Types mem : Memory.

(** A successful startup followed by the network front-end. *)
Lemma main_network_trace (args : Args) (script : list (Result string)) mem
      (p : Z) (tools0 tools : list Tool) :
  arg_interactive args = false ->
  py_int w (getenv (environ w) "A2A_PORT" "8085") = inl p ->
  getenv (environ w) "RESEARCHER_MODEL_ENDPOINT_URL" "http://localhost:11434" <> "" ->
  gather_tools w 0 (queried (environ w) (arg_ic args) 0) = Ok tools0 ->
  gather_tools w 1 (queried (environ w) (arg_ic args) 1) = Ok tools ->
  let host := default (getenv (environ w) "A2A_HOST" "0.0.0.0") (arg_host args) in
  let port := default p (arg_port args) in
  exists t_health,
    ((exists hp, t_health = [ EHealthThread (health_thread hp);
                              ELogInfo ("Health check server started on port "
                                        +:+ PyStr.of_Z hp) ])
     \/ (exists e, t_health = [ELogError ("Failed to start health check server: "
                                          +:+ str e)]))
    /\ main ainvoke w args script mem =
         (startup_events w (arg_ic args) tools0 tools
            ++ [EToA2AServer (agent_of w tools); EAgentCard (agent_card host port)]
            ++ t_health ++ a2a_banner w host port ++ [ERunServer host port],
          mem, Ok Serving).
Proof.
  intros Hmode Hport Hurl H0 H1 host port.
  destruct (start_health_server_total w mem) as (t_health & Hhealth & Hshape).
  exists t_health. split.
  - destruct Hshape as [[hp ->]|(e & _ & ->)]; [left|right]; eexists; reflexivity.
  - rewrite (main_startup_trace ainvoke w args script mem p tools0 tools Hport Hurl H0 H1).
    rewrite Hmode, bind_run.
    rewrite (serve_a2a_run w _ _ _ mem t_health Hhealth).
    unfold mret, M_ret. cbv beta iota. rewrite app_nil_r. reflexivity.
Qed.

(** A successful startup followed by the interactive front-end. *)
Lemma main_interactive_trace (args : Args) (script : list (Result string)) mem
      (p : Z) (tools0 tools : list Tool) :
  arg_interactive args = true ->
  py_int w (getenv (environ w) "A2A_PORT" "8085") = inl p ->
  getenv (environ w) "RESEARCHER_MODEL_ENDPOINT_URL" "http://localhost:11434" <> "" ->
  gather_tools w 0 (queried (environ w) (arg_ic args) 0) = Ok tools0 ->
  gather_tools w 1 (queried (environ w) (arg_ic args) 1) = Ok tools ->
  main ainvoke w args script mem =
    match interactive_loop ainvoke w (agent_of w tools) "1" script mem with
    | (t, mem', r) =>
        (startup_events w (arg_ic args) tools0 tools ++ interactive_banner ++ t,
         mem',
         match r with
         | Ok Exited => Ok Returned
         | Ok AwaitingInput => Ok Waiting
         | Raise e => Raise e
         end)
    end.
Proof.
  intros Hmode Hport Hurl H0 H1.
  rewrite (main_startup_trace ainvoke w args script mem p tools0 tools Hport Hurl H0 H1).
  rewrite Hmode, bind_run. unfold interactive.
  rewrite bind_run. unfold print. rewrite emit_run. cbv beta iota.
  rewrite bind_run, emit_run. cbv beta iota zeta.
  destruct (interactive_loop ainvoke w (agent_of w tools) "1" script mem)
    as [[t mem'] [[|]|e]]; unfold mret, M_ret; cbv beta iota; cbn [app];
    rewrite ?app_nil_r; reflexivity.
Qed.

(** The effects of the front-end alone. *)
Lemma front_end_events (args : Args) (agent : Agent) (host : string) (port : Z)
      (script : list (Result string)) :
  quiet (fun ev => if arg_interactive args then interactive_event ev
                   else network_event ev)
        (if arg_interactive args
         then loop_end ← interactive ainvoke w agent script;
              match loop_end with
              | Exited => mret Returned
              | AwaitingInput => mret Waiting
              end
         else serve_a2a w agent host port;; mret Serving).
Proof.
  destruct (arg_interactive args).
  - apply quiet_bind; [apply interactive_events|]. intros [|]; apply quiet_ret.
  - apply quiet_bind; [apply network_serve_a2a|]. intros _. apply quiet_ret.
Qed.

End FrontEnds.

Lemma served_app (t1 t2 : list Event) : served (t1 ++ t2) = served t1 ++ served t2.
Proof. apply omap_app. Qed.

Lemma cards_app (t1 t2 : list Event) : cards (t1 ++ t2) = cards t1 ++ cards t2.
Proof. apply omap_app. Qed.

Lemma printed_app (t1 t2 : list Event) : printed (t1 ++ t2) = printed t1 ++ printed t2.
Proof. apply omap_app. Qed.

Lemma prompted_app (t1 t2 : list Event) :
  prompted (t1 ++ t2) = prompted t1 ++ prompted t2.
Proof. apply omap_app. Qed.

Lemma models_built_app (t1 t2 : list Event) :
  models_built (t1 ++ t2) = models_built t1 ++ models_built t2.
Proof. apply omap_app. Qed.

Lemma logged_errors_app (t1 t2 : list Event) :
  logged_errors (t1 ++ t2) = logged_errors t1 ++ logged_errors t2.
Proof. apply omap_app. Qed.

Lemma discovery_calls_app (t1 t2 : list Event) :
  discovery_calls (t1 ++ t2) = discovery_calls t1 ++ discovery_calls t2.
Proof. apply omap_app. Qed.

Lemma startup_events_startup (w : World) (ic : bool) (tools0 tools : list Tool) :
  forallb startup_event (startup_events w ic tools0 tools) = true.
Proof. destruct ic; reflexivity. Qed.

(** Startup neither serves nor publishes a card, and neither prompts nor
    asks the agent. *)
Lemma served_startup (t : list Event) :
  forallb startup_event t = true -> served t = [].
Proof. apply omap_excluded. intros [] ?; (reflexivity || discriminate). Qed.

Lemma cards_startup (t : list Event) :
  forallb startup_event t = true -> cards t = [].
Proof. apply omap_excluded. intros [] ?; (reflexivity || discriminate). Qed.

Lemma prompted_startup (t : list Event) :
  forallb startup_event t = true -> prompted t = [].
Proof. apply omap_excluded. intros [] ?; (reflexivity || discriminate). Qed.

Lemma invoked_startup (t : list Event) :
  forallb startup_event t = true -> invoked t = [].
Proof. apply omap_excluded. intros [] ?; (reflexivity || discriminate). Qed.

(** ** The command line *)

(** X1. When [int()] refuses the text of [A2A_PORT], [main] raises the
    [ValueError] of that conversion before anything else happens: the
    trace is empty (nothing is printed, no model client is built, no server
    is asked), in both modes and even when [--port] is given on the
    command line, because the default is computed while the parser is
    built. *)
Theorem malformed_a2a_port_aborts_before_output {Memory : Type}
        (ainvoke : Agent -> list Message -> string -> Memory
                   -> Memory * Result (list Message))
        (w : World) (args : Args) (script : list (Result string)) (mem : Memory)
        (msg : string) :
  py_int w (getenv (environ w) "A2A_PORT" "8085") = inr msg ->
  main ainvoke w args script mem = ([], mem, Raise (ValueError msg)).
Proof.
  intros Hport. unfold main. rewrite bind_run, parse_args_run, Hport.
  reflexivity.
Qed.

Lemma malformed_a2a_port_aborts_before_output_witness :
  main Demo.ainvoke (Demo.with_env {[ "A2A_PORT" := "eighty" ]} Demo.healthy)
    {| arg_interactive := true; arg_host := None; arg_port := Some 9090;
       arg_ic := false |}
    [Ok "quit"] []
  = ([], [], Raise (ValueError "invalid literal for int() with base 10: 'eighty'")).
Proof.
  apply (malformed_a2a_port_aborts_before_output Demo.ainvoke
           (Demo.with_env {[ "A2A_PORT" := "eighty" ]} Demo.healthy)).
  vm_compute. reflexivity.
Defined.

(** ** The network front-end *)

(** X2. In network mode, after a successful startup, the address the
    server listens on is taken from the command line, else from the
    environment ([A2A_HOST], [A2A_PORT]), else from the defaults
    [0.0.0.0] and [8085]; [run_server] is entered exactly once, with that
    address, and the one agent card published carries the URL
    [http://host:port] built from the same host and port. *)
Theorem a2a_address_from_command_line_then_environment {Memory : Type}
        (ainvoke : Agent -> list Message -> string -> Memory
                   -> Memory * Result (list Message))
        (w : World) (args : Args) (script : list (Result string)) (mem : Memory)
        (p : Z) (tools0 tools : list Tool) :
  arg_interactive args = false ->
  py_int w (getenv (environ w) "A2A_PORT" "8085") = inl p ->
  getenv (environ w) "RESEARCHER_MODEL_ENDPOINT_URL" "http://localhost:11434" <> "" ->
  gather_tools w 0 (queried (environ w) (arg_ic args) 0) = Ok tools0 ->
  gather_tools w 1 (queried (environ w) (arg_ic args) 1) = Ok tools ->
  let host := default (getenv (environ w) "A2A_HOST" "0.0.0.0") (arg_host args) in
  let port := default p (arg_port args) in
  served (trace (main ainvoke w args script mem)) = [(host, port)]
  /\ card_url <$> cards (trace (main ainvoke w args script mem))
     = ["http://" +:+ host +:+ ":" +:+ PyStr.of_Z port].
Proof.
  intros Hmode Hport Hurl H0 H1 host port.
  destruct (main_network_trace ainvoke w args script mem p tools0 tools
              Hmode Hport Hurl H0 H1) as (t_health & Hshape & ->).
  fold host port. unfold trace. cbn [fst].
  rewrite !served_app, !cards_app.
  rewrite (served_startup _ (startup_events_startup w _ tools0 tools)).
  rewrite (cards_startup _ (startup_events_startup w _ tools0 tools)).
  destruct Hshape as [[hp ->]|[e ->]]; split; reflexivity.
Qed.

Lemma a2a_address_from_command_line_then_environment_witness :
  served (trace (Demo.run (Demo.with_env {[ "A2A_HOST" := "10.0.0.7";
                                            "A2A_PORT" := "9000" ]} Demo.healthy)
                   {| arg_interactive := false; arg_host := None;
                      arg_port := Some 9090; arg_ic := false |} []))
    = [("10.0.0.7", 9090)]
  /\ card_url <$> cards (trace (Demo.run (Demo.with_env {[ "A2A_HOST" := "10.0.0.7";
                                                           "A2A_PORT" := "9000" ]}
                                            Demo.healthy)
                                  {| arg_interactive := false; arg_host := None;
                                     arg_port := Some 9090; arg_ic := false |} []))
     = ["http://" +:+ "10.0.0.7" +:+ ":" +:+ PyStr.of_Z 9090].
Proof.
  assert (H := a2a_address_from_command_line_then_environment Demo.ainvoke
           (Demo.with_env {[ "A2A_HOST" := "10.0.0.7"; "A2A_PORT" := "9000" ]}
              Demo.healthy)
           {| arg_interactive := false; arg_host := None; arg_port := Some 9090;
              arg_ic := false |} [] [] 9000
           (mjoin (Demo.tools_of <$> queried ∅ false 0))
           (mjoin (Demo.tools_of <$> queried ∅ false 1))).
  apply H.
  - reflexivity.
  - vm_compute. reflexivity.
  - vm_compute. discriminate.
  - vm_compute. reflexivity.
  - vm_compute. reflexivity.
Defined.

(** X3. In network mode the banner prints the endpoint as the environment
    has it, without the default: when [RESEARCHER_MODEL_ENDPOINT_URL] is
    not set, the line reads [Using OpenAI-compatible model at: None] while
    the model client that was built points at [http://localhost:11434]. *)
Theorem banner_prints_unset_endpoint_as_None {Memory : Type}
        (ainvoke : Agent -> list Message -> string -> Memory
                   -> Memory * Result (list Message))
        (w : World) (args : Args) (script : list (Result string)) (mem : Memory)
        (p : Z) (tools0 tools : list Tool) :
  arg_interactive args = false ->
  environ w !! "RESEARCHER_MODEL_ENDPOINT_URL" = None ->
  py_int w (getenv (environ w) "A2A_PORT" "8085") = inl p ->
  gather_tools w 0 (queried (environ w) (arg_ic args) 0) = Ok tools0 ->
  gather_tools w 1 (queried (environ w) (arg_ic args) 1) = Ok tools ->
  "Using OpenAI-compatible model at: None"
    ∈ printed (trace (main ainvoke w args script mem))
  /\ base_url <$> models_built (trace (main ainvoke w args script mem))
     = ["http://localhost:11434"].
Proof.
  intros Hmode Hmissing Hport H0 H1.
  assert (Hurl : getenv (environ w) "RESEARCHER_MODEL_ENDPOINT_URL"
                   "http://localhost:11434" <> "").
  { rewrite (getenv_unset _ _ _ Hmissing). discriminate. }
  destruct (main_network_trace ainvoke w args script mem p tools0 tools
              Hmode Hport Hurl H0 H1) as (t_health & Hshape & ->).
  unfold trace. cbn [fst]. split.
  - rewrite !printed_app.
    apply elem_of_app. right. apply elem_of_app. right. apply elem_of_app. right.
    apply elem_of_app. left.
    unfold a2a_banner. rewrite Hmissing.
    do 3 apply list_elem_of_further. apply list_elem_of_here.
  - rewrite !models_built_app.
    assert (Hstart : models_built (startup_events w (arg_ic args) tools0 tools)
                     = [model_of w]) by (destruct (arg_ic args); reflexivity).
    rewrite Hstart.
    destruct Hshape as [[hp ->]|[e ->]]; cbn;
      unfold getenv; rewrite Hmissing; reflexivity.
Qed.

Lemma banner_prints_unset_endpoint_as_None_witness :
  "Using OpenAI-compatible model at: None"
    ∈ printed (trace (Demo.run Demo.healthy (Demo.cli false false) []))
  /\ base_url <$> models_built (trace (Demo.run Demo.healthy (Demo.cli false false) []))
     = ["http://localhost:11434"].
Proof.
  apply (banner_prints_unset_endpoint_as_None Demo.ainvoke Demo.healthy
           (Demo.cli false false) [] [] 8085
           (mjoin (Demo.tools_of <$> queried ∅ false 0))
           (mjoin (Demo.tools_of <$> queried ∅ false 1))).
  - reflexivity.
  - reflexivity.
  - reflexivity.
  - vm_compute. reflexivity.
  - vm_compute. reflexivity.
Defined.

(** ** The interactive front-end *)

(** X4. An input line that is neither an exit keyword nor [test] (after
    stripping and lowercasing) is forwarded to the agent: the agent is
    invoked exactly once, with one user message whose content is the line
    as [str.strip] leaves it, so in its original letter case;
    the conversation memory after the turn is the one the agent left; and
    when the agent answers, every message of the answer is printed, in
    order, and the loop continues.  An empty line is such a line. *)
Theorem other_input_is_forwarded_stripped {Memory : Type}
        (ainvoke : Agent -> list Message -> string -> Memory
                   -> Memory * Result (list Message))
        (w : World) (agent : Agent) (thread_id : string) (line : string) (mem : Memory) :
  py_lower w (py_strip w line) ∉ ["quit"; "exit"; "q"] ->
  py_lower w (py_strip w line) <> "test" ->
  let question := [ {| role := "user"; content := py_strip w line |} ] in
  invoked (trace (turn ainvoke w agent thread_id (Ok line) mem)) = [(question, thread_id)]
  /\ (turn ainvoke w agent thread_id (Ok line) mem).1.2
     = (ainvoke agent question thread_id mem).1
  /\ forall response,
       (ainvoke agent question thread_id mem).2 = Ok response ->
       trace (turn ainvoke w agent thread_id (Ok line) mem) =
         [ EInput (nl +:+ "You: "); EPrint (nl +:+ "🔍 Researching...");
           EAinvoke question thread_id ] ++ (EPrettyPrint <$> response)
       /\ result (turn ainvoke w agent thread_id (Ok line) mem) = Ok Continue.
Proof.
  intros Hexit Htest question.
  rewrite turn_run, (turn_body_forward ainvoke w agent thread_id line mem Hexit Htest).
  cbv zeta. fold question.
  destruct (ainvoke agent question thread_id mem)
    as [mem' [response|[|cls msg|cls msg]]];
    unfold trace, result; simpl;
    rewrite ?invoked_app, ?invoked_pretty_print;
    (split; [reflexivity|]); (split; [reflexivity|]);
    intros response' Hr; inversion Hr; subst; split; reflexivity.
Qed.

Lemma other_input_is_forwarded_stripped_witness :
  (invoked (trace (turn Demo.ainvoke Demo.healthy Demo.agent "1" (Ok "  Show Bridges ") []))
     = [([ {| role := "user"; content := "Show Bridges" |} ], "1")]
   /\ invoked (trace (turn Demo.ainvoke Demo.healthy Demo.agent "1" (Ok "   ") []))
     = [([ {| role := "user"; content := "" |} ], "1")]).
Proof.
  split.
  - apply (other_input_is_forwarded_stripped Demo.ainvoke Demo.healthy Demo.agent "1"
             "  Show Bridges " []).
    + vm_compute. intros H. repeat (apply elem_of_cons in H as [H|H]; [discriminate|]).
      apply elem_of_nil in H. exact H.
    + vm_compute. discriminate.
  - apply (other_input_is_forwarded_stripped Demo.ainvoke Demo.healthy Demo.agent "1" "   " []).
    + vm_compute. intros H. repeat (apply elem_of_cons in H as [H|H]; [discriminate|]).
      apply elem_of_nil in H. exact H.
    + vm_compute. discriminate.
Defined.

Lemma invoked_Forall (P : Event -> bool) (Q : list Message * string -> Prop)
      (t : list Event) :
  (forall messages thread_id,
      P (EAinvoke messages thread_id) = true -> Q (messages, thread_id)) ->
  forallb P t = true -> Forall Q (invoked t).
Proof.
  intros HPQ. induction t as [|ev t IH]; simpl; [constructor|].
  intros H. apply andb_true_iff in H as [Hev Ht].
  destruct ev; simpl; auto.
Qed.

(** X5. In interactive mode, whatever the world and the inputs, every
    invocation of the agent made during a run of [main] carries exactly
    one message, of role [user], and the thread id [1]: the whole
    interactive session is one conversation thread. *)
Theorem every_invocation_is_one_user_message_on_thread_1 {Memory : Type}
        (ainvoke : Agent -> list Message -> string -> Memory
                   -> Memory * Result (list Message))
        (w : World) (args : Args) (script : list (Result string)) (mem : Memory) :
  arg_interactive args = true ->
  Forall (fun call : list Message * string =>
            call.2 = "1"
            /\ exists c, call.1 = [ {| role := "user"; content := c |} ])
         (invoked (trace (main ainvoke w args script mem))).
Proof.
  intros Hmode.
  pose proof (main_events ainvoke w args script mem) as Hq. rewrite Hmode in Hq.
  eapply invoked_Forall; [|exact Hq].
  intros messages thread_id. cbn [startup_event orb].
  destruct messages as [|[r c] [|m2 messages]]; cbn; try discriminate.
  intros H. apply andb_true_iff in H as [Hrole Hthread].
  apply String.eqb_eq in Hrole. apply String.eqb_eq in Hthread.
  subst. split; [reflexivity|]. exists c. reflexivity.
Qed.

Lemma every_invocation_is_one_user_message_on_thread_1_witness :
  Forall (fun call : list Message * string =>
            call.2 = "1"
            /\ exists c, call.1 = [ {| role := "user"; content := c |} ])
         (invoked (trace (Demo.run Demo.healthy (Demo.cli true false)
                            [Ok "test"; Ok "Show Bridges"; Ok "boom"; Ok "q"]))).
Proof.
  apply (every_invocation_is_one_user_message_on_thread_1 Demo.ainvoke Demo.healthy
           (Demo.cli true false) [Ok "test"; Ok "Show Bridges"; Ok "boom"; Ok "q"] []).
  reflexivity.
Defined.

Lemma forallb_not_in {A : Type} (P : A -> bool) (l t1 t2 : list A) (y : A) :
  forallb P l = true -> P y = false -> l <> t1 ++ y :: t2.
Proof.
  intros Hl Hy ->. rewrite forallb_app in Hl. cbn in Hl.
  rewrite Hy, andb_false_r in Hl. discriminate.
Qed.

(** What follows the only element of its kind at the end of a list. *)
Lemma nothing_after_last {A : Type} (P : A -> bool) (l t1 t2 : list A) (x y : A) :
  forallb P l = true -> P y = false -> l ++ [x] = t1 ++ y :: t2 -> t2 = [].
Proof.
  intros Hl Hy. revert t1. induction l as [|a l IH]; intros t1 Heq.
  - destruct t1 as [|b t1]; cbn in Heq.
    + inversion Heq. reflexivity.
    + inversion Heq. destruct t1; discriminate.
  - cbn in Hl. apply andb_true_iff in Hl as [Ha Hl].
    destruct t1 as [|b t1]; cbn in Heq.
    + inversion Heq; subst. rewrite Hy in Ha. discriminate.
    + inversion Heq. apply (IH Hl t1). assumption.
Qed.

Section NetworkShape.
Context {Memory : Type}.
Variable ainvoke :
  Agent -> list Message -> string -> Memory -> Memory * Result (list Message).
Variable w : World.
Implicit Types mem : Memory.

Let before_serving (ev : Event) : bool := negb (is_run_server ev).

Lemma startup_before_serving (t : list Event) :
  forallb startup_event t = true -> forallb before_serving t = true.
Proof. apply forallb_weaken. intros [] ?; (reflexivity || discriminate). Qed.

(** In network mode the call of [run_server], the last statement of
    [main], is the last effect of a run that reaches it. *)
Lemma main_network_shape (args : Args) (script : list (Result string)) mem :
  arg_interactive args = false ->
  exists t,
    forallb before_serving t = true
    /\ (trace (main ainvoke w args script mem) = t
        \/ exists host port,
             trace (main ainvoke w args script mem) = t ++ [ERunServer host port]).
Proof.
  intros Hmode. unfold main. rewrite bind_run.
  pose proof (startup_before_serving _ (startup_parse_args w args mem)) as Hq0.
  destruct (parse_args w args mem) as [[t0 mem0] [[host port]|e0]]; cbn [fst] in Hq0.
  2:{ exists t0. split; [exact Hq0|]. left. reflexivity. }
  rewrite bind_run.
  pose proof (startup_before_serving _ (startup_create_model w mem0)) as Hq1.
  destruct (create_model w mem0) as [[t1 mem1] [model|e1]]; cbn [fst] in Hq1.
  2:{ exists (t0 ++ t1). split; [|left; reflexivity].
      rewrite forallb_app, Hq0, Hq1. reflexivity. }
  rewrite bind_run.
  pose proof (startup_before_serving _ (startup_load_tools w args mem1)) as Hq2.
  destruct (load_tools w args mem1) as [[t2 mem2] [tools|e2]]; cbn [fst] in Hq2.
  2:{ exists (t0 ++ t1 ++ t2). split; [|left; reflexivity].
      rewrite !forallb_app, Hq0, Hq1, Hq2. reflexivity. }
  rewrite bind_run.
  pose proof (startup_before_serving _ (startup_create_agent w model tools mem2)) as Hq3.
  destruct (create_agent w model tools mem2) as [[t3 mem3] [agent|e3]]; cbn [fst] in Hq3.
  2:{ exists (t0 ++ t1 ++ t2 ++ t3). split; [|left; reflexivity].
      rewrite !forallb_app, Hq0, Hq1, Hq2, Hq3. reflexivity. }
  rewrite Hmode, bind_run.
  destruct (start_health_server_total w mem3) as (t_health & Hhealth & Hshape).
  rewrite (serve_a2a_run w agent host port mem3 t_health Hhealth).
  unfold mret, M_ret. cbv beta iota. unfold trace. cbn [fst].
  exists (t0 ++ t1 ++ t2 ++ t3 ++ [EToA2AServer agent; EAgentCard (agent_card host port)]
            ++ t_health ++ a2a_banner w host port).
  split.
  - rewrite !forallb_app, Hq0, Hq1, Hq2, Hq3.
    destruct Hshape as [[hp ->]|(e & _ & ->)]; reflexivity.
  - right. exists host, port. rewrite app_nil_r, <- !app_assoc. reflexivity.
Qed.

Lemma main_ends_with_run_server (args : Args) (script : list (Result string)) mem
      (t1 t2 : list Event) (host : string) (port : Z) :
  arg_interactive args = false ->
  trace (main ainvoke w args script mem) = t1 ++ ERunServer host port :: t2 ->
  t2 = [].
Proof.
  intros Hmode Htrace.
  destruct (main_network_shape args script mem Hmode) as (t & Hq & [Ht|(h & q & Ht)]).
  - exfalso. rewrite Htrace in Ht. symmetry in Ht.
    exact (forallb_not_in before_serving t t1 t2 (ERunServer host port) Hq eq_refl Ht).
  - rewrite Htrace in Ht. symmetry in Ht.
    exact (nothing_after_last before_serving t t1 t2 (ERunServer h q)
             (ERunServer host port) Hq eq_refl Ht).
Qed.

End NetworkShape.

(** X6. In network mode the statements of [main] themselves never read
    the terminal and never call [agent.ainvoke]: whatever the world and
    whatever the terminal would deliver, everything [main] does up to and
    including its call of [run_server] (or up to the exception of a failed
    startup) holds no prompt and no invocation.  Asking the agent is left
    to the running server. *)
Theorem network_main_hands_over_without_asking {Memory : Type}
        (ainvoke : Agent -> list Message -> string -> Memory
                   -> Memory * Result (list Message))
        (w : World) (args : Args) (script : list (Result string)) (mem : Memory) :
  arg_interactive args = false ->
  prompted (trace (main ainvoke w args script mem)) = []
  /\ invoked (trace (main ainvoke w args script mem)) = []
  /\ forall t1 t2 host port,
       trace (main ainvoke w args script mem) = t1 ++ ERunServer host port :: t2 ->
       t2 = [].
Proof.
  intros Hmode.
  pose proof (main_events ainvoke w args script mem) as Hq. rewrite Hmode in Hq.
  split; [|split].
  - eapply omap_excluded; [|exact Hq]. intros [] ?; (reflexivity || discriminate).
  - eapply omap_excluded; [|exact Hq]. intros [] ?; (reflexivity || discriminate).
  - intros t1 t2 host port Htrace.
    apply (main_ends_with_run_server ainvoke w args script mem t1 t2 host port Hmode Htrace).
Qed.

Lemma network_main_hands_over_without_asking_witness :
  prompted (trace (Demo.run Demo.healthy (Demo.cli false true) [Ok "test"])) = []
  /\ invoked (trace (Demo.run Demo.healthy (Demo.cli false true) [Ok "test"])) = []
  /\ forall t1 t2 host port,
       trace (Demo.run Demo.healthy (Demo.cli false true) [Ok "test"])
         = t1 ++ ERunServer host port :: t2 ->
       t2 = [].
Proof.
  apply (network_main_hands_over_without_asking Demo.ainvoke Demo.healthy
           (Demo.cli false true) [Ok "test"] []).
  reflexivity.
Defined.

(** X7. In interactive mode no run of [main] touches the network
    front-end: the agent is never wrapped as an A2A server, no agent card
    is published and [run_server] is never entered, whatever the world and
    the inputs. *)
Theorem interactive_mode_never_serves {Memory : Type}
        (ainvoke : Agent -> list Message -> string -> Memory
                   -> Memory * Result (list Message))
        (w : World) (args : Args) (script : list (Result string)) (mem : Memory) :
  arg_interactive args = true ->
  served (trace (main ainvoke w args script mem)) = []
  /\ cards (trace (main ainvoke w args script mem)) = []
  /\ forallb (fun ev => negb (is_to_a2a_server ev))
       (trace (main ainvoke w args script mem)) = true.
Proof.
  intros Hmode.
  pose proof (main_events ainvoke w args script mem) as Hq. rewrite Hmode in Hq.
  split; [|split].
  - eapply omap_excluded; [|exact Hq].
    intros [] ?; first [reflexivity | discriminate].
  - eapply omap_excluded; [|exact Hq].
    intros [] ?; first [reflexivity | discriminate].
  - revert Hq. apply forallb_weaken. intros [] ?; first [reflexivity | discriminate].
Qed.

Lemma interactive_mode_never_serves_witness :
  served (trace (Demo.run Demo.healthy (Demo.cli true false) [Ok "test"; Ok "q"])) = []
  /\ cards (trace (Demo.run Demo.healthy (Demo.cli true false) [Ok "test"; Ok "q"])) = []
  /\ forallb (fun ev => negb (is_to_a2a_server ev))
       (trace (Demo.run Demo.healthy (Demo.cli true false) [Ok "test"; Ok "q"])) = true.
Proof.
  apply (interactive_mode_never_serves Demo.ainvoke Demo.healthy
           (Demo.cli true false) [Ok "test"; Ok "q"] []).
  reflexivity.
Defined.



Section Turns.
Context {Memory : Type}.
Variable ainvoke :
  Agent -> list Message -> string -> Memory -> Memory * Result (list Message).
Variable w : World.
Variable agent : Agent.
Variable thread_id : string.
Implicit Types mem : Memory.




End Turns.



(** X9. An exception raised by [input()] itself that is an instance of
    [Exception] (such as the [EOFError] of a closed standard input) does
    not end the loop: for every sequence of such failures the loop prints
    one [Error: ...] line for each, never asks the agent, leaves the
    conversation memory as it was, and is back at the prompt. *)
Theorem prompt_errors_do_not_end_loop {Memory : Type}
        (ainvoke : Agent -> list Message -> string -> Memory
                   -> Memory * Result (list Message))
        (w : World) (agent : Agent) (thread_id : string)
        (errors : list (string * string)) (mem : Memory) :
  let script := (fun e : string * string => Raise (PyException e.1 e.2)) <$> errors in
  result (interactive_loop ainvoke w agent thread_id script mem) = Ok AwaitingInput
  /\ (interactive_loop ainvoke w agent thread_id script mem).1.2 = mem
  /\ invoked (trace (interactive_loop ainvoke w agent thread_id script mem)) = []
  /\ printed (trace (interactive_loop ainvoke w agent thread_id script mem))
     = (fun e : string * string => nl +:+ "Error: " +:+ e.2) <$> errors.
Proof.
  cbv zeta. induction errors as [|[cls msg] errors IH].
  - repeat split; reflexivity.
  - rewrite fmap_cons.
    rewrite (loop_exception ainvoke w agent thread_id _ _ mem mem
               [EInput (nl +:+ "You: ")] cls msg
               (turn_body_input_raises ainvoke w agent thread_id _ mem)).
    destruct IH as (Hr & Hm & Hi & Hp).
    destruct (interactive_loop ainvoke w agent thread_id _ mem) as [[t2 mem2] r].
    unfold trace, result in *. cbn [fst snd] in *. subst.
    repeat split.
    + rewrite invoked_app, Hi. reflexivity.
    + rewrite printed_app, Hp. reflexivity.
Qed.

(** ** Startup *)

Lemma agents_created_front_end (b : bool) (t : list Event) :
  forallb (fun ev => if b then interactive_event ev else network_event ev) t = true ->
  agents_created t = [].
Proof.
  apply omap_excluded. intros [] ?; destruct b; first [reflexivity | discriminate].
Qed.

Lemma discovery_calls_front_end (b : bool) (t : list Event) :
  forallb (fun ev => if b then interactive_event ev else network_event ev) t = true ->
  discovery_calls t = [].
Proof.
  apply omap_excluded. intros [] ?; destruct b; first [reflexivity | discriminate].
Qed.

(** X10. After a successful startup, in either mode and with or without
    [--ic], exactly one agent is created during the whole run, and it is
    given the model client built from the environment, the fixed system
    prompt and the tools of the second round of discovery, which asks the
    servers of [MCP_SERVERS] only. *)
Theorem one_agent_with_second_round_tools {Memory : Type}
        (ainvoke : Agent -> list Message -> string -> Memory
                   -> Memory * Result (list Message))
        (w : World) (args : Args) (script : list (Result string)) (mem : Memory)
        (p : Z) (tools0 tools : list Tool) :
  py_int w (getenv (environ w) "A2A_PORT" "8085") = inl p ->
  getenv (environ w) "RESEARCHER_MODEL_ENDPOINT_URL" "http://localhost:11434" <> "" ->
  gather_tools w 0 (queried (environ w) (arg_ic args) 0) = Ok tools0 ->
  gather_tools w 1 ((connection_of ∘ snd) <$> MCP_SERVERS (environ w)) = Ok tools ->
  agents_created (trace (main ainvoke w args script mem)) =
    [ {| agent_model :=
           {| base_url := getenv (environ w) "RESEARCHER_MODEL_ENDPOINT_URL"
                            "http://localhost:11434";
              api_key := "dummy";
              model_name := getenv (environ w) "RESEARCHER_MODEL_NAME" "default";
              max_tokens := 4096 |};
         agent_tools := tools;
         agent_prompt := prompt |} ].
Proof.
  intros Hport Hurl H0 H1.
  rewrite (main_startup_trace ainvoke w args script mem p tools0 tools Hport Hurl H0 H1).
  pose proof (front_end_events ainvoke w args (agent_of w tools)
                (default (getenv (environ w) "A2A_HOST" "0.0.0.0") (arg_host args))
                (default p (arg_port args)) script mem) as Hq.
  match goal with
  | |- context [ (if arg_interactive args then ?a else ?b) mem ] =>
      destruct ((if arg_interactive args then a else b) mem) as [[t mem'] r]
  end.
  unfold trace. cbn [fst] in *.
  rewrite agents_created_app, (agents_created_front_end _ _ Hq), app_nil_r.
  destruct (arg_ic args); reflexivity.
Qed.

Lemma one_agent_with_second_round_tools_witness :
  agents_created (trace (Demo.run Demo.healthy (Demo.cli true true) [Ok "quit"])) =
    [ {| agent_model :=
           {| base_url := getenv (environ Demo.healthy) "RESEARCHER_MODEL_ENDPOINT_URL"
                            "http://localhost:11434";
              api_key := "dummy";
              model_name := getenv (environ Demo.healthy) "RESEARCHER_MODEL_NAME"
                              "default";
              max_tokens := 4096 |};
         agent_tools := mjoin (Demo.tools_of <$> queried ∅ true 1);
         agent_prompt := prompt |} ].
Proof.
  apply (one_agent_with_second_round_tools Demo.ainvoke Demo.healthy
           (Demo.cli true true) [Ok "quit"] [] 8085
           (mjoin (Demo.tools_of <$> queried ∅ true 0))
           (mjoin (Demo.tools_of <$> queried ∅ true 1))).
  - reflexivity.
  - vm_compute. discriminate.
  - vm_compute. reflexivity.
  - vm_compute. reflexivity.
Defined.

(** X11. A successful startup calls [get_tools] exactly twice: first with
    one [streamable_http] connection for every server of the registry
    ([MCP_SERVERS], and [IC_MCP_SERVERS] under [--ic]), keyed by server
    name and in registry order, then with the connections of
    [MCP_SERVERS] alone; no front-end calls it again. *)
Theorem tools_are_discovered_twice {Memory : Type}
        (ainvoke : Agent -> list Message -> string -> Memory
                   -> Memory * Result (list Message))
        (w : World) (args : Args) (script : list (Result string)) (mem : Memory)
        (p : Z) (tools0 tools : list Tool) :
  py_int w (getenv (environ w) "A2A_PORT" "8085") = inl p ->
  getenv (environ w) "RESEARCHER_MODEL_ENDPOINT_URL" "http://localhost:11434" <> "" ->
  gather_tools w 0 (queried (environ w) (arg_ic args) 0) = Ok tools0 ->
  gather_tools w 1 (queried (environ w) (arg_ic args) 1) = Ok tools ->
  discovery_calls (trace (main ainvoke w args script mem)) =
    [ (fun entry : string * ServerConfig =>
         (entry.1, {| transport := "streamable_http"; conn_url := sc_url entry.2 |}))
        <$> (MCP_SERVERS (environ w)
               ++ (if arg_ic args then IC_MCP_SERVERS (environ w) else []));
      (fun entry : string * ServerConfig =>
         (entry.1, {| transport := "streamable_http"; conn_url := sc_url entry.2 |}))
        <$> MCP_SERVERS (environ w) ].
Proof.
  intros Hport Hurl H0 H1.
  rewrite (main_startup_trace ainvoke w args script mem p tools0 tools Hport Hurl H0 H1).
  pose proof (front_end_events ainvoke w args (agent_of w tools)
                (default (getenv (environ w) "A2A_HOST" "0.0.0.0") (arg_host args))
                (default p (arg_port args)) script mem) as Hq.
  match goal with
  | |- context [ (if arg_interactive args then ?a else ?b) mem ] =>
      destruct ((if arg_interactive args then a else b) mem) as [[t mem'] r]
  end.
  unfold trace. cbn [fst] in *.
  rewrite discovery_calls_app, (discovery_calls_front_end _ _ Hq), app_nil_r.
  destruct (arg_ic args); reflexivity.
Qed.

Lemma tools_are_discovered_twice_witness :
  discovery_calls (trace (Demo.run Demo.healthy (Demo.cli false true) [])) =
    [ (fun entry : string * ServerConfig =>
         (entry.1, {| transport := "streamable_http"; conn_url := sc_url entry.2 |}))
        <$> (MCP_SERVERS (environ Demo.healthy)
               ++ (if arg_ic (Demo.cli false true)
                   then IC_MCP_SERVERS (environ Demo.healthy) else []));
      (fun entry : string * ServerConfig =>
         (entry.1, {| transport := "streamable_http"; conn_url := sc_url entry.2 |}))
        <$> MCP_SERVERS (environ Demo.healthy) ].
Proof.
  apply (tools_are_discovered_twice Demo.ainvoke Demo.healthy
           (Demo.cli false true) [] [] 8085
           (mjoin (Demo.tools_of <$> queried ∅ true 0))
           (mjoin (Demo.tools_of <$> queried ∅ true 1))).
  - reflexivity.
  - vm_compute. discriminate.
  - vm_compute. reflexivity.
  - vm_compute. reflexivity.
Defined.

(** X12. The two rounds of discovery treat a failure differently.  When
    the first round fails, its error leaves [main] at once: nothing is
    logged as an error and the second round is not started.  When the
    second round fails, the same error leaves [main] too, after exactly
    one error log [Failed to load tools from MCP servers: ...] if it is an
    instance of [Exception], and with no error log otherwise. *)
Theorem discovery_failure_is_logged_in_second_round_only {Memory : Type}
        (ainvoke : Agent -> list Message -> string -> Memory
                   -> Memory * Result (list Message))
        (w : World) (args : Args) (script : list (Result string)) (mem : Memory)
        (p : Z) (e : PyExc) :
  py_int w (getenv (environ w) "A2A_PORT" "8085") = inl p ->
  getenv (environ w) "RESEARCHER_MODEL_ENDPOINT_URL" "http://localhost:11434" <> "" ->
  (gather_tools w 0 (queried (environ w) (arg_ic args) 0) = Raise e ->
     result (main ainvoke w args script mem) = Raise e
     /\ logged_errors (trace (main ainvoke w args script mem)) = []
     /\ length (discovery_calls (trace (main ainvoke w args script mem))) = 1%nat)
  /\ (forall tools0,
        gather_tools w 0 (queried (environ w) (arg_ic args) 0) = Ok tools0 ->
        gather_tools w 1 (queried (environ w) (arg_ic args) 1) = Raise e ->
        result (main ainvoke w args script mem) = Raise e
        /\ logged_errors (trace (main ainvoke w args script mem))
           = (if is_Exception e
              then ["Failed to load tools from MCP servers: " +:+ str e]
              else [])
        /\ length (discovery_calls (trace (main ainvoke w args script mem))) = 2%nat).
Proof.
  intros Hport Hurl.
  assert (Hmain : forall t mem1 e',
             load_tools w args mem = (t, mem1, Raise e') ->
             main ainvoke w args script mem =
               ([ EPrint "🔍 Network Researcher with OpenAI-compatible model";
                  EPrint "============================================================";
                  EPrint "This researcher uses an OpenAI-compatible server for inference!";
                  EPrint "============================================================";
                  EChatOpenAI (model_of w);
                  ELogInfo "Initializing Network Researcher with OpenAI-compatible model...";
                  ELogInfo ("Using model endpoint: " +:+ base_url (model_of w));
                  ELogInfo ("Using model: " +:+ model_name (model_of w)) ] ++ t,
                mem1, Raise e')).
  { intros t mem1 e' Hload. unfold main.
    rewrite bind_run, parse_args_run, Hport. cbv beta iota.
    rewrite bind_run, create_model_run. cbv zeta.
    destruct (decide (_ = "")) as [Heq|_]; [contradiction|].
    rewrite bind_run, Hload. reflexivity. }
  split.
  - intros H0.
    pose proof (load_tools_run w args mem) as Hload. cbv zeta in Hload.
    rewrite H0 in Hload. rewrite (Hmain _ _ _ Hload).
    unfold trace, result. cbn [fst snd].
    rewrite logged_errors_app, discovery_calls_app.
    split; [reflexivity|]. destruct (arg_ic args); split; reflexivity.
  - intros tools0 H0 H1.
    pose proof (load_tools_run w args mem) as Hload. cbv zeta in Hload.
    rewrite H0, H1 in Hload. rewrite (Hmain _ _ _ Hload).
    unfold trace, result. cbn [fst snd].
    rewrite !logged_errors_app, !discovery_calls_app.
    split; [reflexivity|].
    destruct (arg_ic args), e as [|cls msg|cls msg]; split; reflexivity.
Qed.

Lemma discovery_failure_is_logged_in_second_round_only_witness :
  (result (Demo.run (Demo.with_server_down "http://localhost:8084" Demo.healthy)
             (Demo.cli false true) [])
     = Raise (PyException "ConnectError" "All connection attempts failed")
   /\ logged_errors (trace (Demo.run (Demo.with_server_down "http://localhost:8084"
                                        Demo.healthy) (Demo.cli false true) [])) = []
   /\ length (discovery_calls
                (trace (Demo.run (Demo.with_server_down "http://localhost:8084"
                                    Demo.healthy) (Demo.cli false true) []))) = 1%nat)
  /\ (result (Demo.run (Scenarios.with_server_lost "http://localhost:8081" Demo.healthy)
                (Demo.cli false false) [])
        = Raise (PyException "ConnectError" "All connection attempts failed")
      /\ logged_errors (trace (Demo.run (Scenarios.with_server_lost "http://localhost:8081"
                                           Demo.healthy) (Demo.cli false false) []))
         = (if is_Exception (PyException "ConnectError" "All connection attempts failed")
            then ["Failed to load tools from MCP servers: "
                  +:+ str (PyException "ConnectError" "All connection attempts failed")]
            else [])
      /\ length (discovery_calls
                   (trace (Demo.run (Scenarios.with_server_lost "http://localhost:8081"
                                       Demo.healthy) (Demo.cli false false) []))) = 2%nat).
Proof.
  split.
  - apply (proj1 (discovery_failure_is_logged_in_second_round_only Demo.ainvoke
                    (Demo.with_server_down "http://localhost:8084" Demo.healthy)
                    (Demo.cli false true) [] [] 8085
                    (PyException "ConnectError" "All connection attempts failed")
                    eq_refl ltac:(vm_compute; discriminate))).
    vm_compute. reflexivity.
  - apply (proj2 (discovery_failure_is_logged_in_second_round_only Demo.ainvoke
                    (Scenarios.with_server_lost "http://localhost:8081" Demo.healthy)
                    (Demo.cli false false) [] [] 8085
                    (PyException "ConnectError" "All connection attempts failed")
                    eq_refl ltac:(vm_compute; discriminate))
             (mjoin (Demo.tools_of <$> queried ∅ false 0))).
    + vm_compute. reflexivity.
    + vm_compute. reflexivity.
Defined.

(** ** [extract_response_content] *)

Section ResponseContentFacts.
Variable str_of : PyObj.t -> Result string.
Import PyObj.

Lemma contains_dict (k : string) (d : gmap string t) :
  contains k (PDict d) = Ok (bool_decide (is_Some (d !! k))).
Proof. reflexivity. Qed.

Lemma truthy_snoc (l : list t) (x : t) : truthy (PList (l ++ [x])) = true.
Proof. destruct l; reflexivity. Qed.

(** What the function does on a dict, by the value under [messages]. *)
Lemma extract_no_messages (d : gmap string t) :
  d !! "messages" = None ->
  extract_response_content str_of (PDict d) =
    match str_of (PDict d) with Ok s => Ok (PStr s) | Raise e => Raise e end.
Proof.
  intros Hd. unfold extract_response_content. rewrite contains_dict, Hd.
  rewrite bool_decide_eq_false_2 by (intros [? ?]; discriminate).
  reflexivity.
Qed.

Lemma extract_messages (d : gmap string t) (messages : t) :
  d !! "messages" = Some messages ->
  extract_response_content str_of (PDict d) =
    if truthy messages then
      match getitem_last messages with
      | Ok last_message =>
          match contains "content" last_message with
          | Ok true => getitem last_message "content"
          | Ok false =>
              match str_of (PDict d) with Ok s => Ok (PStr s) | Raise e => Raise e end
          | Raise e => Raise e
          end
      | Raise e => Raise e
      end
    else match str_of (PDict d) with Ok s => Ok (PStr s) | Raise e => Raise e end.
Proof.
  intros Hd. unfold extract_response_content. rewrite contains_dict, Hd.
  rewrite bool_decide_eq_true_2 by (eexists; reflexivity).
  cbn. rewrite Hd. cbn.
  destruct (truthy messages); [|reflexivity].
  destruct (getitem_last messages) as [last_message|e]; [|reflexivity]. cbn.
  destruct (contains "content" last_message) as [[|]|e]; reflexivity.
Qed.

End ResponseContentFacts.

(** X13. For a response that is a dict whose [messages] entry is a
    non-empty list ending in a dict with a [content] entry,
    [extract_response_content] returns that entry: the content of the last
    message, whatever the earlier messages and the other entries are, and
    without rendering the response. *)
Theorem content_of_the_last_message_is_extracted
        (str_of : PyObj.t -> Result string)
        (d last_message : gmap string PyObj.t) (earlier : list PyObj.t)
        (c : PyObj.t) :
  d !! "messages" = Some (PyObj.PList (earlier ++ [PyObj.PDict last_message])) ->
  last_message !! "content" = Some c ->
  extract_response_content str_of (PyObj.PDict d) = Ok c.
Proof.
  intros Hd Hc. rewrite (extract_messages str_of d _ Hd), truthy_snoc.
  cbn [PyObj.getitem_last]. rewrite last_snoc.
  rewrite contains_dict, Hc.
  rewrite bool_decide_eq_true_2 by (eexists; reflexivity).
  cbn. rewrite Hc. reflexivity.
Qed.

Lemma content_of_the_last_message_is_extracted_witness :
  extract_response_content Scenarios.str_of (PyObj.PDict Scenarios.response)
    = Ok (PyObj.PStr "br-int, br-ex").
Proof.
  apply (content_of_the_last_message_is_extracted Scenarios.str_of
           Scenarios.response Scenarios.assistant_message
           [PyObj.PDict Scenarios.user_message]).
  - vm_compute. reflexivity.
  - vm_compute. reflexivity.
Defined.

(** X14. For a response that is a dict, [extract_response_content] falls
    back to [str(response)], the rendering of the whole response, in each
    of these cases: there is no [messages] entry; the entry is falsy (an
    empty list, [None], an empty string, ...); the entry is a list whose
    last element is a dict without a [content] entry. *)
Theorem response_without_content_is_rendered_whole
        (str_of : PyObj.t -> Result string) (d : gmap string PyObj.t) :
  (d !! "messages" = None
   \/ (exists messages, d !! "messages" = Some messages
                        /\ PyObj.truthy messages = false)
   \/ (exists earlier last_message,
         d !! "messages" = Some (PyObj.PList (earlier ++ [PyObj.PDict last_message]))
         /\ last_message !! "content" = None)) ->
  extract_response_content str_of (PyObj.PDict d) =
    match str_of (PyObj.PDict d) with
    | Ok s => Ok (PyObj.PStr s)
    | Raise e => Raise e
    end.
Proof.
  intros [Hd|[(messages & Hd & Hfalsy)|(earlier & last_message & Hd & Hc)]].
  - apply extract_no_messages. exact Hd.
  - rewrite (extract_messages str_of d _ Hd), Hfalsy. reflexivity.
  - rewrite (extract_messages str_of d _ Hd), truthy_snoc.
    cbn [PyObj.getitem_last]. rewrite last_snoc.
    rewrite contains_dict, Hc.
    rewrite bool_decide_eq_false_2 by (intros [? ?]; discriminate).
    reflexivity.
Qed.

Lemma response_without_content_is_rendered_whole_witness :
  extract_response_content Scenarios.str_of (PyObj.PDict ∅) = Ok (PyObj.PStr "{}")
  /\ extract_response_content Scenarios.str_of
       (PyObj.PDict {[ "messages" := PyObj.PList [] ]})
     = match Scenarios.str_of (PyObj.PDict {[ "messages" := PyObj.PList [] ]}) with
       | Ok s => Ok (PyObj.PStr s)
       | Raise e => Raise e
       end.
Proof.
  split.
  - rewrite (response_without_content_is_rendered_whole Scenarios.str_of ∅
               ltac:(left; vm_compute; reflexivity)).
    vm_compute. reflexivity.
  - apply (response_without_content_is_rendered_whole Scenarios.str_of
             {[ "messages" := PyObj.PList [] ]}).
    right. left. exists (PyObj.PList []). split; vm_compute; reflexivity.
Defined.

(** X15. When the last message is not a dict the function can raise: if it
    is a string in which [content] occurs, the membership test succeeds and
    the subscript that follows raises a [TypeError]; if it is [None], a
    boolean or an integer, the membership test itself raises a
    [TypeError]. *)
Theorem last_message_that_is_not_a_dict_raises
        (str_of : PyObj.t -> Result string)
        (d : gmap string PyObj.t) (earlier : list PyObj.t) (last_message : PyObj.t) :
  d !! "messages" = Some (PyObj.PList (earlier ++ [last_message])) ->
  ((exists s, last_message = PyObj.PStr s /\ PyObj.occurs "content" s = true)
   \/ last_message = PyObj.PNone
   \/ (exists b, last_message = PyObj.PBool b)
   \/ (exists z, last_message = PyObj.PInt z)) ->
  exists msg,
    extract_response_content str_of (PyObj.PDict d) = Raise (PyObj.TypeError msg).
Proof.
  intros Hd Hlast. rewrite (extract_messages str_of d _ Hd), truthy_snoc.
  cbn [PyObj.getitem_last]. rewrite last_snoc.
  destruct Hlast as [(s & -> & Hs)|[->|[[b ->]|[z ->]]]].
  - cbn [PyObj.contains]. rewrite Hs. eexists. reflexivity.
  - eexists. reflexivity.
  - eexists. reflexivity.
  - eexists. reflexivity.
Qed.

Lemma last_message_that_is_not_a_dict_raises_witness :
  exists msg,
    extract_response_content Scenarios.str_of
      (PyObj.PDict {[ "messages" := PyObj.PList [PyObj.PStr "no content yet"] ]})
    = Raise (PyObj.TypeError msg).
Proof.
  apply (last_message_that_is_not_a_dict_raises Scenarios.str_of
           {[ "messages" := PyObj.PList [PyObj.PStr "no content yet"] ]}
           [] (PyObj.PStr "no content yet")).
  - vm_compute. reflexivity.
  - left. exists "no content yet". split; reflexivity.
Defined.

(** ** The client example *)

(** Runs of the example are computed by unfolding its steps up to the
    next answer of the remote agent. *)
Ltac client_run :=
  unfold A2AClientExample.main, mbind, A2AClientExample.Run_bind,
    A2AClientExample.print, A2AClientExample.new_client, A2AClientExample.ask,
    A2AClientExample.try_except, A2AClientExample.raise;
  cbn.

Section ClientRuns.
Import A2AClientExample.
Context {Remote : Type}.
Variable A2AClient : string -> Remote -> Remote * Result unit.
Variable client_ask : string -> Remote -> Remote * Result string.
Implicit Types remote : Remote.

Lemma main_client_fails remote remote0 e :
  A2AClient "http://localhost:8085/" remote = (remote0, Raise e) ->
  main A2AClient client_ask remote = (opening, remote0, Raise e).
Proof. intros Hnew. client_run. rewrite Hnew. reflexivity. Qed.

Lemma main_first_fails remote remote0 remote1 e :
  A2AClient "http://localhost:8085/" remote = (remote0, Ok tt) ->
  client_ask "What are your capabilities?" remote0 = (remote1, Raise e) ->
  main A2AClient client_ask remote =
    (opening
       ++ [ Print (nl +:+ "📋 Getting agent capabilities...");
            Ask "What are your capabilities?" ]
       ++ report e,
     remote1, outcome e).
Proof.
  intros Hnew H1. client_run. rewrite Hnew. cbn. rewrite H1.
  unfold report, outcome. destruct e; reflexivity.
Qed.

Lemma main_second_fails remote remote0 remote1 remote2 capabilities e :
  A2AClient "http://localhost:8085/" remote = (remote0, Ok tt) ->
  client_ask "What are your capabilities?" remote0 = (remote1, Ok capabilities) ->
  client_ask "What tools do you have available?" remote1 = (remote2, Raise e) ->
  main A2AClient client_ask remote =
    (opening
       ++ [ Print (nl +:+ "📋 Getting agent capabilities...");
            Ask "What are your capabilities?";
            Print ("Capabilities:" +:+ nl +:+ capabilities);
            Print (nl +:+ "🛠️ Getting available tools...");
            Ask "What tools do you have available?" ]
       ++ report e,
     remote2, outcome e).
Proof.
  intros Hnew H1 H2. client_run. rewrite Hnew. cbn. rewrite H1. cbn. rewrite H2.
  unfold report, outcome. destruct e; reflexivity.
Qed.

Lemma main_third_fails remote remote0 remote1 remote2 remote3 capabilities tools e :
  A2AClient "http://localhost:8085/" remote = (remote0, Ok tt) ->
  client_ask "What are your capabilities?" remote0 = (remote1, Ok capabilities) ->
  client_ask "What tools do you have available?" remote1 = (remote2, Ok tools) ->
  client_ask "What bridges are currently configured in Open vSwitch?" remote2
    = (remote3, Raise e) ->
  main A2AClient client_ask remote =
    (opening
       ++ [ Print (nl +:+ "📋 Getting agent capabilities...");
            Ask "What are your capabilities?";
            Print ("Capabilities:" +:+ nl +:+ capabilities);
            Print (nl +:+ "🛠️ Getting available tools...");
            Ask "What tools do you have available?";
            Print ("Tools:" +:+ nl +:+ tools);
            Print (nl +:+ "❓ Asking a specific question...");
            Ask "What bridges are currently configured in Open vSwitch?" ]
       ++ report e,
     remote3, outcome e).
Proof.
  intros Hnew H1 H2 H3. client_run.
  rewrite Hnew. cbn. rewrite H1. cbn. rewrite H2. cbn. rewrite H3.
  unfold report, outcome. destruct e; reflexivity.
Qed.

Lemma main_all_answered remote remote0 remote1 remote2 remote3 capabilities tools answer :
  A2AClient "http://localhost:8085/" remote = (remote0, Ok tt) ->
  client_ask "What are your capabilities?" remote0 = (remote1, Ok capabilities) ->
  client_ask "What tools do you have available?" remote1 = (remote2, Ok tools) ->
  client_ask "What bridges are currently configured in Open vSwitch?" remote2
    = (remote3, Ok answer) ->
  main A2AClient client_ask remote =
    (opening
       ++ [ Print (nl +:+ "📋 Getting agent capabilities...");
            Ask "What are your capabilities?";
            Print ("Capabilities:" +:+ nl +:+ capabilities);
            Print (nl +:+ "🛠️ Getting available tools...");
            Ask "What tools do you have available?";
            Print ("Tools:" +:+ nl +:+ tools);
            Print (nl +:+ "❓ Asking a specific question...");
            Ask "What bridges are currently configured in Open vSwitch?";
            Print ("A: " +:+ answer) ],
     remote3, Ok tt).
Proof.
  intros Hnew H1 H2 H3. client_run.
  rewrite Hnew. cbn. rewrite H1. cbn. rewrite H2. cbn. rewrite H3. reflexivity.
Qed.

End ClientRuns.

(** X16. In the client example only the construction of the client can
    make [main] fail: when the questions raise nothing but instances of
    [Exception], [main] ends as the construction of the client ended
    (normally when the client was built, with its exception otherwise,
    since the client is built outside the [try] block), and the questions
    asked are an initial part of the three questions of the example, in
    their order. *)
Theorem only_client_construction_can_fail {Remote : Type}
        (A2AClient : string -> Remote -> Remote * Result unit)
        (client_ask : string -> Remote -> Remote * Result string)
        (remote : Remote) :
  (forall question r e, (client_ask question r).2 = Raise e -> is_Exception e = true) ->
  (A2AClientExample.main A2AClient client_ask remote).2
    = (A2AClient "http://localhost:8085/" remote).2
  /\ A2AClientExample.asked (A2AClientExample.main A2AClient client_ask remote).1.1
     `prefix_of` A2AClientExample.questions.
Proof.
  intros Hask.
  assert (Hexc : forall question r r' e,
             client_ask question r = (r', Raise e) ->
             A2AClientExample.outcome e = Ok tt
             /\ A2AClientExample.report e
                = [A2AClientExample.Print ("❌ Error: " +:+ str e)]).
  { intros question r r' e H. specialize (Hask question r e). rewrite H in Hask.
    specialize (Hask eq_refl). unfold A2AClientExample.outcome, A2AClientExample.report.
    rewrite Hask. split; reflexivity. }
  destruct (A2AClient "http://localhost:8085/" remote) as [remote0 [[]|e0]] eqn:Hnew.
  - destruct (client_ask "What are your capabilities?" remote0)
      as [remote1 [capabilities|e1]] eqn:H1.
    + destruct (client_ask "What tools do you have available?" remote1)
        as [remote2 [tools|e2]] eqn:H2.
      * destruct (client_ask "What bridges are currently configured in Open vSwitch?"
                    remote2) as [remote3 [answer|e3]] eqn:H3.
        -- rewrite (main_all_answered A2AClient client_ask _ _ _ _ _ _ _ _ Hnew H1 H2 H3).
           split; [reflexivity|]. exists []. reflexivity.
        -- rewrite (main_third_fails A2AClient client_ask _ _ _ _ _ _ _ _ Hnew H1 H2 H3).
           destruct (Hexc _ _ _ _ H3) as [-> ->].
           split; [reflexivity|]. exists []. reflexivity.
      * rewrite (main_second_fails A2AClient client_ask _ _ _ _ _ _ Hnew H1 H2).
        destruct (Hexc _ _ _ _ H2) as [-> ->].
        split; [reflexivity|]. eexists. reflexivity.
    + rewrite (main_first_fails A2AClient client_ask _ _ _ _ Hnew H1).
      destruct (Hexc _ _ _ _ H1) as [-> ->].
      split; [reflexivity|]. eexists. reflexivity.
  - rewrite (main_client_fails A2AClient client_ask _ _ _ Hnew).
    split; [reflexivity|]. eexists. reflexivity.
Qed.

Lemma down_from_raises_exceptions (n : nat) (question : string) (r : nat) (e : PyExc) :
  (Scenarios.down_from n question r).2 = Raise e -> is_Exception e = true.
Proof.
  unfold Scenarios.down_from. destruct (n <=? r)%nat; cbn; intros H; inversion H.
  reflexivity.
Qed.

Lemma only_client_construction_can_fail_witness :
  (A2AClientExample.main Scenarios.connect (Scenarios.down_from 1) 0%nat).2
    = (Scenarios.connect "http://localhost:8085/" 0%nat).2
  /\ A2AClientExample.asked
       (A2AClientExample.main Scenarios.connect (Scenarios.down_from 1) 0%nat).1.1
     `prefix_of` A2AClientExample.questions.
Proof.
  apply (only_client_construction_can_fail Scenarios.connect (Scenarios.down_from 1)
           0%nat).
  apply down_from_raises_exceptions.
Defined.

(** X17. Once the client is built, the first question that fails ends the
    session of the example: the questions after it are not asked and
    nothing more is printed, except that an instance of [Exception] is
    reported as one line [Error: ...] and [main] then returns normally,
    while anything else (a [KeyboardInterrupt]) leaves [main] unreported.
    This holds whichever of the three questions fails first. *)
Theorem first_failed_question_ends_the_session {Remote : Type}
        (A2AClient : string -> Remote -> Remote * Result unit)
        (client_ask : string -> Remote -> Remote * Result string)
        (remote remote0 : Remote) (e : PyExc) :
  A2AClient "http://localhost:8085/" remote = (remote0, Ok tt) ->
  (forall remote1,
      client_ask "What are your capabilities?" remote0 = (remote1, Raise e) ->
      A2AClientExample.main A2AClient client_ask remote =
        (A2AClientExample.opening
           ++ [ A2AClientExample.Print (nl +:+ "📋 Getting agent capabilities...");
                A2AClientExample.Ask "What are your capabilities?" ]
           ++ A2AClientExample.report e,
         remote1, A2AClientExample.outcome e))
  /\ (forall remote1 remote2 capabilities,
      client_ask "What are your capabilities?" remote0 = (remote1, Ok capabilities) ->
      client_ask "What tools do you have available?" remote1 = (remote2, Raise e) ->
      A2AClientExample.main A2AClient client_ask remote =
        (A2AClientExample.opening
           ++ [ A2AClientExample.Print (nl +:+ "📋 Getting agent capabilities...");
                A2AClientExample.Ask "What are your capabilities?";
                A2AClientExample.Print ("Capabilities:" +:+ nl +:+ capabilities);
                A2AClientExample.Print (nl +:+ "🛠️ Getting available tools...");
                A2AClientExample.Ask "What tools do you have available?" ]
           ++ A2AClientExample.report e,
         remote2, A2AClientExample.outcome e))
  /\ (forall remote1 remote2 remote3 capabilities tools,
      client_ask "What are your capabilities?" remote0 = (remote1, Ok capabilities) ->
      client_ask "What tools do you have available?" remote1 = (remote2, Ok tools) ->
      client_ask "What bridges are currently configured in Open vSwitch?" remote2
        = (remote3, Raise e) ->
      A2AClientExample.main A2AClient client_ask remote =
        (A2AClientExample.opening
           ++ [ A2AClientExample.Print (nl +:+ "📋 Getting agent capabilities...");
                A2AClientExample.Ask "What are your capabilities?";
                A2AClientExample.Print ("Capabilities:" +:+ nl +:+ capabilities);
                A2AClientExample.Print (nl +:+ "🛠️ Getting available tools...");
                A2AClientExample.Ask "What tools do you have available?";
                A2AClientExample.Print ("Tools:" +:+ nl +:+ tools);
                A2AClientExample.Print (nl +:+ "❓ Asking a specific question...");
                A2AClientExample.Ask
                  "What bridges are currently configured in Open vSwitch?" ]
           ++ A2AClientExample.report e,
         remote3, A2AClientExample.outcome e)).
Proof.
  intros Hnew. split; [|split].
  - intros remote1 H1. apply (main_first_fails A2AClient client_ask _ _ _ _ Hnew H1).
  - intros remote1 remote2 capabilities H1 H2.
    apply (main_second_fails A2AClient client_ask _ _ _ _ _ _ Hnew H1 H2).
  - intros remote1 remote2 remote3 capabilities tools H1 H2 H3.
    apply (main_third_fails A2AClient client_ask _ _ _ _ _ _ _ _ Hnew H1 H2 H3).
Qed.

Lemma first_failed_question_ends_the_session_witness :
  A2AClientExample.main Scenarios.connect (Scenarios.down_from 1) 0%nat =
    (A2AClientExample.opening
       ++ [ A2AClientExample.Print (nl +:+ "📋 Getting agent capabilities...");
            A2AClientExample.Ask "What are your capabilities?";
            A2AClientExample.Print ("Capabilities:" +:+ nl
                                    +:+ "re: What are your capabilities?");
            A2AClientExample.Print (nl +:+ "🛠️ Getting available tools...");
            A2AClientExample.Ask "What tools do you have available?" ]
       ++ A2AClientExample.report (PyException "ConnectionError" "connection refused"),
     2%nat,
     A2AClientExample.outcome (PyException "ConnectionError" "connection refused")).
Proof.
  apply (proj1 (proj2 (first_failed_question_ends_the_session Scenarios.connect
                         (Scenarios.down_from 1) 0%nat 0%nat
                         (PyException "ConnectionError" "connection refused")
                         eq_refl))
           1%nat 2%nat "re: What are your capabilities?").
  - reflexivity.
  - reflexivity.
Defined.

(** ** Order of startup and front-end *)

Section Order.
Context {Memory : Type}.
Variable ainvoke :
  Agent -> list Message -> string -> Memory -> Memory * Result (list Message).
Variable w : World.
Implicit Types mem : Memory.

(** A run of [main] is a startup part followed by a front-end part, and
    the front-end part is empty unless the startup part created the
    agent. *)
Lemma main_split (args : Args) (script : list (Result string)) mem :
  exists t_startup t_front,
    trace (main ainvoke w args script mem) = t_startup ++ t_front
    /\ forallb startup_event t_startup = true
    /\ (t_front = [] \/ agents_created t_startup <> []).
Proof.
  unfold main. rewrite bind_run.
  pose proof (startup_parse_args w args mem) as Hq0.
  destruct (parse_args w args mem) as [[t0 mem0] [[host port]|e0]]; cbn [fst] in Hq0.
  2:{ exists t0, []. rewrite app_nil_r. split; [reflexivity|]. split; [exact Hq0|].
      left. reflexivity. }
  rewrite bind_run.
  pose proof (startup_create_model w mem0) as Hq1.
  destruct (create_model w mem0) as [[t1 mem1] [model|e1]]; cbn [fst] in Hq1.
  2:{ exists (t0 ++ t1), []. rewrite app_nil_r. split; [reflexivity|].
      split; [|left; reflexivity]. rewrite forallb_app, Hq0, Hq1. reflexivity. }
  rewrite bind_run.
  pose proof (startup_load_tools w args mem1) as Hq2.
  destruct (load_tools w args mem1) as [[t2 mem2] [tools|e2]]; cbn [fst] in Hq2.
  2:{ exists (t0 ++ t1 ++ t2), []. rewrite app_nil_r. split; [reflexivity|].
      split; [|left; reflexivity]. rewrite !forallb_app, Hq0, Hq1, Hq2. reflexivity. }
  rewrite bind_run.
  pose proof (startup_create_agent w model tools mem2) as Hq3.
  destruct (create_agent_run w model tools mem2) as (t3 & Hcreate & _).
  rewrite Hcreate in Hq3 |- *. cbn [fst] in Hq3.
  match goal with
  | |- context [ (if arg_interactive args then ?a else ?b) mem2 ] =>
      destruct ((if arg_interactive args then a else b) mem2) as [[t4 mem4] r]
  end.
  exists (t0 ++ t1 ++ t2 ++ ECreateAgent {| agent_model := model; agent_tools := tools;
                                             agent_prompt := prompt |} :: t3), t4.
  unfold trace. cbn [fst]. split; [|split].
  - rewrite <- !app_assoc. reflexivity.
  - rewrite !forallb_app, Hq0, Hq1, Hq2, Hq3. reflexivity.
  - right. rewrite !agents_created_app. cbn.
    intros H. apply app_eq_nil in H as [_ H]. apply app_eq_nil in H as [_ H].
    apply app_eq_nil in H as [_ H]. discriminate.
Qed.

End Order.

(** X18. In every run of [main], whatever the world, the command line and
    the inputs, each effect that is not a startup effect (a prompt, an
    invocation of the agent, a printed answer, the A2A wrapping, the agent
    card, the health thread, [run_server]) comes after the agent was
    created: a startup that fails never reaches a front-end. *)
Theorem front_end_effects_follow_agent_creation {Memory : Type}
        (ainvoke : Agent -> list Message -> string -> Memory
                   -> Memory * Result (list Message))
        (w : World) (args : Args) (script : list (Result string)) (mem : Memory)
        (t1 t2 : list Event) (ev : Event) :
  trace (main ainvoke w args script mem) = t1 ++ ev :: t2 ->
  startup_event ev = false ->
  agents_created t1 <> [].
Proof.
  intros Htrace Hev.
  destruct (main_split ainvoke w args script mem)
    as (t_startup & t_front & Hsplit & Hstartup & Hfront).
  rewrite Htrace in Hsplit.
  apply app_eq_inv in Hsplit as [(k & -> & Hk)|(k & -> & Hk)].
  - destruct Hfront as [->|Hcreated].
    + destruct k; discriminate.
    + rewrite agents_created_app. intros H. apply app_eq_nil in H as [H _].
      contradiction.
  - destruct k as [|ev' k].
    + cbn in Hk.
      destruct Hfront as [->|Hcreated]; [discriminate|].
      rewrite app_nil_r in Hcreated. exact Hcreated.
    + exfalso. inversion Hk; subst.
      rewrite forallb_app in Hstartup. cbn in Hstartup.
      rewrite Hev in Hstartup. rewrite andb_false_r in Hstartup. discriminate.
Qed.

Lemma front_end_effects_follow_agent_creation_witness :
  agents_created
    (startup_events Demo.healthy false
       (mjoin (Demo.tools_of <$> queried ∅ false 0))
       (mjoin (Demo.tools_of <$> queried ∅ false 1))
       ++ interactive_banner) <> [].
Proof.
  apply (front_end_effects_follow_agent_creation Demo.ainvoke Demo.healthy
           (Demo.cli true false) [Ok "quit"] []
           (startup_events Demo.healthy false
              (mjoin (Demo.tools_of <$> queried ∅ false 0))
              (mjoin (Demo.tools_of <$> queried ∅ false 1))
              ++ interactive_banner)
           [EPrint "Goodbye! 👋"]
           (EInput (nl +:+ "You: "))).
  - vm_compute. reflexivity.
  - reflexivity.
Defined.

(** X19. The summary line printed at the end of a successful startup
    always announces three MCP servers, the size of [MCP_SERVERS], also
    under [--ic] when five servers were asked in the first round; the tool
    count it gives is the number of tools the agent received. *)
Theorem startup_summary_counts_base_servers {Memory : Type}
        (ainvoke : Agent -> list Message -> string -> Memory
                   -> Memory * Result (list Message))
        (w : World) (args : Args) (script : list (Result string)) (mem : Memory)
        (p : Z) (tools0 tools : list Tool) :
  py_int w (getenv (environ w) "A2A_PORT" "8085") = inl p ->
  getenv (environ w) "RESEARCHER_MODEL_ENDPOINT_URL" "http://localhost:11434" <> "" ->
  gather_tools w 0 (queried (environ w) (arg_ic args) 0) = Ok tools0 ->
  gather_tools w 1 (queried (environ w) (arg_ic args) 1) = Ok tools ->
  (nl +:+ "Connected to 3 MCP servers with " +:+ PyStr.of_nat (length tools)
      +:+ " tools")
    ∈ printed (trace (main ainvoke w args script mem)).
Proof.
  intros Hport Hurl H0 H1.
  rewrite (main_startup_trace ainvoke w args script mem p tools0 tools Hport Hurl H0 H1).
  match goal with
  | |- context [ (if arg_interactive args then ?a else ?b) mem ] =>
      destruct ((if arg_interactive args then a else b) mem) as [[t mem'] r]
  end.
  unfold trace. cbn [fst]. rewrite printed_app. apply elem_of_app. left.
  unfold startup_events. rewrite !printed_app.
  do 7 (apply elem_of_app; right).
  do 7 apply list_elem_of_further.
  replace (nl +:+ "Connected to 3 MCP servers with " +:+ PyStr.of_nat (length tools)
             +:+ " tools")
    with (nl +:+ "Connected to "
            +:+ PyStr.of_nat (length (MCP_SERVERS (environ w)))
            +:+ " MCP servers with " +:+ PyStr.of_nat (length tools) +:+ " tools").
  - apply list_elem_of_here.
  - change (length (MCP_SERVERS (environ w))) with 3%nat.
    replace (PyStr.of_nat 3) with "3" by (vm_compute; reflexivity).
    reflexivity.
Qed.

Lemma startup_summary_counts_base_servers_witness :
  (nl +:+ "Connected to 3 MCP servers with "
      +:+ PyStr.of_nat (length (mjoin (Demo.tools_of <$> queried ∅ true 1)))
      +:+ " tools")
    ∈ printed (trace (Demo.run Demo.healthy (Demo.cli false true) [])).
Proof.
  apply (startup_summary_counts_base_servers Demo.ainvoke Demo.healthy
           (Demo.cli false true) [] [] 8085
           (mjoin (Demo.tools_of <$> queried ∅ true 0))
           (mjoin (Demo.tools_of <$> queried ∅ true 1))).
  - reflexivity.
  - vm_compute. discriminate.
  - vm_compute. reflexivity.
  - vm_compute. reflexivity.
Defined.
